(** * Bitcoin-family sign-transaction flow of the X1 wallet firmware

    A shallow embedding of [apps/btc_family/btc_txn.c].  The flow is a
    single synchronous call chain that blocks on host round trips and on user
    prompts; it is modelled as a state-and-undefined-behaviour monad over

    - the module-level pointer [btc_txn_context] (NULL or an allocated
      context),
    - the caller's query buffer, which [btc_get_query] overwrites,
    - two oracles for what the outside world answers: the host's rounds and
      the user's decisions, indexed by how many were consumed so far,
    - the trace of calls the file makes to its collaborators (transport, UI,
      allocator), in program order. *)

From Stdlib Require Import ZArith List String Lia Bool.
From stdpp Require Import base list.
Import ListNotations.
Open Scope Z_scope.

(** ** Wire data (nanopb structures) *)

(** Discriminant of the sign-transaction request ([pb_size_t which_request]).
    The host controls it, so a value outside the five known tags is
    possible. *)
Inductive sign_txn_request_tag :=
| BTC_SIGN_TXN_REQUEST_INITIATE_TAG
| BTC_SIGN_TXN_REQUEST_META_TAG
| BTC_SIGN_TXN_REQUEST_INPUT_TAG
| BTC_SIGN_TXN_REQUEST_OUTPUT_TAG
| BTC_SIGN_TXN_REQUEST_SIGNATURE_TAG
| BTC_SIGN_TXN_REQUEST_OTHER (n : Z).

#[global] Instance sign_txn_request_tag_eq_dec : EqDecision sign_txn_request_tag.
Proof. solve_decision. Defined.

(** Discriminant of the sign-transaction response. *)
Inductive sign_txn_response_tag :=
| BTC_SIGN_TXN_RESPONSE_CONFIRMATION_TAG
| BTC_SIGN_TXN_RESPONSE_META_ACCEPTED_TAG
| BTC_SIGN_TXN_RESPONSE_INPUT_ACCEPTED_TAG
| BTC_SIGN_TXN_RESPONSE_OUTPUT_ACCEPTED_TAG
| BTC_SIGN_TXN_RESPONSE_SIGNATURE_TAG.

Inductive error_tag := ERROR_COMMON_ERROR_CORRUPT_DATA_TAG.

Inductive error_data_flow :=
| ERROR_DATA_FLOW_INVALID_REQUEST
| ERROR_DATA_FLOW_INVALID_DATA.

(** A nanopb bytes field: a declared length and a fixed-capacity buffer.
    The buffer is kept whole, so that a read past [pb_size] is expressible. *)
Record pb_bytes := { pb_size : Z; pb_buf : list Z }.

(** [buf[i]] for a byte buffer.  The C buffers have a fixed capacity; a list
    shorter than the capacity stands for a buffer whose remaining bytes are
    zero. *)
Definition byte_at (b : list Z) (i : nat) : Z := nth i b 0.

(** [memcpy(dst, src, n)] on byte buffers: byte [i] of the result is byte [i]
    of [src] for [i < n] and byte [i] of [dst] from [n] on.  The bytes of
    [src] are read with [byte_at], so a source list shorter than [n] gives
    the zeros it stands for and no byte of [dst] changes place. *)
Definition memcpy_bytes (dst src : list Z) (n : Z) : list Z :=
  map (byte_at src) (seq 0 (Z.to_nat n)) ++ skipn (Z.to_nat n) dst.

Record btc_sign_txn_initiate_request_t := {
  wallet_id : list Z;
  derivation_path : list Z      (* derivation_path[0 .. derivation_path_count) *)
}.

Record btc_sign_txn_metadata_t := {
  sighash : Z;
  input_count : Z;
  output_count : Z
}.

(** The input sub-request as the host sends it. *)
Record btc_sign_txn_input_t := {
  rq_prev_txn : pb_bytes;           (* input.prev_txn *)
  rq_prev_txn_hash : list Z;        (* input.prev_txn_hash *)
  rq_prev_output_index : Z;         (* input.prev_output_index *)
  rq_value : Z;                     (* input.value *)
  rq_script_pub_key : pb_bytes;     (* input.script_pub_key *)
  rq_sequence : Z;                  (* input.sequence *)
  rq_change_index : Z;              (* input.change_index *)
  rq_address_index : Z              (* input.address_index *)
}.

Record btc_sign_txn_output_t := {
  out_value : Z;                    (* output.value *)
  out_script_pub_key : pb_bytes;    (* output.script_pub_key *)
  is_change : bool
}.

(** [btc_sign_txn_request_t].  In C the payload is a union; its views are
    kept as separate fields, so that reading a view the discriminant does not
    select is expressible: it yields whatever the decoder left there. *)
Record btc_sign_txn_request_t := {
  which_request : sign_txn_request_tag;
  initiate : btc_sign_txn_initiate_request_t;
  meta : btc_sign_txn_metadata_t;
  input : btc_sign_txn_input_t;
  output : btc_sign_txn_output_t
}.

Record btc_query_t := { sign_txn : btc_sign_txn_request_t }.

(** ** Transaction context *)

(** An input record of the context. *)
Record btc_txn_input_t := {
  prev_txn_hash : list Z;
  prev_output_index : Z;
  value : Z;
  script_pub_key : pb_bytes;
  sequence : Z;
  change_index : Z;
  address_index : Z
}.

(** [inputs] and [outputs] are pointers: [None] is NULL, [Some l] an allocated
    array. *)
Record btc_txn_context_t := {
  init_info : btc_sign_txn_initiate_request_t;
  metadata : btc_sign_txn_metadata_t;
  inputs : option (list btc_txn_input_t);
  outputs : option (list btc_sign_txn_output_t)
}.

(** The context after [memzero]. *)
Definition zero_context : btc_txn_context_t :=
  {| init_info := {| wallet_id := repeat 0 32; derivation_path := [] |};
     metadata := {| sighash := 0; input_count := 0; output_count := 0 |};
     inputs := None;
     outputs := None |}.

Definition set_init_info (i : btc_sign_txn_initiate_request_t)
    (c : btc_txn_context_t) : btc_txn_context_t :=
  {| init_info := i; metadata := metadata c;
     inputs := inputs c; outputs := outputs c |}.

Definition set_metadata (m : btc_sign_txn_metadata_t)
    (c : btc_txn_context_t) : btc_txn_context_t :=
  {| init_info := init_info c; metadata := m;
     inputs := inputs c; outputs := outputs c |}.

Definition set_inputs (l : option (list btc_txn_input_t))
    (c : btc_txn_context_t) : btc_txn_context_t :=
  {| init_info := init_info c; metadata := metadata c;
     inputs := l; outputs := outputs c |}.

Definition set_outputs (l : option (list btc_sign_txn_output_t))
    (c : btc_txn_context_t) : btc_txn_context_t :=
  {| init_info := init_info c; metadata := metadata c;
     inputs := inputs c; outputs := l |}.

(** ** What the flow shows and sends *)

Inductive ui_text :=
| UI_TEXT_BTC_SEND_PROMPT (app_name wallet_name : string)
| UI_TEXT_BTC_RECEIVER (n : Z)
| UI_TEXT_BTC_FEE
| ui_text_warning_txn_fee_too_high
| ui_text_check_cysync
| ui_formatted (s : string).

(** Calls made by this file to its collaborators.  An array allocation is
    recorded with the byte count passed to [malloc] and with whether a block
    came back. *)
Inductive event :=
| EvMallocContext
| EvMallocInputs (bytes : Z) (allocated : bool)
| EvMallocOutputs (bytes : Z) (allocated : bool)
| EvFreeInputs
| EvFreeOutputs
| EvFreeContext
| EvGetQuery (ok : bool)
| EvSendError (tag : error_tag) (code : error_data_flow)
| EvSendResult (which_response : sign_txn_response_tag)
| EvConfirmation (msg : ui_text) (accepted : bool)
| EvScrollPage (title body : ui_text) (accepted : bool)
| EvSetFlowStatusConfirm
| EvDelayScr (msg : ui_text).

Record state := {
  btc_txn_context : option btc_txn_context_t;
  query : btc_query_t;
  host_rounds : nat;
  user_rounds : nat;
  trace : list event
}.

(** ** The monad: state passing, [None] for undefined behaviour *)

Definition M (A : Type) : Type := state -> option (A * state).

Definition ret {A} (a : A) : M A := fun s => Some (a, s).

Definition bind {A B} (m : M A) (k : A -> M B) : M B :=
  fun s => match m s with
           | Some (a, s') => k a s'
           | None => None
           end.

(** Dereferencing NULL or indexing out of bounds. *)
Definition undefined {A} : M A := fun _ => None.

Declare Scope flow_scope.
Delimit Scope flow_scope with flow.
Notation "'let*' x := m 'in' k" := (bind m (fun x => k))
  (at level 10, x name, m at level 100, k at level 200) : flow_scope.
Notation "m ;;; k" := (bind m (fun _ => k))
  (at level 100, k at level 200, right associativity) : flow_scope.
Open Scope flow_scope.

(** C's [!a], [a && b] and [a || b] on calls with effects: the right operand
    runs only if the left one does not decide. *)
Definition notM (a : M bool) : M bool := let* x := a in ret (negb x).
Definition andM (a b : M bool) : M bool :=
  let* x := a in if x then b else ret false.
Definition orM (a b : M bool) : M bool :=
  let* x := a in if x then ret true else b.
Notation "! a" := (notM a) (at level 35, right associativity) : flow_scope.
Infix "&&&" := andM (at level 40, left associativity) : flow_scope.
Infix "|||" := orM (at level 50, left associativity) : flow_scope.

Definition emit (e : event) : M unit :=
  fun s => Some (tt, {| btc_txn_context := btc_txn_context s;
                        query := query s;
                        host_rounds := host_rounds s;
                        user_rounds := user_rounds s;
                        trace := trace s ++ [e] |}).

Definition read_query : M btc_query_t := fun s => Some (query s, s).

(** [*btc_txn_context]. *)
Definition read_context : M btc_txn_context_t :=
  fun s => match btc_txn_context s with
           | Some c => Some (c, s)
           | None => None
           end.

Definition write_pointer (p : option btc_txn_context_t) : M unit :=
  fun s => Some (tt, {| btc_txn_context := p;
                        query := query s;
                        host_rounds := host_rounds s;
                        user_rounds := user_rounds s;
                        trace := trace s |}).

(** A store through [btc_txn_context]. *)
Definition update_context (f : btc_txn_context_t -> btc_txn_context_t) : M unit :=
  let* c := read_context in write_pointer (Some (f c)).

(** [p[idx]] as an lvalue or rvalue. *)
Definition deref_at {A} (p : option (list A)) (idx : nat) : M A :=
  match p with
  | Some l => match l !! idx with
              | Some x => ret x
              | None => undefined
              end
  | None => undefined
  end.

(** [p[idx] = x]. *)
Definition store_at {A} (p : option (list A)) (idx : nat) (x : A)
    : M (option (list A)) :=
  match p with
  | Some l => if decide (idx < length l)%nat
              then ret (Some (<[idx := x]> l))
              else undefined
  | None => undefined
  end.

(** ** Collaborators

    Everything the file calls but does not define.  [host n] is what the
    [n]-th call of [btc_get_query] returns and leaves in the query buffer;
    [user n] is the user's answer to the [n]-th prompt.

    The allocator and the platform: [SIZE_MAX] bounds [size_t], in which the
    byte count of an allocation is computed; [malloc_succeeds k bytes] tells
    whether the [k]-th array allocation of the flow, asking for [bytes]
    bytes, returns a block or NULL; [heap_input] and [heap_output] give the
    indeterminate content of freshly allocated array slots. *)
Class Collaborators := {
  host : nat -> bool * btc_query_t;
  user : nat -> bool;
  app_name : string;                                    (* g_app->name *)
  btc_derivation_path_guard : list Z -> bool;
  get_wallet_name_by_id : list Z -> option string;
  btc_verify_input :
    list Z -> Z -> btc_txn_input_t -> bool * btc_txn_input_t;
  get_transaction_fee_threshold : btc_txn_context_t -> Z;
  format_value : Z -> string;
  script_output_to_address : list Z -> Z -> string;
  SIZE_MAX : Z;
  sizeof_btc_txn_input_t : Z;
  sizeof_btc_sign_txn_output_t : Z;
  malloc_succeeds : nat -> Z -> bool;
  heap_input : nat -> btc_txn_input_t;
  heap_output : nat -> btc_sign_txn_output_t
}.

(** [OP_RETURN] of script.h, the data-carrier opcode. *)
Definition OP_RETURN : Z := 0x6a.

Definition sum_values {A} (f : A -> Z) (l : option (list A)) : Z :=
  match l with
  | Some xs => fold_right (fun x acc => f x + acc) 0 xs
  | None => 0
  end.

(** Modelled from the spec: [btc_get_txn_fee] lives in btc_txn_helpers.c,
    which is not part of the sources at hand.  The fee is
    sum(inputs.value) - sum(outputs.value); the call fails when that
    underflows, i.e. when the outputs spend more than the inputs bring. *)
Definition btc_get_txn_fee (c : btc_txn_context_t) : option Z :=
  let fee := sum_values value (inputs c) - sum_values out_value (outputs c) in
  if fee <? 0 then None else Some fee.

Section Flow.
Context `{W : Collaborators}.

(** *** Transport and UI primitives *)

(** [btc_get_query(query, BTC_QUERY_SIGN_TXN_TAG)]: blocks for the next host
    round and decodes it into the caller's buffer. *)
Definition btc_get_query : M bool :=
  fun s =>
    let r := host (host_rounds s) in
    Some (fst r, {| btc_txn_context := btc_txn_context s;
                    query := snd r;
                    host_rounds := S (host_rounds s);
                    user_rounds := user_rounds s;
                    trace := trace s ++ [EvGetQuery (fst r)] |}).

Definition prompt (ev : bool -> event) : M bool :=
  fun s =>
    let r := user (user_rounds s) in
    Some (r, {| btc_txn_context := btc_txn_context s;
                query := query s;
                host_rounds := host_rounds s;
                user_rounds := S (user_rounds s);
                trace := trace s ++ [ev r] |}).

(** [core_confirmation(msg, btc_send_error)]: one blocking prompt, which
    returns the user's decision.  The second argument is a callback handed
    to the UI layer; the UI layer is not part of these sources.  The trace
    records the calls this file makes, so the event of a prompt stands for
    the whole call, with whatever the UI layer did with the callback before
    it returned; no statement below says what the UI layer sends. *)
Definition core_confirmation (msg : ui_text) : M bool :=
  prompt (EvConfirmation msg).

(** [core_scroll_page(title, body, btc_send_error)], in the same way. *)
Definition core_scroll_page (title body : ui_text) : M bool :=
  prompt (EvScrollPage title body).

Definition btc_send_error (tag : error_tag) (code : error_data_flow) : M unit :=
  emit (EvSendError tag code).

(** *** Static functions of btc_txn.c *)

Definition check_which_request (expected : sign_txn_request_tag) : M bool :=
  let* q := read_query in
  if decide (expected <> which_request (sign_txn q)) then
    btc_send_error ERROR_COMMON_ERROR_CORRUPT_DATA_TAG
                   ERROR_DATA_FLOW_INVALID_REQUEST ;;;
    ret false
  else ret true.

Definition validate_request_data : M bool :=
  let* q := read_query in
  if negb (btc_derivation_path_guard (derivation_path (initiate (sign_txn q))))
  then
    btc_send_error ERROR_COMMON_ERROR_CORRUPT_DATA_TAG
                   ERROR_DATA_FLOW_INVALID_DATA ;;;
    ret false
  else ret true.

Definition send_response (which_response : sign_txn_response_tag) : M unit :=
  emit (EvSendResult which_response).

(** [get_wallet_name_by_id(wallet_id, wallet_name)]: the name found, if any. *)
Definition lookup_wallet_name : M (option string) :=
  let* q := read_query in
  ret (get_wallet_name_by_id (wallet_id (initiate (sign_txn q)))).

Definition handle_initiate_query : M bool :=
  let* bad1 :=
    (! check_which_request BTC_SIGN_TXN_REQUEST_INITIATE_TAG)
    ||| (! validate_request_data) in
  if bad1 then ret false else
  let* found := lookup_wallet_name in
  match found with
  | None => ret false
  | Some wallet_name =>
    let msg := UI_TEXT_BTC_SEND_PROMPT app_name wallet_name in
    let* declined := ! core_confirmation msg in
    if declined then ret false else
    emit EvSetFlowStatusConfirm ;;;
    let* q := read_query in
    update_context (set_init_info (initiate (sign_txn q))) ;;;
    send_response BTC_SIGN_TXN_RESPONSE_CONFIRMATION_TAG ;;;
    ret true
  end.

(** A block with room for [slots] elements, of indeterminate content. *)
Definition fresh_array {A} (heap : nat -> A) (slots : Z) : list A :=
  map heap (seq 0 (Z.to_nat slots)).

(** The argument [sizeof(T) * count] of an array allocation.  The product is
    computed in [size_t], so it wraps around at [SIZE_MAX + 1]. *)
Definition alloc_bytes (sizeof_elem count : Z) : Z :=
  (sizeof_elem * count) mod (SIZE_MAX + 1).

(** [malloc(bytes)] for the [k]-th array of the flow: NULL when the
    allocator has no such block, otherwise a block of [bytes] bytes, which
    has room for [bytes / sizeof(T)] elements. *)
Definition malloc_array {A} (k : nat) (sizeof_elem : Z) (heap : nat -> A)
    (bytes : Z) : option (list A) :=
  if malloc_succeeds k bytes
  then Some (fresh_array heap (bytes / sizeof_elem))
  else None.

Definition fetch_transaction_meta : M bool :=
  let* bad :=
    (! btc_get_query)
    ||| (! check_which_request BTC_SIGN_TXN_REQUEST_META_TAG) in
  if bad then ret false else
  let* q := read_query in
  let m := meta (sign_txn q) in
  if negb (1 =? sighash m) || (0 =? input_count m) || (0 =? output_count m)
  then
    btc_send_error ERROR_COMMON_ERROR_CORRUPT_DATA_TAG
                   ERROR_DATA_FLOW_INVALID_DATA ;;;
    ret false
  else
    update_context (set_metadata m) ;;;
    let* c := read_context in
    let bytes := alloc_bytes sizeof_btc_txn_input_t (input_count (metadata c)) in
    emit (EvMallocInputs bytes (malloc_succeeds 0 bytes)) ;;;
    update_context
      (set_inputs (malloc_array 0 sizeof_btc_txn_input_t heap_input bytes)) ;;;
    let* c := read_context in
    let bytes :=
      alloc_bytes sizeof_btc_sign_txn_output_t (output_count (metadata c)) in
    emit (EvMallocOutputs bytes (malloc_succeeds 1 bytes)) ;;;
    update_context
      (set_outputs
         (malloc_array 1 sizeof_btc_sign_txn_output_t heap_output bytes)) ;;;
    send_response BTC_SIGN_TXN_RESPONSE_META_ACCEPTED_TAG ;;;
    ret true.

(** The assignments and the two [memcpy] that clone the input sub-request
    into the context slot. *)
Definition clone_input (rq : btc_sign_txn_input_t) (slot : btc_txn_input_t)
    : btc_txn_input_t :=
  {| prev_output_index := rq_prev_output_index rq;
     address_index := rq_address_index rq;
     change_index := rq_change_index rq;
     value := rq_value rq;
     sequence := rq_sequence rq;
     prev_txn_hash := memcpy_bytes (prev_txn_hash slot) (rq_prev_txn_hash rq) 32;
     script_pub_key :=
       {| pb_size := pb_size (rq_script_pub_key rq);
          pb_buf := memcpy_bytes (pb_buf (script_pub_key slot))
                                 (pb_buf (rq_script_pub_key rq))
                                 (pb_size (rq_script_pub_key rq)) |} |}.

(** One iteration of the loop of [fetch_valid_input]; [false] is the
    [return false] of the enclosing function. *)
Definition fetch_valid_input_round (idx : nat) : M bool :=
  let* bad :=
    (! btc_get_query)
    &&& (! check_which_request BTC_SIGN_TXN_REQUEST_INPUT_TAG) in
  if bad then ret false else
  let* q := read_query in
  let txn := rq_prev_txn (input (sign_txn q)) in
  let* c := read_context in
  let* slot := deref_at (inputs c) idx in
  let verdict := btc_verify_input (pb_buf txn) (pb_size txn) slot in
  let* arr := store_at (inputs c) idx (snd verdict) in
  update_context (set_inputs arr) ;;;
  if negb (fst verdict) then
    btc_send_error ERROR_COMMON_ERROR_CORRUPT_DATA_TAG
                   ERROR_DATA_FLOW_INVALID_DATA ;;;
    ret false
  else
    let* arr := store_at arr idx (clone_input (input (sign_txn q)) (snd verdict)) in
    update_context (set_inputs arr) ;;;
    send_response BTC_SIGN_TXN_RESPONSE_INPUT_ACCEPTED_TAG ;;;
    ret true.

(** [n] is the number of iterations left; the body never writes the declared
    count, so reading it once is the same as reading it at every test.  The
    index is a natural number: the loops are followed for as long as the C
    [int idx] does not overflow. *)
Fixpoint fetch_valid_input_loop (n idx : nat) : M bool :=
  match n with
  | O => ret true
  | S n' =>
    let* ok := fetch_valid_input_round idx in
    if ok then fetch_valid_input_loop n' (S idx) else ret false
  end.

Definition fetch_valid_input : M bool :=
  let* c := read_context in
  fetch_valid_input_loop (Z.to_nat (input_count (metadata c))) 0.

(** One iteration of the loop of [fetch_valid_output].  The result is [None]
    for [return false], otherwise the new value of the local
    [zero_value_transaction]. *)
Definition fetch_valid_output_round (idx : nat) (zero_value_transaction : bool)
    : M (option bool) :=
  let* bad :=
    (! btc_get_query)
    &&& (! check_which_request BTC_SIGN_TXN_REQUEST_OUTPUT_TAG) in
  if bad then ret None else
  let* q := read_query in
  let output := output (sign_txn q) in
  let* c := read_context in
  let* arr := store_at (outputs c) idx output in
  update_context (set_outputs arr) ;;;
  let zero_value_transaction :=
    if negb (0 =? out_value output) then false else zero_value_transaction in
  if (OP_RETURN =? byte_at (pb_buf (out_script_pub_key output)) 0)
     && negb (0 =? out_value output)
  then
    btc_send_error ERROR_COMMON_ERROR_CORRUPT_DATA_TAG
                   ERROR_DATA_FLOW_INVALID_DATA ;;;
    ret None
  else
    send_response BTC_SIGN_TXN_RESPONSE_INPUT_ACCEPTED_TAG ;;;
    ret (Some zero_value_transaction).

Fixpoint fetch_valid_output_loop (n idx : nat) (zero_value_transaction : bool)
    : M (option bool) :=
  match n with
  | O => ret (Some zero_value_transaction)
  | S n' =>
    let* r := fetch_valid_output_round idx zero_value_transaction in
    match r with
    | Some z => fetch_valid_output_loop n' (S idx) z
    | None => ret None
    end
  end.

Definition fetch_valid_output : M bool :=
  let* c := read_context in
  let* r := fetch_valid_output_loop (Z.to_nat (output_count (metadata c))) 0 true in
  match r with
  | None => ret false
  | Some zero_value_transaction =>
    if zero_value_transaction then
      btc_send_error ERROR_COMMON_ERROR_CORRUPT_DATA_TAG
                     ERROR_DATA_FLOW_INVALID_DATA ;;;
      ret false
    else ret true
  end.

(** The receiver loop of [get_user_verification]; [false] is [return false]. *)
Fixpoint show_receivers (n idx : nat) : M bool :=
  match n with
  | O => ret true
  | S n' =>
    let* c := read_context in
    let* output := deref_at (outputs c) idx in
    let script := out_script_pub_key output in
    let title := UI_TEXT_BTC_RECEIVER (Z.of_nat idx + 1) in
    if is_change output then show_receivers n' (S idx)
    else
      let value := ui_formatted (format_value (out_value output)) in
      let address :=
        ui_formatted (script_output_to_address (pb_buf script) (pb_size script)) in
      let* rejected :=
        (! core_scroll_page title address) ||| (! core_scroll_page title value) in
      if rejected then ret false else show_receivers n' (S idx)
  end.

(** The fee part of [get_user_verification], after the receiver loop. *)
Definition confirm_fee : M bool :=
  let* c := read_context in
  let max_fee := get_transaction_fee_threshold c in
  match btc_get_txn_fee c with
  | None =>
    btc_send_error ERROR_COMMON_ERROR_CORRUPT_DATA_TAG
                   ERROR_DATA_FLOW_INVALID_DATA ;;;
    ret false
  | Some fee_in_satoshi =>
    let* declined :=
      ret (fee_in_satoshi >? max_fee)
      &&& (! core_confirmation ui_text_warning_txn_fee_too_high) in
    if declined then ret false else
    let* rejected :=
      ! core_scroll_page UI_TEXT_BTC_FEE
                         (ui_formatted (format_value fee_in_satoshi)) in
    if rejected then ret false else ret true
  end.

Definition get_user_verification : M bool :=
  let* c := read_context in
  let* shown := show_receivers (Z.to_nat (output_count (metadata c))) 0 in
  if shown then confirm_fee else ret false.

Definition sign_input_utxo : M bool :=
  let* bad :=
    (! btc_get_query)
    ||| (! check_which_request BTC_SIGN_TXN_REQUEST_SIGNATURE_TAG) in
  if bad then ret false else ret false.

(** *** The global function *)

(** The three guarded [free] calls at the end of [btc_sign_transaction]. *)
Definition release : M unit :=
  fun s =>
    match btc_txn_context s with
    | None => Some (tt, s)
    | Some c =>
      (match inputs c with Some _ => emit EvFreeInputs | None => ret tt end ;;;
       match outputs c with Some _ => emit EvFreeOutputs | None => ret tt end ;;;
       emit EvFreeContext ;;;
       write_pointer None) s
    end.

(** [btc_sign_transaction].  Its first two statements allocate the context
    and zero it through the pointer; the flow is followed from there, with
    the context allocated and zeroed. *)
Definition btc_sign_transaction : M unit :=
  emit EvMallocContext ;;;
  write_pointer (Some zero_context) ;;;
  let* all_failed :=
    (! handle_initiate_query) &&& (! fetch_transaction_meta)
    &&& (! fetch_valid_input) &&& (! fetch_valid_output)
    &&& (! get_user_verification) &&& (! sign_input_utxo) in
  (if all_failed then emit (EvDelayScr ui_text_check_cysync) else ret tt) ;;;
  release.

End Flow.

(** ** Vocabulary of the statements *)

(** The test of line 380: the first byte of the script buffer is the
    data-carrier opcode and the value is not zero. *)
Definition carries_locked_funds (o : btc_sign_txn_output_t) : bool :=
  (OP_RETURN =? byte_at (pb_buf (out_script_pub_key o)) 0)
  && negb (0 =? out_value o).

Definition zero_valued (o : btc_sign_txn_output_t) : bool := 0 =? out_value o.

(** The outputs of a transaction pass the policy of the OUTPUTS phase: none
    carries locked funds and at least one has a nonzero value. *)
Definition outputs_acceptable (os : list btc_sign_txn_output_t) : bool :=
  forallb (fun o => negb (carries_locked_funds o)) os
  && existsb (fun o => negb (zero_valued o)) os.

(** What the output loop hands to the code after it: nothing if some output
    carries locked funds, otherwise the flag telling whether all values seen
    were zero. *)
Definition loop_verdict (z : bool) (os : list btc_sign_txn_output_t)
    : option bool :=
  if forallb (fun o => negb (carries_locked_funds o)) os
  then Some (z && forallb zero_valued os)
  else None.

(** Host rounds read by a loop that stops at the first output carrying locked
    funds. *)
Fixpoint rounds_used (os : list btc_sign_txn_output_t) : nat :=
  match os with
  | [] => 0
  | o :: rest => if carries_locked_funds o then 1 else S (rounds_used rest)
  end.

(** The state after a host round that returned [ok] and left [q] in the
    query buffer. *)
Definition after_query (ok : bool) (q : btc_query_t) (s : state) : state :=
  {| btc_txn_context := btc_txn_context s;
     query := q;
     host_rounds := S (host_rounds s);
     user_rounds := user_rounds s;
     trace := trace s ++ [EvGetQuery ok] |}.

(** The state after one more event. *)
Definition after_event (e : event) (s : state) : state :=
  {| btc_txn_context := btc_txn_context s;
     query := query s;
     host_rounds := host_rounds s;
     user_rounds := user_rounds s;
     trace := trace s ++ [e] |}.

(** The state after [k] more prompts that left the events [evs]. *)
Definition after_prompts (k : nat) (evs : list event) (s : state) : state :=
  {| btc_txn_context := btc_txn_context s;
     query := query s;
     host_rounds := host_rounds s;
     user_rounds := (user_rounds s + k)%nat;
     trace := trace s ++ evs |}.

(** The new events of a run end with the given one. *)
Definition ends_with (e : event) (before after : list event) : Prop :=
  exists evs, after = before ++ evs ++ [e].

Section Vocabulary.
Context `{W : Collaborators}.

(** The output views of the [n] host rounds starting at round [k]. *)
Fixpoint delivered_outputs (k n : nat) : list btc_sign_txn_output_t :=
  match n with
  | O => []
  | S n' => output (sign_txn (snd (host k))) :: delivered_outputs (S k) n'
  end.

(** The receiver pages as the spec words them: for every output that is not
    a change output, in order, its address and then its amount, both under
    the title that numbers the output from one; nothing for a change
    output. *)
Definition pages_of_output (idx : nat) (o : btc_sign_txn_output_t)
    : list (ui_text * ui_text) :=
  if is_change o then []
  else
    [(UI_TEXT_BTC_RECEIVER (Z.of_nat idx + 1),
      ui_formatted (script_output_to_address
                      (pb_buf (out_script_pub_key o))
                      (pb_size (out_script_pub_key o))));
     (UI_TEXT_BTC_RECEIVER (Z.of_nat idx + 1),
      ui_formatted (format_value (out_value o)))].

Fixpoint receiver_pages (idx : nat) (os : list btc_sign_txn_output_t)
    : list (ui_text * ui_text) :=
  match os with
  | [] => []
  | o :: rest => pages_of_output idx o ++ receiver_pages (S idx) rest
  end.

(** Presenting pages one after the other; any rejection aborts. *)
Fixpoint present_pages (pages : list (ui_text * ui_text)) : M bool :=
  match pages with
  | [] => ret true
  | (title, body) :: rest =>
    let* accepted := core_scroll_page title body in
    if accepted then present_pages rest else ret false
  end.

(** The scroll events of pages that were all accepted. *)
Definition accepted_pages (pages : list (ui_text * ui_text)) : list event :=
  map (fun p => EvScrollPage (fst p) (snd p) true) pages.

End Vocabulary.

(** A run of [m] adds only events satisfying [P] to the trace. *)
Definition emits_only {A} (P : event -> Prop) (m : M A) : Prop :=
  forall s a s', m s = Some (a, s') ->
    exists evs, trace s' = trace s ++ evs /\ Forall P evs.

Definition not_a_signature (e : event) : Prop :=
  e <> EvSendResult BTC_SIGN_TXN_RESPONSE_SIGNATURE_TAG.

(** ** Vocabulary of the phase properties *)

(** A run of [m] relates the state it starts from to the one it ends in. *)
Definition keeps {A} (R : state -> state -> Prop) (m : M A) : Prop :=
  forall s a s', m s = Some (a, s') -> R s s'.

(** Nothing of the transaction moved: same context, same query buffer, no
    host round read. *)
Definition same_transaction (s s' : state) : Prop :=
  btc_txn_context s' = btc_txn_context s /\
  query s' = query s /\
  host_rounds s' = host_rounds s.

Section PhaseVocabulary.
Context `{W : Collaborators}.

(** The gate of an input round lets host round [k] through. *)
Definition input_gate_open (k : nat) : Prop :=
  fst (host k) = true
  \/ which_request (sign_txn (snd (host k))) = BTC_SIGN_TXN_REQUEST_INPUT_TAG.

(** The gate of an output round lets host round [k] through. *)
Definition output_gate_open (k : nat) : Prop :=
  fst (host k) = true
  \/ which_request (sign_txn (snd (host k))) = BTC_SIGN_TXN_REQUEST_OUTPUT_TAG.

(** The verdict of the verifier on host round [k] for the slot it is handed. *)
Definition input_verdict (k : nat) (slot : btc_txn_input_t)
    : bool * btc_txn_input_t :=
  btc_verify_input
    (pb_buf (rq_prev_txn (input (sign_txn (snd (host k))))))
    (pb_size (rq_prev_txn (input (sign_txn (snd (host k)))))) slot.

(** The record an accepted input round [k] leaves in the slot. *)
Definition bound_input (k : nat) (slot : btc_txn_input_t) : btc_txn_input_t :=
  clone_input (input (sign_txn (snd (host k)))) (snd (input_verdict k slot)).

(** The events of [n] accepted rounds of a loop, from host round [k] on. *)
Fixpoint accepted_rounds (k n : nat) : list event :=
  match n with
  | O => []
  | S n' =>
    EvGetQuery (fst (host k))
    :: EvSendResult BTC_SIGN_TXN_RESPONSE_INPUT_ACCEPTED_TAG
    :: accepted_rounds (S k) n'
  end.

End PhaseVocabulary.

(** Events of the allocator, of the failure notice and of the scroll pages.
    An array counts as allocated when [malloc] returned a block. *)
Definition is_malloc_inputs (e : event) : bool :=
  match e with EvMallocInputs _ allocated => allocated | _ => false end.
Definition is_malloc_outputs (e : event) : bool :=
  match e with EvMallocOutputs _ allocated => allocated | _ => false end.
Definition is_free_inputs (e : event) : bool :=
  match e with EvFreeInputs => true | _ => false end.
Definition is_free_outputs (e : event) : bool :=
  match e with EvFreeOutputs => true | _ => false end.
Definition is_later_phase_event (e : event) : bool :=
  match e with
  | EvDelayScr _ | EvScrollPage _ _ _ => true
  | EvSendResult BTC_SIGN_TXN_RESPONSE_INPUT_ACCEPTED_TAG => true
  | _ => false
  end.

(** An event that is neither an allocation or release of the arrays nor an
    event of the phases after META. *)
Definition calm (e : event) : bool :=
  negb (is_malloc_inputs e || is_malloc_outputs e
        || is_free_inputs e || is_free_outputs e
        || is_later_phase_event e).

(** ** Concrete worlds

    Sample data used to run the flow: a host script given as a list of
    rounds (the last one repeats for ever) and a list of user answers
    (the user declines once the list is exhausted), on a platform with a
    32-bit [size_t], array elements of 64 bytes and a heap that serves
    blocks of up to 64 KiB. *)

Definition sample_script (first : Z) : pb_bytes :=
  {| pb_size := 3; pb_buf := [first; 0x14; 0xab; 0; 0; 0] |}.

Definition sample_initiate : btc_sign_txn_initiate_request_t :=
  {| wallet_id := [0xde; 0xad; 0xbe; 0xef];
     derivation_path := [0x8000002c; 0x80000000; 0x80000000] |}.

Definition sample_input_request (claimed : Z) : btc_sign_txn_input_t :=
  {| rq_prev_txn := {| pb_size := 4; pb_buf := [0xe8; 0x03; 0x76; 0xa9] |};
     rq_prev_txn_hash := repeat 0x11 32;
     rq_prev_output_index := 0;
     rq_value := claimed;
     rq_script_pub_key := sample_script 0x76;
     rq_sequence := 0xffffffff;
     rq_change_index := 0;
     rq_address_index := 7 |}.

Definition sample_output (v : Z) (first : Z) (change : bool)
    : btc_sign_txn_output_t :=
  {| out_value := v; out_script_pub_key := sample_script first;
     is_change := change |}.

Definition sample_query (tag : sign_txn_request_tag)
    (m : btc_sign_txn_metadata_t) (i : btc_sign_txn_input_t)
    (o : btc_sign_txn_output_t) : btc_query_t :=
  {| sign_txn := {| which_request := tag; initiate := sample_initiate;
                    meta := m; input := i; output := o |} |}.

Definition sample_meta : btc_sign_txn_metadata_t :=
  {| sighash := 1; input_count := 1; output_count := 2 |}.

(** The metadata of a host that declares [4294967295] inputs: the
    byte count of the inputs array is more than the heap can serve. *)
Definition greedy_meta : btc_sign_txn_metadata_t :=
  {| sighash := 1; input_count := 4294967295; output_count := 2 |}.

(** The metadata of a host that declares [67108865] inputs: with
    elements of 64 bytes the byte count wraps around to 64, the size of a
    single slot. *)
Definition wrapping_meta : btc_sign_txn_metadata_t :=
  {| sighash := 1; input_count := 67108865; output_count := 2 |}.

Definition initiate_query : btc_query_t :=
  sample_query BTC_SIGN_TXN_REQUEST_INITIATE_TAG sample_meta
               (sample_input_request 0) (sample_output 0 0 false).

Definition meta_query (m : btc_sign_txn_metadata_t) : btc_query_t :=
  sample_query BTC_SIGN_TXN_REQUEST_META_TAG m
               (sample_input_request 0) (sample_output 0 0 false).

Definition input_query (tag : sign_txn_request_tag) (claimed : Z) : btc_query_t :=
  sample_query tag sample_meta (sample_input_request claimed)
               (sample_output 0 0 false).

Definition output_query (tag : sign_txn_request_tag)
    (o : btc_sign_txn_output_t) : btc_query_t :=
  sample_query tag sample_meta (sample_input_request 0) o.

Definition zero_input : btc_txn_input_t :=
  {| prev_txn_hash := repeat 0 32; prev_output_index := 0; value := 0;
     script_pub_key := {| pb_size := 0; pb_buf := repeat 0 6 |};
     sequence := 0; change_index := 0; address_index := 0 |}.

(** A stand-in for the previous-transaction verifier: it accepts any
    non-empty raw transaction and extracts a 16-bit little-endian value and
    the script that follows it into the record. *)
Definition sample_verify_input (raw : list Z) (size : Z)
    (slot : btc_txn_input_t) : bool * btc_txn_input_t :=
  (0 <? size,
   {| prev_txn_hash := prev_txn_hash slot;
      prev_output_index := prev_output_index slot;
      value := byte_at raw 0 + 256 * byte_at raw 1;
      script_pub_key := {| pb_size := size - 2; pb_buf := skipn 2 raw |};
      sequence := sequence slot;
      change_index := change_index slot;
      address_index := address_index slot |}).

Definition sample_world (rounds : list (bool * btc_query_t))
    (answers : list bool) : Collaborators :=
  {| host := fun n => nth n rounds (List.last rounds (false, initiate_query));
     user := fun n => nth n answers false;
     app_name := "Bitcoin"%string;
     btc_derivation_path_guard := fun path => (length path =? 3)%nat;
     get_wallet_name_by_id := fun _ => Some "Savings"%string;
     btc_verify_input := sample_verify_input;
     get_transaction_fee_threshold := fun _ => 2000;
     format_value := fun v => if v =? 0 then "0"%string else "amount"%string;
     script_output_to_address := fun _ _ => "address"%string;
     SIZE_MAX := 4294967295;
     sizeof_btc_txn_input_t := 64;
     sizeof_btc_sign_txn_output_t := 64;
     malloc_succeeds := fun _ bytes => bytes <=? 65536;
     heap_input := fun _ => zero_input;
     heap_output := fun _ => sample_output 0 0 false |}.

(** A context as the META phase leaves it for one input and two outputs. *)
Definition sample_context : btc_txn_context_t :=
  {| init_info := sample_initiate;
     metadata := sample_meta;
     inputs := Some [zero_input];
     outputs := Some [sample_output 0 0 false; sample_output 0 0 false] |}.

(** A context as the OUTPUTS phase leaves it: one bound input of the given
    value and the given outputs. *)
Definition verify_context (in_value : Z) (outs : list btc_sign_txn_output_t)
    : btc_txn_context_t :=
  {| init_info := sample_initiate;
     metadata := {| sighash := 1; input_count := 1;
                    output_count := Z.of_nat (length outs) |};
     inputs := Some [clone_input (sample_input_request in_value) zero_input];
     outputs := Some outs |}.

(** A slot holding what an earlier use of the heap left there. *)
Definition stale_input : btc_txn_input_t :=
  {| prev_txn_hash := repeat 0xee 32; prev_output_index := 9; value := 123;
     script_pub_key := {| pb_size := 6; pb_buf := [1; 2; 3; 4; 5; 6] |};
     sequence := 1; change_index := 1; address_index := 1 |}.

(** A context as the META phase leaves it for two inputs and two outputs. *)
Definition two_input_context : btc_txn_context_t :=
  {| init_info := sample_initiate;
     metadata := {| sighash := 1; input_count := 2; output_count := 2 |};
     inputs := Some [zero_input; stale_input];
     outputs := Some [sample_output 0 0 false; sample_output 0 0 false] |}.

(** An input sub-request whose claimed script declares three bytes and
    carries a buffer of which only the first byte is not zero. *)
Definition short_script_query (claimed : Z) : btc_query_t :=
  sample_query BTC_SIGN_TXN_REQUEST_INPUT_TAG sample_meta
    {| rq_prev_txn := {| pb_size := 4; pb_buf := [0xe8; 0x03; 0x76; 0xa9] |};
       rq_prev_txn_hash := repeat 0x11 32;
       rq_prev_output_index := 0;
       rq_value := claimed;
       rq_script_pub_key := {| pb_size := 3; pb_buf := [0x76] |};
       rq_sequence := 0xffffffff;
       rq_change_index := 0;
       rq_address_index := 7 |}
    (sample_output 0 0 false).

(** The records the two sample rounds leave in the context. *)
Definition first_bound_input : btc_txn_input_t :=
  {| prev_txn_hash := repeat 0x11 32; prev_output_index := 0; value := 5000;
     script_pub_key := {| pb_size := 3; pb_buf := [0x76; 0x14; 0xab] |};
     sequence := 0xffffffff; change_index := 0; address_index := 7 |}.

Definition second_bound_input : btc_txn_input_t :=
  {| prev_txn_hash := repeat 0x11 32; prev_output_index := 0; value := 7000;
     script_pub_key := {| pb_size := 3; pb_buf := [0x76; 0; 0] |};
     sequence := 0xffffffff; change_index := 0; address_index := 7 |}.

(** The state in which [btc_sign_transaction] is entered. *)
Definition entry_state (q : btc_query_t) : state :=
  {| btc_txn_context := None; query := q;
     host_rounds := 0; user_rounds := 0; trace := [] |}.

(** A state inside the flow, with the context [c] allocated. *)
Definition phase_state (c : btc_txn_context_t) : state :=
  {| btc_txn_context := Some c; query := initiate_query;
     host_rounds := 0; user_rounds := 0; trace := [] |}.

(** The same, with the query buffer, the round counter and the prompt
    counter chosen. *)
Definition running_state (c : btc_txn_context_t) (q : btc_query_t)
    (hr ur : nat) : state :=
  {| btc_txn_context := Some c; query := q;
     host_rounds := hr; user_rounds := ur; trace := [] |}.

(** An input sub-request whose raw previous transaction is empty: the
    stand-in verifier refuses it. *)
Definition unproven_input_query (claimed : Z) : btc_query_t :=
  sample_query BTC_SIGN_TXN_REQUEST_INPUT_TAG sample_meta
    {| rq_prev_txn := {| pb_size := 0; pb_buf := [] |};
       rq_prev_txn_hash := repeat 0x11 32;
       rq_prev_output_index := 0;
       rq_value := claimed;
       rq_script_pub_key := sample_script 0x76;
       rq_sequence := 0xffffffff;
       rq_change_index := 0;
       rq_address_index := 7 |}
    (sample_output 0 0 false).

(** ** Symbolic execution *)

Ltac flow_simpl :=
  cbv beta iota zeta delta
      [bind ret undefined notM andM orM emit read_query read_context
       write_pointer update_context deref_at store_at
       btc_get_query prompt core_confirmation core_scroll_page
       btc_send_error send_response check_which_request
       validate_request_data lookup_wallet_name];
  cbn [fst snd negb andb orb
       btc_txn_context query host_rounds user_rounds trace
       init_info metadata inputs outputs
       set_init_info set_metadata set_inputs set_outputs].

Ltac trace_norm := rewrite <- ?app_assoc; cbn [app].

(** * Properties *)

Section FlowFacts.
Context `{W : Collaborators}.

Lemma fresh_array_length {A} (heap : nat -> A) (n : Z) :
  length (fresh_array heap n) = Z.to_nat n.
Proof. unfold fresh_array. rewrite length_map, length_seq. reflexivity. Qed.

Lemma meta_check_true (m : btc_sign_txn_metadata_t) :
  sighash m <> 1 \/ input_count m = 0 \/ output_count m = 0 ->
  negb (1 =? sighash m) || (0 =? input_count m) || (0 =? output_count m) = true.
Proof.
  intros [H | [H | H]]; rewrite ?H.
  - apply orb_true_iff; left. apply orb_true_iff; left.
    apply negb_true_iff, Z.eqb_neq. congruence.
  - apply orb_true_iff; left. apply orb_true_iff; right. reflexivity.
  - apply orb_true_iff; right. reflexivity.
Qed.

Lemma meta_check_false (m : btc_sign_txn_metadata_t) :
  sighash m = 1 -> input_count m <> 0 -> output_count m <> 0 ->
  negb (1 =? sighash m) || (0 =? input_count m) || (0 =? output_count m) = false.
Proof.
  intros H1 H2 H3. rewrite H1.
  replace (0 =? input_count m) with false
    by (symmetry; apply Z.eqb_neq; congruence).
  replace (0 =? output_count m) with false
    by (symmetry; apply Z.eqb_neq; congruence).
  reflexivity.
Qed.

Lemma alloc_bytes_exact (sizeof_elem count : Z) :
  0 <= sizeof_elem * count <= SIZE_MAX ->
  alloc_bytes sizeof_elem count = sizeof_elem * count.
Proof. intros H. unfold alloc_bytes. apply Z.mod_small. lia. Qed.

Lemma malloc_array_null {A} (k : nat) (sizeof_elem : Z) (heap : nat -> A)
    (bytes : Z) :
  malloc_succeeds k bytes = false ->
  malloc_array k sizeof_elem heap bytes = None.
Proof. intros H. unfold malloc_array. rewrite H. reflexivity. Qed.

(** An allocation gives an array of exactly [count] slots when the byte
    count fits [size_t] and the allocator has the block. *)
Lemma malloc_array_exact {A} (k : nat) (sizeof_elem : Z) (heap : nat -> A)
    (count : Z) :
  0 < sizeof_elem -> 0 <= count -> sizeof_elem * count <= SIZE_MAX ->
  malloc_succeeds k (alloc_bytes sizeof_elem count) = true ->
  exists l,
    malloc_array k sizeof_elem heap (alloc_bytes sizeof_elem count) = Some l /\
    length l = Z.to_nat count.
Proof.
  intros Hsz Hcount Hfit Hok. unfold malloc_array. rewrite Hok.
  eexists. split; [reflexivity |].
  rewrite fresh_array_length, alloc_bytes_exact by nia.
  rewrite Z.mul_comm, Z.div_mul by lia. reflexivity.
Qed.

(** C4. Once the metadata sub-request has been received, a sighash other than
    SIGHASH_ALL (1) or a zero input or output count makes
    [fetch_transaction_meta] send CORRUPT_DATA/INVALID_DATA and return
    failure, with the context untouched and no allocation.  Otherwise the
    metadata is copied into the context, [malloc] is called once for each
    array with [sizeof * count] computed in [size_t], whatever it returns is
    stored, meta-accepted is sent and the function returns success: the
    result of [malloc] is never tested.  So an array that could not be
    allocated is left NULL under a success reply; the arrays hold exactly the
    declared numbers of slots only when the byte counts fit [size_t] and both
    allocations succeed. *)
Theorem fetch_transaction_meta_spec (s : state) (c : btc_txn_context_t)
    (q : btc_query_t) :
  btc_txn_context s = Some c ->
  host (host_rounds s) = (true, q) ->
  which_request (sign_txn q) = BTC_SIGN_TXN_REQUEST_META_TAG ->
  (sighash (meta (sign_txn q)) <> 1 \/ input_count (meta (sign_txn q)) = 0
     \/ output_count (meta (sign_txn q)) = 0 ->
   exists s',
     fetch_transaction_meta s = Some (false, s') /\
     btc_txn_context s' = Some c /\
     trace s' = trace s ++ [EvGetQuery true;
                            EvSendError ERROR_COMMON_ERROR_CORRUPT_DATA_TAG
                                        ERROR_DATA_FLOW_INVALID_DATA])
  /\
  (sighash (meta (sign_txn q)) = 1 /\ input_count (meta (sign_txn q)) <> 0
     /\ output_count (meta (sign_txn q)) <> 0 ->
   exists s' ins outs,
     fetch_transaction_meta s = Some (true, s') /\
     btc_txn_context s' =
       Some {| init_info := init_info c; metadata := meta (sign_txn q);
               inputs := ins; outputs := outs |} /\
     ins = malloc_array 0 sizeof_btc_txn_input_t heap_input
             (alloc_bytes sizeof_btc_txn_input_t
                          (input_count (meta (sign_txn q)))) /\
     outs = malloc_array 1 sizeof_btc_sign_txn_output_t heap_output
              (alloc_bytes sizeof_btc_sign_txn_output_t
                           (output_count (meta (sign_txn q)))) /\
     trace s' =
       trace s
       ++ [EvGetQuery true;
           EvMallocInputs
             (alloc_bytes sizeof_btc_txn_input_t
                          (input_count (meta (sign_txn q))))
             (malloc_succeeds 0
                (alloc_bytes sizeof_btc_txn_input_t
                             (input_count (meta (sign_txn q)))));
           EvMallocOutputs
             (alloc_bytes sizeof_btc_sign_txn_output_t
                          (output_count (meta (sign_txn q))))
             (malloc_succeeds 1
                (alloc_bytes sizeof_btc_sign_txn_output_t
                             (output_count (meta (sign_txn q)))));
           EvSendResult BTC_SIGN_TXN_RESPONSE_META_ACCEPTED_TAG] /\
     (malloc_succeeds 0
        (alloc_bytes sizeof_btc_txn_input_t
                     (input_count (meta (sign_txn q)))) = false ->
      ins = None) /\
     (malloc_succeeds 1
        (alloc_bytes sizeof_btc_sign_txn_output_t
                     (output_count (meta (sign_txn q)))) = false ->
      outs = None) /\
     (0 < sizeof_btc_txn_input_t ->
      0 <= input_count (meta (sign_txn q)) ->
      sizeof_btc_txn_input_t * input_count (meta (sign_txn q)) <= SIZE_MAX ->
      malloc_succeeds 0
        (alloc_bytes sizeof_btc_txn_input_t
                     (input_count (meta (sign_txn q)))) = true ->
      exists l, ins = Some l /\
                length l = Z.to_nat (input_count (meta (sign_txn q)))) /\
     (0 < sizeof_btc_sign_txn_output_t ->
      0 <= output_count (meta (sign_txn q)) ->
      sizeof_btc_sign_txn_output_t * output_count (meta (sign_txn q))
        <= SIZE_MAX ->
      malloc_succeeds 1
        (alloc_bytes sizeof_btc_sign_txn_output_t
                     (output_count (meta (sign_txn q)))) = true ->
      exists l, outs = Some l /\
                length l = Z.to_nat (output_count (meta (sign_txn q))))).
Proof.
  intros Hc Hh Hq. split.
  - intros Hbad. unfold fetch_transaction_meta. flow_simpl.
    rewrite Hh. flow_simpl. rewrite Hq.
    rewrite decide_False by (intros H; apply H; reflexivity). flow_simpl.
    rewrite (meta_check_true _ Hbad). flow_simpl.
    eexists. split; [reflexivity |]. flow_simpl.
    split; [assumption | trace_norm; reflexivity].
  - intros (H1 & H2 & H3). unfold fetch_transaction_meta. flow_simpl.
    rewrite Hh. flow_simpl. rewrite Hq.
    rewrite decide_False by (intros H; apply H; reflexivity). flow_simpl.
    rewrite (meta_check_false _ H1 H2 H3). flow_simpl. rewrite Hc. flow_simpl.
    eexists. eexists. eexists.
    split; [reflexivity |]. flow_simpl.
    split; [reflexivity |].
    split; [reflexivity |]. split; [reflexivity |].
    split; [trace_norm; reflexivity |].
    split; [apply malloc_array_null |].
    split; [apply malloc_array_null |].
    split; intros Hsz Hcount Hfit Hok.
    + apply (malloc_array_exact 0 _ heap_input _ Hsz Hcount Hfit Hok).
    + apply (malloc_array_exact 1 _ heap_output _ Hsz Hcount Hfit Hok).
Qed.

End FlowFacts.

Lemma fetch_transaction_meta_spec_witness :
  (exists s',
     @fetch_transaction_meta
       (sample_world
          [(true, meta_query {| sighash := 0; input_count := 1;
                                output_count := 2 |})] [])
       (phase_state zero_context) = Some (false, s') /\
     btc_txn_context s' = Some zero_context /\
     trace s' = [EvGetQuery true;
                 EvSendError ERROR_COMMON_ERROR_CORRUPT_DATA_TAG
                             ERROR_DATA_FLOW_INVALID_DATA])
  /\
  (exists s' ins outs,
     @fetch_transaction_meta
       (sample_world [(true, meta_query sample_meta)] [])
       (phase_state zero_context) = Some (true, s') /\
     btc_txn_context s' =
       Some {| init_info := init_info zero_context; metadata := sample_meta;
               inputs := Some ins; outputs := Some outs |} /\
     length ins = 1%nat /\ length outs = 2%nat /\
     trace s' = [EvGetQuery true; EvMallocInputs 64 true;
                 EvMallocOutputs 128 true;
                 EvSendResult BTC_SIGN_TXN_RESPONSE_META_ACCEPTED_TAG])
  /\
  (exists s' outs,
     @fetch_transaction_meta
       (sample_world [(true, meta_query greedy_meta)] [])
       (phase_state zero_context) = Some (true, s') /\
     btc_txn_context s' =
       Some {| init_info := init_info zero_context; metadata := greedy_meta;
               inputs := None; outputs := Some outs |} /\
     length outs = 2%nat /\
     trace s' = [EvGetQuery true; EvMallocInputs 4294967232 false;
                 EvMallocOutputs 128 true;
                 EvSendResult BTC_SIGN_TXN_RESPONSE_META_ACCEPTED_TAG])
  /\
  (exists s' ins outs,
     @fetch_transaction_meta
       (sample_world [(true, meta_query wrapping_meta)] [])
       (phase_state zero_context) = Some (true, s') /\
     btc_txn_context s' =
       Some {| init_info := init_info zero_context; metadata := wrapping_meta;
               inputs := Some ins; outputs := Some outs |} /\
     length ins = 1%nat /\ length outs = 2%nat /\
     trace s' = [EvGetQuery true; EvMallocInputs 64 true;
                 EvMallocOutputs 128 true;
                 EvSendResult BTC_SIGN_TXN_RESPONSE_META_ACCEPTED_TAG]).
Proof.
  split; [| split; [| split]].
  - apply (@fetch_transaction_meta_spec
             (sample_world
                [(true, meta_query {| sighash := 0; input_count := 1;
                                      output_count := 2 |})] [])
             (phase_state zero_context) zero_context
             (meta_query {| sighash := 0; input_count := 1;
                            output_count := 2 |}));
      try reflexivity.
    left. cbn. lia.
  - destruct (@fetch_transaction_meta_spec
                (sample_world [(true, meta_query sample_meta)] [])
                (phase_state zero_context) zero_context
                (meta_query sample_meta) eq_refl eq_refl eq_refl)
      as [_ Hgood].
    destruct Hgood
      as (s' & ins & outs & Hrun & Hctx & Hins & Houts & Htr & _);
      [cbn; repeat split; lia |].
    exists s', [zero_input],
      [sample_output 0 0 false; sample_output 0 0 false].
    subst ins outs. repeat split; [exact Hrun | exact Hctx | exact Htr].
  - destruct (@fetch_transaction_meta_spec
                (sample_world [(true, meta_query greedy_meta)] [])
                (phase_state zero_context) zero_context
                (meta_query greedy_meta) eq_refl eq_refl eq_refl)
      as [_ Hgood].
    destruct Hgood
      as (s' & ins & outs & Hrun & Hctx & _ & Houts & Htr & Hnull & _);
      [cbn; repeat split; lia |].
    rewrite (Hnull eq_refl) in Hctx.
    exists s', [sample_output 0 0 false; sample_output 0 0 false].
    subst outs. repeat split; [exact Hrun | exact Hctx | exact Htr].
  - destruct (@fetch_transaction_meta_spec
                (sample_world [(true, meta_query wrapping_meta)] [])
                (phase_state zero_context) zero_context
                (meta_query wrapping_meta) eq_refl eq_refl eq_refl)
      as [_ Hgood].
    destruct Hgood
      as (s' & ins & outs & Hrun & Hctx & Hins & Houts & Htr & _);
      [cbn; repeat split; lia |].
    exists s', [zero_input],
      [sample_output 0 0 false; sample_output 0 0 false].
    subst ins outs. repeat split; [exact Hrun | exact Hctx | exact Htr].
Defined.

Section Sequencing.
Context `{W : Collaborators}.

(** C1. What the phase chain of [btc_sign_transaction] does around the
    initial confirmation, for an initiate query that passes its checks.  If
    the user accepts, the flow ends right after INIT: no host round is read.
    If the user declines, [handle_initiate_query] has failed and the flow
    goes on to [fetch_transaction_meta]: it reads the next host round and,
    when that carries acceptable metadata, calls [malloc] for [inputs] and
    for [outputs] and replies meta-accepted; at the end every array that
    was allocated is released. *)
Theorem decline_then_meta_runs (q0 qm : btc_query_t) (name : string) :
  which_request (sign_txn q0) = BTC_SIGN_TXN_REQUEST_INITIATE_TAG ->
  btc_derivation_path_guard (derivation_path (initiate (sign_txn q0))) = true ->
  get_wallet_name_by_id (wallet_id (initiate (sign_txn q0))) = Some name ->
  host 0%nat = (true, qm) ->
  which_request (sign_txn qm) = BTC_SIGN_TXN_REQUEST_META_TAG ->
  sighash (meta (sign_txn qm)) = 1 ->
  input_count (meta (sign_txn qm)) <> 0 ->
  output_count (meta (sign_txn qm)) <> 0 ->
  (user 0%nat = true ->
   exists s',
     btc_sign_transaction (entry_state q0) = Some (tt, s') /\
     trace s' =
       [EvMallocContext;
        EvConfirmation (UI_TEXT_BTC_SEND_PROMPT app_name name) true;
        EvSetFlowStatusConfirm;
        EvSendResult BTC_SIGN_TXN_RESPONSE_CONFIRMATION_TAG;
        EvFreeContext])
  /\
  (user 0%nat = false ->
   exists s',
     btc_sign_transaction (entry_state q0) = Some (tt, s') /\
     trace s' =
       [EvMallocContext;
        EvConfirmation (UI_TEXT_BTC_SEND_PROMPT app_name name) false;
        EvGetQuery true;
        EvMallocInputs
          (alloc_bytes sizeof_btc_txn_input_t
                       (input_count (meta (sign_txn qm))))
          (malloc_succeeds 0
             (alloc_bytes sizeof_btc_txn_input_t
                          (input_count (meta (sign_txn qm)))));
        EvMallocOutputs
          (alloc_bytes sizeof_btc_sign_txn_output_t
                       (output_count (meta (sign_txn qm))))
          (malloc_succeeds 1
             (alloc_bytes sizeof_btc_sign_txn_output_t
                          (output_count (meta (sign_txn qm)))));
        EvSendResult BTC_SIGN_TXN_RESPONSE_META_ACCEPTED_TAG]
       ++ (if malloc_succeeds 0
                (alloc_bytes sizeof_btc_txn_input_t
                             (input_count (meta (sign_txn qm))))
           then [EvFreeInputs] else [])
       ++ (if malloc_succeeds 1
                (alloc_bytes sizeof_btc_sign_txn_output_t
                             (output_count (meta (sign_txn qm))))
           then [EvFreeOutputs] else [])
       ++ [EvFreeContext]).
Proof.
  intros Hq0 Hpath Hname Hh Hqm H1 H2 H3. split; intros Hu.
  - unfold btc_sign_transaction, handle_initiate_query, entry_state.
    flow_simpl. rewrite Hq0.
    rewrite decide_False by (intros H; apply H; reflexivity).
    flow_simpl. rewrite Hpath. flow_simpl. rewrite Hname. flow_simpl.
    rewrite Hu. flow_simpl.
    unfold release. flow_simpl.
    eexists. split; reflexivity.
  - unfold btc_sign_transaction, handle_initiate_query, entry_state.
    flow_simpl. rewrite Hq0.
    rewrite decide_False by (intros H; apply H; reflexivity).
    flow_simpl. rewrite Hpath. flow_simpl. rewrite Hname. flow_simpl.
    rewrite Hu. flow_simpl.
    unfold fetch_transaction_meta. flow_simpl. rewrite Hh. flow_simpl.
    rewrite Hqm. rewrite decide_False by (intros H; apply H; reflexivity).
    flow_simpl. rewrite (meta_check_false _ H1 H2 H3). flow_simpl.
    unfold release, malloc_array.
    destruct (malloc_succeeds 0 _), (malloc_succeeds 1 _); flow_simpl;
      eexists; split; reflexivity.
Qed.

End Sequencing.

Lemma decline_then_meta_runs_witness :
  exists s',
    @btc_sign_transaction
      (sample_world [(true, meta_query sample_meta)] [false])
      (entry_state initiate_query) = Some (tt, s') /\
    trace s' =
      [EvMallocContext;
       EvConfirmation (UI_TEXT_BTC_SEND_PROMPT "Bitcoin" "Savings") false;
       EvGetQuery true; EvMallocInputs 64 true; EvMallocOutputs 128 true;
       EvSendResult BTC_SIGN_TXN_RESPONSE_META_ACCEPTED_TAG;
       EvFreeInputs; EvFreeOutputs; EvFreeContext].
Proof.
  apply (@decline_then_meta_runs
           (sample_world [(true, meta_query sample_meta)] [false])
           initiate_query (meta_query sample_meta) "Savings");
    try reflexivity; cbn; lia.
Defined.

Section InputRound.
Context `{W : Collaborators}.

Lemma bind_eq {A B} (m : M A) (k : A -> M B) (s s1 : state) (a : A) :
  m s = Some (a, s1) -> bind m k s = k a s1.
Proof. intros H. unfold bind. rewrite H. reflexivity. Qed.

(** The gate of a loop iteration, [!btc_get_query(..) &&
    !check_which_request(..)]: it lets the round through as soon as the query
    was received, or the discriminant matches. *)
Lemma round_gate_passed (tag : sign_txn_request_tag) (s : state) (ok : bool)
    (q : btc_query_t) :
  host (host_rounds s) = (ok, q) ->
  ok = true \/ which_request (sign_txn q) = tag ->
  ((! btc_get_query) &&& (! check_which_request tag)) s
  = Some (false, after_query ok q s).
Proof.
  intros Hh Hgate. flow_simpl. rewrite Hh. flow_simpl.
  destruct ok; flow_simpl; [reflexivity |].
  destruct Hgate as [Hgate | Hgate]; [discriminate |].
  rewrite Hgate. rewrite decide_False by (intros H; apply H; reflexivity).
  reflexivity.
Qed.

(** It stops the round only when the query was not received and the
    discriminant left in the buffer does not match. *)
Lemma round_gate_rejected (tag : sign_txn_request_tag) (s : state)
    (q : btc_query_t) :
  host (host_rounds s) = (false, q) ->
  which_request (sign_txn q) <> tag ->
  ((! btc_get_query) &&& (! check_which_request tag)) s
  = Some (true,
          after_event (EvSendError ERROR_COMMON_ERROR_CORRUPT_DATA_TAG
                                   ERROR_DATA_FLOW_INVALID_REQUEST)
                      (after_query false q s)).
Proof.
  intros Hh Hne. flow_simpl. rewrite Hh. flow_simpl.
  rewrite decide_True by congruence. reflexivity.
Qed.

Lemma fetch_valid_input_round_passed (s : state) (c : btc_txn_context_t)
    (ins : list btc_txn_input_t) (slot : btc_txn_input_t) (idx : nat)
    (ok : bool) (q : btc_query_t) :
  btc_txn_context s = Some c ->
  inputs c = Some ins ->
  ins !! idx = Some slot ->
  host (host_rounds s) = (ok, q) ->
  ok = true \/ which_request (sign_txn q) = BTC_SIGN_TXN_REQUEST_INPUT_TAG ->
  fetch_valid_input_round idx s =
    let verdict :=
      btc_verify_input (pb_buf (rq_prev_txn (input (sign_txn q))))
                       (pb_size (rq_prev_txn (input (sign_txn q)))) slot in
    if fst verdict then
      Some (true,
            {| btc_txn_context :=
                 Some (set_inputs
                         (Some (<[idx := clone_input (input (sign_txn q))
                                                     (snd verdict)]> ins)) c);
               query := q;
               host_rounds := S (host_rounds s);
               user_rounds := user_rounds s;
               trace := trace s ++
                 [EvGetQuery ok;
                  EvSendResult BTC_SIGN_TXN_RESPONSE_INPUT_ACCEPTED_TAG] |})
    else
      Some (false,
            {| btc_txn_context :=
                 Some (set_inputs (Some (<[idx := snd verdict]> ins)) c);
               query := q;
               host_rounds := S (host_rounds s);
               user_rounds := user_rounds s;
               trace := trace s ++
                 [EvGetQuery ok;
                  EvSendError ERROR_COMMON_ERROR_CORRUPT_DATA_TAG
                              ERROR_DATA_FLOW_INVALID_DATA] |}).
Proof.
  intros Hc Hins Hslot Hh Hgate.
  assert (Hlt : (idx < length ins)%nat) by (eapply lookup_lt_Some; eassumption).
  unfold fetch_valid_input_round.
  rewrite (bind_eq _ _ _ _ _ (round_gate_passed _ _ _ _ Hh Hgate)).
  unfold after_query. flow_simpl. rewrite Hc. flow_simpl.
  rewrite Hins, Hslot. flow_simpl.
  rewrite decide_True by assumption. flow_simpl.
  destruct (btc_verify_input _ _ slot) as [v slot']. cbn [fst snd].
  destruct v; flow_simpl.
  - rewrite decide_True by (rewrite length_insert; assumption). flow_simpl.
    rewrite list_insert_insert_eq. trace_norm. reflexivity.
  - trace_norm. reflexivity.
Qed.

Lemma fetch_valid_input_round_rejected (s : state) (idx : nat)
    (q : btc_query_t) :
  host (host_rounds s) = (false, q) ->
  which_request (sign_txn q) <> BTC_SIGN_TXN_REQUEST_INPUT_TAG ->
  fetch_valid_input_round idx s
  = Some (false,
          after_event (EvSendError ERROR_COMMON_ERROR_CORRUPT_DATA_TAG
                                   ERROR_DATA_FLOW_INVALID_REQUEST)
                      (after_query false q s)).
Proof.
  intros Hh Hne. unfold fetch_valid_input_round.
  rewrite (bind_eq _ _ _ _ _ (round_gate_rejected _ _ _ Hh Hne)).
  reflexivity.
Qed.

Lemma fetch_valid_output_round_passed (s : state) (c : btc_txn_context_t)
    (outs : list btc_sign_txn_output_t) (idx : nat) (z : bool)
    (ok : bool) (q : btc_query_t) :
  btc_txn_context s = Some c ->
  outputs c = Some outs ->
  (idx < length outs)%nat ->
  host (host_rounds s) = (ok, q) ->
  ok = true \/ which_request (sign_txn q) = BTC_SIGN_TXN_REQUEST_OUTPUT_TAG ->
  fetch_valid_output_round idx z s =
    if carries_locked_funds (output (sign_txn q)) then
      Some (None,
            {| btc_txn_context :=
                 Some (set_outputs
                         (Some (<[idx := output (sign_txn q)]> outs)) c);
               query := q;
               host_rounds := S (host_rounds s);
               user_rounds := user_rounds s;
               trace := trace s ++
                 [EvGetQuery ok;
                  EvSendError ERROR_COMMON_ERROR_CORRUPT_DATA_TAG
                              ERROR_DATA_FLOW_INVALID_DATA] |})
    else
      Some (Some (z && zero_valued (output (sign_txn q))),
            {| btc_txn_context :=
                 Some (set_outputs
                         (Some (<[idx := output (sign_txn q)]> outs)) c);
               query := q;
               host_rounds := S (host_rounds s);
               user_rounds := user_rounds s;
               trace := trace s ++
                 [EvGetQuery ok;
                  EvSendResult BTC_SIGN_TXN_RESPONSE_INPUT_ACCEPTED_TAG] |}).
Proof.
  intros Hc Houts Hlt Hh Hgate.
  unfold fetch_valid_output_round.
  rewrite (bind_eq _ _ _ _ _ (round_gate_passed _ _ _ _ Hh Hgate)).
  unfold after_query. flow_simpl. rewrite Hc. flow_simpl.
  rewrite Houts. flow_simpl.
  rewrite decide_True by assumption. flow_simpl.
  unfold carries_locked_funds, zero_valued.
  destruct (OP_RETURN =? _); destruct (0 =? out_value _); cbn [negb andb];
    flow_simpl; trace_norm; rewrite ?andb_true_r, ?andb_false_r; reflexivity.
Qed.

Lemma fetch_valid_output_round_rejected (s : state) (idx : nat) (z : bool)
    (q : btc_query_t) :
  host (host_rounds s) = (false, q) ->
  which_request (sign_txn q) <> BTC_SIGN_TXN_REQUEST_OUTPUT_TAG ->
  fetch_valid_output_round idx z s
  = Some (None,
          after_event (EvSendError ERROR_COMMON_ERROR_CORRUPT_DATA_TAG
                                   ERROR_DATA_FLOW_INVALID_REQUEST)
                      (after_query false q s)).
Proof.
  intros Hh Hne. unfold fetch_valid_output_round.
  rewrite (bind_eq _ _ _ _ _ (round_gate_rejected _ _ _ Hh Hne)).
  reflexivity.
Qed.

End InputRound.

(** The first [n] bytes after [memcpy(dst, src, n)] are those of [src]; the
    bytes from [n] on are those of [dst]. *)
Lemma memcpy_bytes_copied (dst src : list Z) (n : Z) (i : nat) :
  (i < Z.to_nat n)%nat ->
  byte_at (memcpy_bytes dst src n) i = byte_at src i.
Proof.
  intros Hi. unfold memcpy_bytes, byte_at at 1.
  rewrite app_nth1 by (rewrite length_map, length_seq; exact Hi).
  rewrite (nth_indep _ 0 (byte_at src 0))
    by (rewrite length_map, length_seq; exact Hi).
  rewrite (map_nth (byte_at src)), seq_nth by exact Hi. reflexivity.
Qed.

Lemma memcpy_bytes_kept (dst src : list Z) (n : Z) (i : nat) :
  (Z.to_nat n <= i)%nat ->
  byte_at (memcpy_bytes dst src n) i = byte_at dst i.
Proof.
  intros Hi. unfold memcpy_bytes, byte_at.
  rewrite app_nth2 by (rewrite length_map, length_seq; exact Hi).
  rewrite length_map, length_seq, nth_skipn. f_equal. lia.
Qed.

(** A destination of six bytes, a source list of one byte standing for a
    zero-padded buffer, three bytes copied. *)
Lemma memcpy_bytes_zero_padded :
  memcpy_bytes [1; 2; 3; 4; 5; 6] [0x76] 3 = [0x76; 0; 0; 4; 5; 6].
Proof. reflexivity. Qed.

Section RoundClaims.
Context `{W : Collaborators}.

(** C3. In the INPUTS and OUTPUTS loops a received query whose request
    discriminant is not the expected one is not rejected: no error is sent,
    and the payload is processed and accepted like that of a matching
    query. *)
Theorem wrong_request_is_processed (s : state) (c : btc_txn_context_t)
    (idx : nat) (q : btc_query_t) :
  btc_txn_context s = Some c ->
  host (host_rounds s) = (true, q) ->
  (forall ins slot,
     inputs c = Some ins ->
     ins !! idx = Some slot ->
     which_request (sign_txn q) <> BTC_SIGN_TXN_REQUEST_INPUT_TAG ->
     fst (btc_verify_input (pb_buf (rq_prev_txn (input (sign_txn q))))
                           (pb_size (rq_prev_txn (input (sign_txn q))))
                           slot) = true ->
     exists s',
       fetch_valid_input_round idx s = Some (true, s') /\
       trace s' = trace s ++
         [EvGetQuery true;
          EvSendResult BTC_SIGN_TXN_RESPONSE_INPUT_ACCEPTED_TAG])
  /\
  (forall outs z,
     outputs c = Some outs ->
     (idx < length outs)%nat ->
     which_request (sign_txn q) <> BTC_SIGN_TXN_REQUEST_OUTPUT_TAG ->
     carries_locked_funds (output (sign_txn q)) = false ->
     exists s',
       fetch_valid_output_round idx z s
         = Some (Some (z && zero_valued (output (sign_txn q))), s') /\
       btc_txn_context s'
         = Some (set_outputs (Some (<[idx := output (sign_txn q)]> outs)) c) /\
       trace s' = trace s ++
         [EvGetQuery true;
          EvSendResult BTC_SIGN_TXN_RESPONSE_INPUT_ACCEPTED_TAG]).
Proof.
  intros Hc Hh. split.
  - intros ins slot Hins Hslot _ Hv.
    rewrite (fetch_valid_input_round_passed s c ins slot idx true q)
      by auto.
    cbv zeta. rewrite Hv. eexists. split; reflexivity.
  - intros outs z Houts Hlt _ Hfree.
    rewrite (fetch_valid_output_round_passed s c outs idx z true q)
      by auto.
    rewrite Hfree. eexists. repeat split; reflexivity.
Qed.

(** C2. [btc_verify_input] is called before the host's claim is copied into
    the context record, so it is handed the raw previous transaction and the
    slot as the round found it, and nothing of what the host claims (value,
    script, previous-transaction hash, output index).  Hence two rounds that
    find the same slot and carry the same raw previous transaction get the
    same verdict whatever they claim, and each, once accepted, stores its own
    claim: the claimed value and script are never compared with the previous
    transaction. *)
Theorem verifier_never_sees_the_claim (s1 s2 : state) (c : btc_txn_context_t)
    (ins : list btc_txn_input_t) (slot : btc_txn_input_t) (idx : nat)
    (ok1 ok2 : bool) (q1 q2 : btc_query_t) :
  btc_txn_context s1 = Some c ->
  btc_txn_context s2 = Some c ->
  inputs c = Some ins ->
  ins !! idx = Some slot ->
  host (host_rounds s1) = (ok1, q1) ->
  host (host_rounds s2) = (ok2, q2) ->
  ok1 = true \/ which_request (sign_txn q1) = BTC_SIGN_TXN_REQUEST_INPUT_TAG ->
  ok2 = true \/ which_request (sign_txn q2) = BTC_SIGN_TXN_REQUEST_INPUT_TAG ->
  rq_prev_txn (input (sign_txn q1)) = rq_prev_txn (input (sign_txn q2)) ->
  exists (b : bool) s1' s2',
    fetch_valid_input_round idx s1 = Some (b, s1') /\
    fetch_valid_input_round idx s2 = Some (b, s2') /\
    b = fst (btc_verify_input (pb_buf (rq_prev_txn (input (sign_txn q1))))
                              (pb_size (rq_prev_txn (input (sign_txn q1))))
                              slot) /\
    (b = true ->
     exists r1 r2,
       btc_txn_context s1' = Some (set_inputs (Some (<[idx := r1]> ins)) c) /\
       btc_txn_context s2' = Some (set_inputs (Some (<[idx := r2]> ins)) c) /\
       value r1 = rq_value (input (sign_txn q1)) /\
       value r2 = rq_value (input (sign_txn q2)) /\
       pb_size (script_pub_key r1)
         = pb_size (rq_script_pub_key (input (sign_txn q1))) /\
       pb_size (script_pub_key r2)
         = pb_size (rq_script_pub_key (input (sign_txn q2))) /\
       prev_output_index r1 = rq_prev_output_index (input (sign_txn q1)) /\
       prev_output_index r2 = rq_prev_output_index (input (sign_txn q2)) /\
       (forall i, (i < Z.to_nat (pb_size (rq_script_pub_key
                                            (input (sign_txn q1)))))%nat ->
          byte_at (pb_buf (script_pub_key r1)) i
          = byte_at (pb_buf (rq_script_pub_key (input (sign_txn q1)))) i) /\
       (forall i, (i < Z.to_nat (pb_size (rq_script_pub_key
                                            (input (sign_txn q2)))))%nat ->
          byte_at (pb_buf (script_pub_key r2)) i
          = byte_at (pb_buf (rq_script_pub_key (input (sign_txn q2)))) i)).
Proof.
  intros Hc1 Hc2 Hins Hslot Hh1 Hh2 Hg1 Hg2 Hraw.
  assert (H1 :=
    fetch_valid_input_round_passed s1 c ins slot idx ok1 q1 Hc1 Hins Hslot
      Hh1 Hg1).
  assert (H2 :=
    fetch_valid_input_round_passed s2 c ins slot idx ok2 q2 Hc2 Hins Hslot
      Hh2 Hg2).
  cbv zeta in H1, H2. rewrite <- Hraw in H2.
  destruct (btc_verify_input _ _ slot) as [v slot'] eqn:Hv.
  cbn [fst snd] in *.
  destruct v.
  - eexists true, _, _. split; [exact H1 |]. split; [exact H2 |].
    split; [reflexivity |]. intros _.
    eexists _, _. split; [reflexivity |]. split; [reflexivity |].
    cbn [clone_input value script_pub_key pb_size pb_buf prev_output_index].
    repeat split; intros i Hi; apply memcpy_bytes_copied; exact Hi.
  - eexists false, _, _. split; [exact H1 |]. split; [exact H2 |].
    split; [reflexivity |]. discriminate.
Qed.

End RoundClaims.

Lemma wrong_request_is_processed_witness :
  (exists s',
     @fetch_valid_input_round
       (sample_world [(true, input_query BTC_SIGN_TXN_REQUEST_OUTPUT_TAG 5000)] [])
       0%nat (phase_state sample_context) = Some (true, s') /\
     trace s' =
       [EvGetQuery true;
        EvSendResult BTC_SIGN_TXN_RESPONSE_INPUT_ACCEPTED_TAG])
  /\
  (exists s',
     @fetch_valid_output_round
       (sample_world
          [(true, output_query BTC_SIGN_TXN_REQUEST_INPUT_TAG
                               (sample_output 90000 0x76 false))] [])
       0%nat true (phase_state sample_context) = Some (Some false, s') /\
     btc_txn_context s' =
       Some (set_outputs
               (Some [sample_output 90000 0x76 false; sample_output 0 0 false])
               sample_context) /\
     trace s' =
       [EvGetQuery true;
        EvSendResult BTC_SIGN_TXN_RESPONSE_INPUT_ACCEPTED_TAG]).
Proof.
  split.
  - apply (proj1 (@wrong_request_is_processed
             (sample_world
                [(true, input_query BTC_SIGN_TXN_REQUEST_OUTPUT_TAG 5000)] [])
             (phase_state sample_context) sample_context 0%nat
             (input_query BTC_SIGN_TXN_REQUEST_OUTPUT_TAG 5000)
             eq_refl eq_refl) [zero_input] zero_input);
      try reflexivity.
    discriminate.
  - apply (proj2 (@wrong_request_is_processed
             (sample_world
                [(true, output_query BTC_SIGN_TXN_REQUEST_INPUT_TAG
                                     (sample_output 90000 0x76 false))] [])
             (phase_state sample_context) sample_context 0%nat
             (output_query BTC_SIGN_TXN_REQUEST_INPUT_TAG
                           (sample_output 90000 0x76 false))
             eq_refl eq_refl)
             [sample_output 0 0 false; sample_output 0 0 false] true);
      try reflexivity.
    + cbn. lia.
    + discriminate.
Defined.

Lemma verifier_never_sees_the_claim_witness :
  value (snd (sample_verify_input [0xe8; 0x03; 0x76; 0xa9] 4 zero_input)) = 1000
  /\
  exists s1' s2' r1 r2,
    @fetch_valid_input_round
      (sample_world [(true, input_query BTC_SIGN_TXN_REQUEST_INPUT_TAG 5000);
                     (true, input_query BTC_SIGN_TXN_REQUEST_INPUT_TAG 1000)] [])
      0%nat (running_state sample_context initiate_query 0 0)
      = Some (true, s1') /\
    @fetch_valid_input_round
      (sample_world [(true, input_query BTC_SIGN_TXN_REQUEST_INPUT_TAG 5000);
                     (true, input_query BTC_SIGN_TXN_REQUEST_INPUT_TAG 1000)] [])
      0%nat (running_state sample_context initiate_query 1 0)
      = Some (true, s2') /\
    btc_txn_context s1' = Some (set_inputs (Some [r1]) sample_context) /\
    btc_txn_context s2' = Some (set_inputs (Some [r2]) sample_context) /\
    value r1 = 5000 /\ value r2 = 1000.
Proof.
  split; [reflexivity |].
  destruct (@verifier_never_sees_the_claim
              (sample_world
                 [(true, input_query BTC_SIGN_TXN_REQUEST_INPUT_TAG 5000);
                  (true, input_query BTC_SIGN_TXN_REQUEST_INPUT_TAG 1000)] [])
              (running_state sample_context initiate_query 0 0)
              (running_state sample_context initiate_query 1 0)
              sample_context [zero_input] zero_input 0%nat true true
              (input_query BTC_SIGN_TXN_REQUEST_INPUT_TAG 5000)
              (input_query BTC_SIGN_TXN_REQUEST_INPUT_TAG 1000)
              eq_refl eq_refl eq_refl eq_refl eq_refl eq_refl
              (or_introl eq_refl) (or_introl eq_refl) eq_refl)
    as (b & s1' & s2' & Hrun1 & Hrun2 & Hb & Hstored).
  cbn in Hb. subst b.
  destruct (Hstored eq_refl)
    as (r1 & r2 & Hc1 & Hc2 & Hv1 & Hv2 & _).
  exists s1', s2', r1, r2.
  split; [exact Hrun1 |]. split; [exact Hrun2 |].
  split; [exact Hc1 |]. split; [exact Hc2 |].
  split; [exact Hv1 | exact Hv2].
Defined.

Section OutputPhase.
Context `{W : Collaborators}.

Lemma fetch_valid_output_loop_received (n : nat) :
  forall (idx : nat) (z : bool) (s : state) (c : btc_txn_context_t)
         (outs : list btc_sign_txn_output_t),
    btc_txn_context s = Some c ->
    outputs c = Some outs ->
    (idx + n <= length outs)%nat ->
    (forall i, (i < n)%nat -> fst (host (host_rounds s + i)%nat) = true) ->
    exists s' evs,
      fetch_valid_output_loop n idx z s
        = Some (loop_verdict z (delivered_outputs (host_rounds s) n), s') /\
      host_rounds s'
        = (host_rounds s + rounds_used (delivered_outputs (host_rounds s) n))%nat /\
      trace s' = trace s ++ evs /\
      (loop_verdict z (delivered_outputs (host_rounds s) n) = None ->
       exists evs',
         evs = evs' ++ [EvSendError ERROR_COMMON_ERROR_CORRUPT_DATA_TAG
                                    ERROR_DATA_FLOW_INVALID_DATA]).
Proof.
  induction n as [| n IH]; intros idx z s c outs Hc Houts Hlen Hok.
  - exists s, []. cbn. unfold loop_verdict. cbn.
    rewrite andb_true_r, Nat.add_0_r, app_nil_r.
    repeat split; try reflexivity. discriminate.
  - assert (Hok0 := Hok 0%nat ltac:(lia)). rewrite Nat.add_0_r in Hok0.
    destruct (host (host_rounds s)) as [ok q] eqn:Hh. cbn in Hok0. subst ok.
    cbn [fetch_valid_output_loop delivered_outputs].
    rewrite Hh. cbn [snd].
    assert (Hround :=
      fetch_valid_output_round_passed s c outs idx z true q Hc Houts
        ltac:(lia) Hh ltac:(auto)).
    unfold loop_verdict. cbn [forallb rounds_used].
    destruct (carries_locked_funds (output (sign_txn q))) eqn:Hlocked;
      rewrite (bind_eq _ _ _ _ _ Hround).
    + cbn [negb andb]. eexists _, _. split; [reflexivity |].
      cbn [host_rounds trace]. split; [lia |]. split; [reflexivity |].
      intros _. exists [EvGetQuery true]. reflexivity.
    + cbn [negb andb].
      match goal with
      | |- context [fetch_valid_output_loop n (S idx) ?z1 ?s1] =>
        destruct (IH (S idx) z1 s1
                     (set_outputs (Some (<[idx := output (sign_txn q)]> outs)) c)
                     (<[idx := output (sign_txn q)]> outs))
          as (s' & evs & Hrun & Hrounds & Htrace & Hend)
      end.
      * reflexivity.
      * reflexivity.
      * rewrite length_insert. lia.
      * intros i Hi. cbn [host_rounds].
        replace (S (host_rounds s) + i)%nat with (host_rounds s + S i)%nat by lia.
        apply Hok. lia.
      * cbn [host_rounds trace] in *. unfold loop_verdict in Hrun, Hend.
        exists s', ([EvGetQuery true;
                     EvSendResult BTC_SIGN_TXN_RESPONSE_INPUT_ACCEPTED_TAG]
                    ++ evs).
        split.
        { rewrite Hrun.
          destruct (forallb _ (delivered_outputs _ n)); [| reflexivity].
          rewrite andb_assoc. reflexivity. }
        split; [lia |].
        split; [rewrite Htrace, <- app_assoc; reflexivity |].
        intros Hnone.
        destruct Hend as (evs' & ->).
        { destruct (forallb _ (delivered_outputs _ n));
            [discriminate | reflexivity]. }
        exists ([EvGetQuery true;
                 EvSendResult BTC_SIGN_TXN_RESPONSE_INPUT_ACCEPTED_TAG]
                ++ evs').
        rewrite <- app_assoc. reflexivity.
Qed.

Lemma outputs_acceptable_verdict (os : list btc_sign_txn_output_t) :
  outputs_acceptable os =
    match loop_verdict true os with
    | Some zero_value_transaction => negb zero_value_transaction
    | None => false
    end.
Proof.
  unfold outputs_acceptable, loop_verdict.
  destruct (forallb _ os); cbn [andb]; [| reflexivity].
  induction os as [| o os IH]; [reflexivity |].
  cbn [existsb forallb]. rewrite IH.
  destruct (zero_valued o); reflexivity.
Qed.

End OutputPhase.

Section Verification.
Context `{W : Collaborators}.

Lemma prompt_run (ev : bool -> event) (s : state) :
  prompt ev s
  = Some (user (user_rounds s), after_prompts 1 [ev (user (user_rounds s))] s).
Proof.
  unfold prompt, after_prompts. rewrite Nat.add_1_r. reflexivity.
Qed.

Lemma after_prompts_compose (j k : nat) (e1 e2 : list event) (s : state) :
  after_prompts k e2 (after_prompts j e1 s) = after_prompts (j + k) (e1 ++ e2) s.
Proof.
  unfold after_prompts. cbn. rewrite <- app_assoc, Nat.add_assoc. reflexivity.
Qed.

Lemma after_prompts_nothing (s : state) : after_prompts 0 [] s = s.
Proof.
  destruct s. unfold after_prompts. cbn. rewrite Nat.add_0_r, app_nil_r.
  reflexivity.
Qed.

(** The receiver loop presents exactly the receiver pages. *)
Lemma show_receivers_pages (n : nat) :
  forall (idx : nat) (s : state) (c : btc_txn_context_t)
         (outs : list btc_sign_txn_output_t),
    btc_txn_context s = Some c ->
    outputs c = Some outs ->
    length outs = (idx + n)%nat ->
    show_receivers n idx s
    = present_pages (receiver_pages idx (drop idx outs)) s.
Proof.
  induction n as [| n IH]; intros idx s c outs Hc Houts Hlen.
  - rewrite drop_ge by lia. reflexivity.
  - destruct (lookup_lt_is_Some_2 outs idx ltac:(lia)) as [o Ho].
    rewrite (drop_S _ _ _ Ho).
    cbn [show_receivers receiver_pages]. unfold pages_of_output.
    erewrite bind_eq by (unfold read_context; rewrite Hc; reflexivity).
    rewrite Houts. cbn [deref_at]. rewrite Ho.
    erewrite bind_eq by reflexivity.
    destruct (is_change o).
    + cbn [app]. apply (IH (S idx) s c outs); auto. lia.
    + cbn [app present_pages].
      unfold core_scroll_page, orM, notM, bind, ret.
      rewrite !prompt_run.
      destruct (user (user_rounds s)); cbn [negb]; [| reflexivity].
      rewrite !prompt_run.
      destruct (user (user_rounds (after_prompts 1 _ s))); cbn [negb];
        [| reflexivity].
      apply (IH (S idx) _ c outs); auto. lia.
Qed.

Lemma present_pages_accepted (pages : list (ui_text * ui_text)) :
  forall s,
    (forall i, (i < length pages)%nat -> user (user_rounds s + i)%nat = true) ->
    present_pages pages s
    = Some (true, after_prompts (length pages) (accepted_pages pages) s).
Proof.
  induction pages as [| [t b] pages IH]; intros s Hacc.
  - cbn. rewrite after_prompts_nothing. reflexivity.
  - cbn [present_pages]. unfold core_scroll_page, bind.
    rewrite prompt_run.
    assert (H0 := Hacc 0%nat ltac:(cbn; lia)). rewrite Nat.add_0_r in H0.
    rewrite H0, IH.
    + rewrite after_prompts_compose. reflexivity.
    + intros i Hi. cbn [after_prompts user_rounds].
      replace (user_rounds s + 1 + i)%nat with (user_rounds s + S i)%nat by lia.
      apply Hacc. cbn. lia.
Qed.

Lemma present_pages_rejected (pages : list (ui_text * ui_text)) :
  forall s j p,
    pages !! j = Some p ->
    (forall i, (i < j)%nat -> user (user_rounds s + i)%nat = true) ->
    user (user_rounds s + j)%nat = false ->
    present_pages pages s
    = Some (false,
            after_prompts (S j)
              (accepted_pages (take j pages)
               ++ [EvScrollPage (fst p) (snd p) false]) s).
Proof.
  induction pages as [| [t b] pages IH]; intros s j p Hp Hacc Hrej.
  - discriminate.
  - cbn [present_pages]. unfold core_scroll_page, bind.
    rewrite prompt_run. destruct j as [| j].
    + injection Hp as <-. rewrite Nat.add_0_r in Hrej. rewrite Hrej.
      reflexivity.
    + assert (H0 := Hacc 0%nat ltac:(lia)). rewrite Nat.add_0_r in H0.
      rewrite H0. rewrite (IH _ j p).
      * rewrite after_prompts_compose. reflexivity.
      * exact Hp.
      * intros i Hi. cbn [after_prompts user_rounds].
        replace (user_rounds s + 1 + i)%nat with (user_rounds s + S i)%nat
          by lia.
        apply Hacc. lia.
      * cbn [after_prompts user_rounds].
        replace (user_rounds s + 1 + j)%nat with (user_rounds s + S j)%nat
          by lia.
        exact Hrej.
Qed.

(** Either every page is accepted or there is a first rejected one. *)
Lemma first_rejection (pages : list (ui_text * ui_text)) (k : nat) :
  (forall i, (i < length pages)%nat -> user (k + i)%nat = true)
  \/ exists j p,
       pages !! j = Some p /\
       (forall i, (i < j)%nat -> user (k + i)%nat = true) /\
       user (k + j)%nat = false.
Proof.
  revert k. induction pages as [| p pages IH]; intros k.
  - left. cbn. intros i Hi. lia.
  - destruct (user (k + 0)%nat) eqn:H0.
    + destruct (IH (S k)) as [Hall | (j & p' & Hp & Hacc & Hrej)].
      * left. intros [| i] Hi; [exact H0 |].
        replace (k + S i)%nat with (S k + i)%nat by lia.
        apply Hall. cbn in Hi. lia.
      * right. exists (S j), p'. split; [exact Hp |]. split.
        -- intros [| i] Hi; [exact H0 |].
           replace (k + S i)%nat with (S k + i)%nat by lia.
           apply Hacc. lia.
        -- replace (k + S j)%nat with (S k + j)%nat by lia. exact Hrej.
    + right. exists 0%nat, p. split; [reflexivity |]. split; [| exact H0].
      intros i Hi. lia.
Qed.

Lemma receiver_pages_member (os : list btc_sign_txn_output_t) :
  forall (idx : nat) (t b : ui_text),
    In (t, b) (receiver_pages idx os) <->
    exists i o,
      os !! i = Some o /\ is_change o = false /\
      t = UI_TEXT_BTC_RECEIVER (Z.of_nat (idx + i) + 1) /\
      (b = ui_formatted (script_output_to_address
                           (pb_buf (out_script_pub_key o))
                           (pb_size (out_script_pub_key o)))
       \/ b = ui_formatted (format_value (out_value o))).
Proof.
  induction os as [| o os IH]; intros idx t b.
  - cbn. split; [intros [] | intros (i & o & H & _); discriminate].
  - cbn [receiver_pages]. rewrite in_app_iff, IH. split.
    + intros [Hin | (i & o' & Ho' & Hc & Ht & Hb)].
      * exists 0%nat, o. unfold pages_of_output in Hin.
        destruct (is_change o) eqn:Hch; [destruct Hin |].
        rewrite Nat.add_0_r.
        destruct Hin as [E | [E | []]]; injection E as <- <-; auto.
      * exists (S i), o'. replace (idx + S i)%nat with (S idx + i)%nat by lia.
        auto.
    + intros (i & o' & Ho' & Hc & Ht & Hb). destruct i as [| i].
      * left. injection Ho' as ->. unfold pages_of_output. rewrite Hc.
        rewrite Nat.add_0_r in Ht. subst t.
        destruct Hb as [-> | ->]; [left | right; left]; reflexivity.
      * right. exists i, o'.
        replace (S idx + i)%nat with (idx + S i)%nat by lia. auto.
Qed.

(** The fee part, run in a state with context [c]. *)
Lemma confirm_fee_run (s : state) (c : btc_txn_context_t) :
  btc_txn_context s = Some c ->
  confirm_fee s =
    match btc_get_txn_fee c with
    | None =>
      Some (false,
            after_event (EvSendError ERROR_COMMON_ERROR_CORRUPT_DATA_TAG
                                     ERROR_DATA_FLOW_INVALID_DATA) s)
    | Some fee =>
      if fee >? get_transaction_fee_threshold c then
        if user (user_rounds s) then
          Some (user (S (user_rounds s)),
                after_prompts 2
                  [EvConfirmation ui_text_warning_txn_fee_too_high true;
                   EvScrollPage UI_TEXT_BTC_FEE
                                (ui_formatted (format_value fee))
                                (user (S (user_rounds s)))] s)
        else
          Some (false,
                after_prompts 1
                  [EvConfirmation ui_text_warning_txn_fee_too_high false] s)
      else
        Some (user (user_rounds s),
              after_prompts 1
                [EvScrollPage UI_TEXT_BTC_FEE
                              (ui_formatted (format_value fee))
                              (user (user_rounds s))] s)
    end.
Proof.
  intros Hc. unfold confirm_fee.
  erewrite bind_eq by (unfold read_context; rewrite Hc; reflexivity).
  destruct (btc_get_txn_fee c) as [fee |]; [| reflexivity].
  unfold core_confirmation, core_scroll_page, andM, notM, bind, ret.
  destruct (fee >? get_transaction_fee_threshold c).
  - rewrite prompt_run. destruct (user (user_rounds s)) eqn:Hu; cbn [negb].
    + rewrite prompt_run. cbn [after_prompts user_rounds].
      rewrite Nat.add_1_r.
      unfold after_prompts. cbn. rewrite <- app_assoc.
      replace (user_rounds s + 1 + 1)%nat with (user_rounds s + 2)%nat by lia.
      destruct (user (S (user_rounds s))); reflexivity.
    + reflexivity.
  - rewrite prompt_run. destruct (user (user_rounds s)); reflexivity.
Qed.

End Verification.

Section VerifyClaims.
Context `{W : Collaborators}.

Lemma get_user_verification_pages (s : state) (c : btc_txn_context_t)
    (outs : list btc_sign_txn_output_t) :
  btc_txn_context s = Some c ->
  outputs c = Some outs ->
  length outs = Z.to_nat (output_count (metadata c)) ->
  get_user_verification s
  = (let* shown := present_pages (receiver_pages 0 outs) in
     if shown then confirm_fee else ret false) s.
Proof.
  intros Hc Houts Hlen. unfold get_user_verification.
  erewrite bind_eq by (unfold read_context; rewrite Hc; reflexivity).
  unfold bind. rewrite <- Hlen.
  rewrite (show_receivers_pages (length outs) 0 s c outs) by auto.
  rewrite drop_0. reflexivity.
Qed.

Lemma get_user_verification_accepted (s : state) (c : btc_txn_context_t)
    (outs : list btc_sign_txn_output_t) :
  btc_txn_context s = Some c ->
  outputs c = Some outs ->
  length outs = Z.to_nat (output_count (metadata c)) ->
  (forall i, (i < length (receiver_pages 0 outs))%nat ->
     user (user_rounds s + i)%nat = true) ->
  get_user_verification s
  = confirm_fee (after_prompts (length (receiver_pages 0 outs))
                               (accepted_pages (receiver_pages 0 outs)) s).
Proof.
  intros Hc Houts Hlen Hacc.
  rewrite (get_user_verification_pages s c outs) by auto.
  unfold bind. rewrite present_pages_accepted by exact Hacc. reflexivity.
Qed.

Lemma get_user_verification_rejected (s : state) (c : btc_txn_context_t)
    (outs : list btc_sign_txn_output_t) (j : nat) (p : ui_text * ui_text) :
  btc_txn_context s = Some c ->
  outputs c = Some outs ->
  length outs = Z.to_nat (output_count (metadata c)) ->
  receiver_pages 0 outs !! j = Some p ->
  (forall i, (i < j)%nat -> user (user_rounds s + i)%nat = true) ->
  user (user_rounds s + j)%nat = false ->
  get_user_verification s
  = Some (false,
          after_prompts (S j)
            (accepted_pages (take j (receiver_pages 0 outs))
             ++ [EvScrollPage (fst p) (snd p) false]) s).
Proof.
  intros Hc Houts Hlen Hp Hacc Hrej.
  rewrite (get_user_verification_pages s c outs) by auto.
  unfold bind. rewrite (present_pages_rejected _ s j p) by auto.
  reflexivity.
Qed.

(** C8. The receiver pages of [get_user_verification] are, in output order,
    the address and then the amount of every output that is not a change
    output, and no page comes from a change output.  If the user accepts all
    of them the function goes on to the fee; at the first rejected page it
    returns failure, having shown the pages up to that one. *)
Theorem receivers_are_shown (s : state) (c : btc_txn_context_t)
    (outs : list btc_sign_txn_output_t) :
  btc_txn_context s = Some c ->
  outputs c = Some outs ->
  length outs = Z.to_nat (output_count (metadata c)) ->
  (forall t b,
     In (t, b) (receiver_pages 0 outs) <->
     exists i o,
       outs !! i = Some o /\ is_change o = false /\
       t = UI_TEXT_BTC_RECEIVER (Z.of_nat i + 1) /\
       (b = ui_formatted (script_output_to_address
                            (pb_buf (out_script_pub_key o))
                            (pb_size (out_script_pub_key o)))
        \/ b = ui_formatted (format_value (out_value o))))
  /\
  ((forall i, (i < length (receiver_pages 0 outs))%nat ->
      user (user_rounds s + i)%nat = true) ->
   get_user_verification s
   = confirm_fee (after_prompts (length (receiver_pages 0 outs))
                                (accepted_pages (receiver_pages 0 outs)) s))
  /\
  (forall j p,
     receiver_pages 0 outs !! j = Some p ->
     (forall i, (i < j)%nat -> user (user_rounds s + i)%nat = true) ->
     user (user_rounds s + j)%nat = false ->
     get_user_verification s
     = Some (false,
             after_prompts (S j)
               (accepted_pages (take j (receiver_pages 0 outs))
                ++ [EvScrollPage (fst p) (snd p) false]) s)).
Proof.
  intros Hc Houts Hlen. split; [| split].
  - intros t b. apply (receiver_pages_member outs 0 t b).
  - apply (get_user_verification_accepted s c outs Hc Houts Hlen).
  - intros j p. apply (get_user_verification_rejected s c outs j p Hc Houts Hlen).
Qed.

(** C6. When the outputs of the context spend more than its inputs bring,
    [get_user_verification] returns failure whatever the user answers; and
    when the user has accepted every receiver page, so that the fee is
    computed, the failure is reported as CORRUPT_DATA/INVALID_DATA right
    after those pages. *)
Theorem overspend_is_rejected (s : state) (c : btc_txn_context_t)
    (outs : list btc_sign_txn_output_t) :
  btc_txn_context s = Some c ->
  outputs c = Some outs ->
  length outs = Z.to_nat (output_count (metadata c)) ->
  sum_values value (inputs c) < sum_values out_value (outputs c) ->
  exists s',
    get_user_verification s = Some (false, s') /\
    ((forall i, (i < length (receiver_pages 0 outs))%nat ->
        user (user_rounds s + i)%nat = true) ->
     trace s' = trace s ++ accepted_pages (receiver_pages 0 outs)
                ++ [EvSendError ERROR_COMMON_ERROR_CORRUPT_DATA_TAG
                                ERROR_DATA_FLOW_INVALID_DATA]).
Proof.
  intros Hc Houts Hlen Hover.
  assert (Hfee : btc_get_txn_fee c = None).
  { unfold btc_get_txn_fee.
    replace (_ <? 0) with true by (symmetry; apply Z.ltb_lt; lia).
    reflexivity. }
  assert (Hall := get_user_verification_accepted s c outs Hc Houts Hlen).
  assert (Hrej := fun j p =>
    get_user_verification_rejected s c outs j p Hc Houts Hlen).
  destruct (first_rejection (receiver_pages 0 outs) (user_rounds s))
    as [Hacc | (j & p & Hp & Hacc & Hno)].
  - rewrite (Hall Hacc).
    rewrite (confirm_fee_run _ c) by exact Hc. rewrite Hfee.
    eexists. split; [reflexivity |].
    intros _. cbn [after_event after_prompts trace].
    rewrite <- app_assoc. reflexivity.
  - rewrite (Hrej j p Hp Hacc Hno).
    eexists. split; [reflexivity |].
    intros Hacc'. rewrite Hacc' in Hno; [discriminate |].
    eapply lookup_lt_Some. exact Hp.
Qed.

(** C7. Once the receiver pages are accepted and the fee is computed: a fee
    above the ceiling brings the high-fee warning first, whose rejection
    returns failure and whose acceptance is followed by the fee page; a fee
    within the ceiling brings the fee page directly; in both cases the answer
    to the fee page is the result of the function. *)
Theorem fee_is_confirmed (s : state) (c : btc_txn_context_t)
    (outs : list btc_sign_txn_output_t) (fee : Z) :
  btc_txn_context s = Some c ->
  outputs c = Some outs ->
  length outs = Z.to_nat (output_count (metadata c)) ->
  (forall i, (i < length (receiver_pages 0 outs))%nat ->
     user (user_rounds s + i)%nat = true) ->
  btc_get_txn_fee c = Some fee ->
  (get_transaction_fee_threshold c < fee ->
   (user (user_rounds s + length (receiver_pages 0 outs))%nat = false ->
    exists s',
      get_user_verification s = Some (false, s') /\
      trace s' = trace s ++ accepted_pages (receiver_pages 0 outs)
                 ++ [EvConfirmation ui_text_warning_txn_fee_too_high false])
   /\
   (user (user_rounds s + length (receiver_pages 0 outs))%nat = true ->
    exists s',
      get_user_verification s
        = Some (user (S (user_rounds s + length (receiver_pages 0 outs))), s') /\
      trace s' = trace s ++ accepted_pages (receiver_pages 0 outs)
                 ++ [EvConfirmation ui_text_warning_txn_fee_too_high true;
                     EvScrollPage UI_TEXT_BTC_FEE
                       (ui_formatted (format_value fee))
                       (user (S (user_rounds s
                                 + length (receiver_pages 0 outs))))]))
  /\
  (fee <= get_transaction_fee_threshold c ->
   exists s',
     get_user_verification s
       = Some (user (user_rounds s + length (receiver_pages 0 outs))%nat, s') /\
     trace s' = trace s ++ accepted_pages (receiver_pages 0 outs)
                ++ [EvScrollPage UI_TEXT_BTC_FEE
                      (ui_formatted (format_value fee))
                      (user (user_rounds s
                             + length (receiver_pages 0 outs))%nat)]).
Proof.
  intros Hc Houts Hlen Hacc Hfee.
  rewrite (get_user_verification_accepted s c outs Hc Houts Hlen Hacc). rewrite (confirm_fee_run _ c) by exact Hc.
  rewrite Hfee. cbn [after_prompts user_rounds trace].
  split.
  - intros Hhigh.
    replace (fee >? get_transaction_fee_threshold c) with true
      by (symmetry; apply Z.gtb_lt; lia).
    split; intros Hu; rewrite Hu; eexists; (split; [reflexivity |]);
      cbn [after_prompts trace]; rewrite <- app_assoc; reflexivity.
  - intros Hlow.
    replace (fee >? get_transaction_fee_threshold c) with false
      by (symmetry; rewrite Z.gtb_ltb; apply Z.ltb_ge; lia).
    eexists. split; [reflexivity |].
    cbn [after_prompts trace]. rewrite <- app_assoc. reflexivity.
Qed.

End VerifyClaims.

Lemma receivers_are_shown_witness :
  @get_user_verification (sample_world [] [true; true; true])
    (phase_state (verify_context 100000
                    [sample_output 90000 0x76 false;
                     sample_output 9000 0x76 true]))
  = @confirm_fee (sample_world [] [true; true; true])
      (after_prompts 2
         [EvScrollPage (UI_TEXT_BTC_RECEIVER 1) (ui_formatted "address") true;
          EvScrollPage (UI_TEXT_BTC_RECEIVER 1) (ui_formatted "amount") true]
         (phase_state (verify_context 100000
                         [sample_output 90000 0x76 false;
                          sample_output 9000 0x76 true])))
  /\
  @get_user_verification (sample_world [] [true; false])
    (phase_state (verify_context 100000
                    [sample_output 90000 0x76 false;
                     sample_output 9000 0x76 true]))
  = Some (false,
          after_prompts 2
            [EvScrollPage (UI_TEXT_BTC_RECEIVER 1) (ui_formatted "address") true;
             EvScrollPage (UI_TEXT_BTC_RECEIVER 1) (ui_formatted "amount") false]
            (phase_state (verify_context 100000
                            [sample_output 90000 0x76 false;
                             sample_output 9000 0x76 true]))).
Proof.
  split.
  - destruct (@receivers_are_shown (sample_world [] [true; true; true])
                (phase_state (verify_context 100000
                                [sample_output 90000 0x76 false;
                                 sample_output 9000 0x76 true]))
                _ _ eq_refl eq_refl eq_refl) as (_ & Hall & _).
    apply Hall. intros [| [| i]] Hi; [reflexivity .. | cbn in Hi; lia].
  - destruct (@receivers_are_shown (sample_world [] [true; false])
                (phase_state (verify_context 100000
                                [sample_output 90000 0x76 false;
                                 sample_output 9000 0x76 true]))
                _ _ eq_refl eq_refl eq_refl) as (_ & _ & Hrej).
    apply (Hrej 1%nat (UI_TEXT_BTC_RECEIVER 1, ui_formatted "amount"));
      [reflexivity | | reflexivity].
    intros [| i] Hi; [reflexivity | lia].
Defined.

Lemma overspend_is_rejected_witness :
  exists s',
    @get_user_verification (sample_world [] [true; true; true])
      (phase_state (verify_context 50000 [sample_output 60000 0x76 false]))
    = Some (false, s') /\
    trace s' =
      [EvScrollPage (UI_TEXT_BTC_RECEIVER 1) (ui_formatted "address") true;
       EvScrollPage (UI_TEXT_BTC_RECEIVER 1) (ui_formatted "amount") true;
       EvSendError ERROR_COMMON_ERROR_CORRUPT_DATA_TAG
                   ERROR_DATA_FLOW_INVALID_DATA].
Proof.
  destruct (@overspend_is_rejected (sample_world [] [true; true; true])
              (phase_state (verify_context 50000
                              [sample_output 60000 0x76 false]))
              _ _ eq_refl eq_refl eq_refl ltac:(cbn; lia))
    as (s' & Hrun & Htrace).
  exists s'. split; [exact Hrun |].
  apply Htrace. intros [| [| i]] Hi; [reflexivity .. | cbn in Hi; lia].
Defined.

Lemma fee_is_confirmed_witness :
  (exists s',
     @get_user_verification (sample_world [] [true; true; true; true])
       (phase_state (verify_context 100000
                       [sample_output 90000 0x76 false;
                        sample_output 5000 0x76 true]))
     = Some (true, s') /\
     trace s' =
       [EvScrollPage (UI_TEXT_BTC_RECEIVER 1) (ui_formatted "address") true;
        EvScrollPage (UI_TEXT_BTC_RECEIVER 1) (ui_formatted "amount") true;
        EvConfirmation ui_text_warning_txn_fee_too_high true;
        EvScrollPage UI_TEXT_BTC_FEE (ui_formatted "amount") true])
  /\
  (exists s',
     @get_user_verification (sample_world [] [true; true; false])
       (phase_state (verify_context 100000
                       [sample_output 90000 0x76 false;
                        sample_output 5000 0x76 true]))
     = Some (false, s') /\
     trace s' =
       [EvScrollPage (UI_TEXT_BTC_RECEIVER 1) (ui_formatted "address") true;
        EvScrollPage (UI_TEXT_BTC_RECEIVER 1) (ui_formatted "amount") true;
        EvConfirmation ui_text_warning_txn_fee_too_high false])
  /\
  (exists s',
     @get_user_verification (sample_world [] [true; true; true])
       (phase_state (verify_context 100000
                       [sample_output 90000 0x76 false;
                        sample_output 9000 0x76 true]))
     = Some (true, s') /\
     trace s' =
       [EvScrollPage (UI_TEXT_BTC_RECEIVER 1) (ui_formatted "address") true;
        EvScrollPage (UI_TEXT_BTC_RECEIVER 1) (ui_formatted "amount") true;
        EvScrollPage UI_TEXT_BTC_FEE (ui_formatted "amount") true]).
Proof.
  split; [| split].
  - destruct (@fee_is_confirmed (sample_world [] [true; true; true; true])
                (phase_state (verify_context 100000
                                [sample_output 90000 0x76 false;
                                 sample_output 5000 0x76 true]))
                _ _ 5000 eq_refl eq_refl eq_refl) as ((_ & Hyes) & _).
    + intros [| [| i]] Hi; [reflexivity .. | cbn in Hi; lia].
    + reflexivity.
    + cbn. lia.
    + apply Hyes. reflexivity.
  - destruct (@fee_is_confirmed (sample_world [] [true; true; false])
                (phase_state (verify_context 100000
                                [sample_output 90000 0x76 false;
                                 sample_output 5000 0x76 true]))
                _ _ 5000 eq_refl eq_refl eq_refl) as ((Hno & _) & _).
    + intros [| [| i]] Hi; [reflexivity .. | cbn in Hi; lia].
    + reflexivity.
    + cbn. lia.
    + apply Hno. reflexivity.
  - destruct (@fee_is_confirmed (sample_world [] [true; true; true])
                (phase_state (verify_context 100000
                                [sample_output 90000 0x76 false;
                                 sample_output 9000 0x76 true]))
                _ _ 1000 eq_refl eq_refl eq_refl) as (_ & Hlow).
    + intros [| [| i]] Hi; [reflexivity .. | cbn in Hi; lia].
    + reflexivity.
    + apply Hlow. cbn. lia.
Defined.

Section Emissions.
Context `{W : Collaborators}.
Variable P : event -> Prop.

Lemma emits_only_ret {A} (a : A) : emits_only P (ret a).
Proof.
  intros s a' s' H. injection H as <- <-. exists []. rewrite app_nil_r. auto.
Qed.

Lemma emits_only_undefined {A} : emits_only P (@undefined A).
Proof. intros s a s' H. discriminate. Qed.

Lemma emits_only_bind {A B} (m : M A) (k : A -> M B) :
  emits_only P m -> (forall a, emits_only P (k a)) -> emits_only P (bind m k).
Proof.
  intros Hm Hk s b s' H. unfold bind in H.
  destruct (m s) as [[a s1] |] eqn:Hms; [| discriminate].
  destruct (Hm _ _ _ Hms) as (e1 & H1 & F1).
  destruct (Hk a _ _ _ H) as (e2 & H2 & F2).
  exists (e1 ++ e2). rewrite H2, H1, <- app_assoc.
  split; [reflexivity | apply Forall_app; auto].
Qed.

Lemma emits_only_emit (e : event) : P e -> emits_only P (emit e).
Proof.
  intros He s a s' H. injection H as <- <-. exists [e]. cbn. auto.
Qed.

Lemma emits_only_silent {A} (m : M A) :
  (forall s a s', m s = Some (a, s') -> trace s' = trace s) -> emits_only P m.
Proof.
  intros Hm s a s' H. exists []. rewrite app_nil_r. split; [eauto | auto].
Qed.

Lemma emits_only_read_query : emits_only P read_query.
Proof. apply emits_only_silent. intros s a s' H. injection H as <- <-. auto. Qed.

Lemma emits_only_read_context : emits_only P read_context.
Proof.
  apply emits_only_silent. intros s a s' H. unfold read_context in H.
  destruct (btc_txn_context s); [injection H as <- <-; auto | discriminate].
Qed.

Lemma emits_only_write_pointer p : emits_only P (write_pointer p).
Proof. apply emits_only_silent. intros s a s' H. injection H as <- <-. auto. Qed.

Lemma emits_only_update_context f : emits_only P (update_context f).
Proof.
  apply emits_only_bind; [apply emits_only_read_context |].
  intros c. apply emits_only_write_pointer.
Qed.

Lemma emits_only_deref_at {A} (p : option (list A)) idx :
  emits_only P (deref_at p idx).
Proof.
  unfold deref_at. destruct p as [l |]; [| apply emits_only_undefined].
  destruct (l !! idx); [apply emits_only_ret | apply emits_only_undefined].
Qed.

Lemma emits_only_store_at {A} (p : option (list A)) idx x :
  emits_only P (store_at p idx x).
Proof.
  unfold store_at. destruct p as [l |]; [| apply emits_only_undefined].
  destruct (decide _); [apply emits_only_ret | apply emits_only_undefined].
Qed.

Lemma emits_only_notM m : emits_only P m -> emits_only P (! m).
Proof.
  intros H. apply emits_only_bind; [exact H |]. intros a. apply emits_only_ret.
Qed.

Lemma emits_only_andM a b :
  emits_only P a -> emits_only P b -> emits_only P (a &&& b).
Proof.
  intros Ha Hb. apply emits_only_bind; [exact Ha |].
  intros [|]; [exact Hb | apply emits_only_ret].
Qed.

Lemma emits_only_orM a b :
  emits_only P a -> emits_only P b -> emits_only P (a ||| b).
Proof.
  intros Ha Hb. apply emits_only_bind; [exact Ha |].
  intros [|]; [apply emits_only_ret | exact Hb].
Qed.

Hypothesis P_get_query : forall ok, P (EvGetQuery ok).
Hypothesis P_error : forall tag code, P (EvSendError tag code).
Hypothesis P_confirmation : forall msg r, P (EvConfirmation msg r).
Hypothesis P_scroll_page : forall t b r, P (EvScrollPage t b r).

Lemma emits_only_btc_get_query : emits_only P btc_get_query.
Proof.
  intros s a s' H. injection H as <- <-. eexists. split; [reflexivity |]. auto.
Qed.

Lemma emits_only_prompt ev : (forall r, P (ev r)) -> emits_only P (prompt ev).
Proof.
  intros Hev s a s' H. injection H as <- <-. eexists.
  split; [reflexivity |]. auto.
Qed.

Lemma emits_only_btc_send_error tag code : emits_only P (btc_send_error tag code).
Proof. apply emits_only_emit, P_error. Qed.

Lemma emits_only_check_which_request tag :
  emits_only P (check_which_request tag).
Proof.
  apply emits_only_bind; [apply emits_only_read_query |]. intros q.
  destruct (decide _); [| apply emits_only_ret].
  apply emits_only_bind; [apply emits_only_btc_send_error |].
  intros _. apply emits_only_ret.
Qed.

End Emissions.

Create HintDb emits.

#[local] Hint Resolve emits_only_ret emits_only_undefined emits_only_emit
  emits_only_read_query emits_only_read_context emits_only_write_pointer
  emits_only_update_context emits_only_deref_at emits_only_store_at
  emits_only_notM emits_only_andM emits_only_orM emits_only_btc_get_query
  emits_only_prompt emits_only_btc_send_error emits_only_check_which_request
  : emits.

Ltac emits_step :=
  match goal with
  | |- emits_only _ (bind _ _) => apply emits_only_bind; [| intros ?]
  | |- emits_only _ (notM _) => apply emits_only_notM
  | |- emits_only _ (andM _ _) => apply emits_only_andM
  | |- emits_only _ (orM _ _) => apply emits_only_orM
  | |- emits_only _ (if ?b then _ else _) => destruct b
  | |- emits_only _ (match ?x with _ => _ end) => destruct x
  | |- emits_only _ (core_confirmation _) => apply emits_only_prompt
  | |- emits_only _ (core_scroll_page _ _) => apply emits_only_prompt
  | |- emits_only _ (send_response _) => apply emits_only_emit
  | |- emits_only _ (emit _) => apply emits_only_emit
  | |- emits_only _ (btc_send_error _ _) => apply emits_only_btc_send_error
  | |- emits_only _ (check_which_request _) =>
    apply emits_only_check_which_request
  | |- emits_only _ btc_get_query => apply emits_only_btc_get_query
  | |- not_a_signature _ => discriminate
  | |- forall _, _ => intros ?
  | |- _ => solve [auto with emits]
  end.

Ltac emits := repeat emits_step.

Section Signature.
Context `{W : Collaborators}.

Lemma handle_initiate_query_emits :
  emits_only not_a_signature handle_initiate_query.
Proof.
  unfold handle_initiate_query, validate_request_data, lookup_wallet_name.
  emits.
Qed.

Lemma fetch_transaction_meta_emits :
  emits_only not_a_signature fetch_transaction_meta.
Proof. unfold fetch_transaction_meta. emits. Qed.

Lemma fetch_valid_input_emits : emits_only not_a_signature fetch_valid_input.
Proof.
  unfold fetch_valid_input. emits.
  generalize 0%nat. induction (Z.to_nat _) as [| n IH]; intros idx.
  - cbn. emits.
  - cbn [fetch_valid_input_loop]. unfold fetch_valid_input_round. emits.
Qed.

Lemma fetch_valid_output_emits : emits_only not_a_signature fetch_valid_output.
Proof.
  unfold fetch_valid_output. emits.
  generalize 0%nat, true.
  induction (Z.to_nat _) as [| n IH]; intros idx z.
  - cbn. emits.
  - cbn [fetch_valid_output_loop]. unfold fetch_valid_output_round. emits.
Qed.

Lemma get_user_verification_emits :
  emits_only not_a_signature get_user_verification.
Proof.
  unfold get_user_verification. emits.
  - generalize 0%nat. induction (Z.to_nat _) as [| n IH]; intros idx.
    + cbn. emits.
    + cbn [show_receivers]. emits.
  - unfold confirm_fee. emits.
Qed.

Lemma sign_input_utxo_emits : emits_only not_a_signature sign_input_utxo.
Proof. unfold sign_input_utxo. emits. Qed.

Lemma release_emits : emits_only not_a_signature release.
Proof.
  intros s a s' H. unfold release in H.
  destruct (btc_txn_context s) as [c |].
  - revert H.
    apply (emits_only_bind not_a_signature
             (match inputs c with
              | Some _ => emit EvFreeInputs
              | None => ret tt
              end)); emits.
  - injection H as <- <-. exists []. rewrite app_nil_r. auto.
Qed.

Lemma btc_sign_transaction_emits :
  emits_only not_a_signature btc_sign_transaction.
Proof.
  unfold btc_sign_transaction. emits.
  - apply handle_initiate_query_emits.
  - apply fetch_transaction_meta_emits.
  - apply fetch_valid_input_emits.
  - apply fetch_valid_output_emits.
  - apply get_user_verification_emits.
  - apply sign_input_utxo_emits.
  - apply release_emits.
Qed.

End Signature.

Section Termination.
Context `{W : Collaborators}.

Lemma handle_initiate_query_returns (s : state) (c : btc_txn_context_t) :
  btc_txn_context s = Some c ->
  exists b s',
    handle_initiate_query s = Some (b, s') /\
    (b = false -> btc_txn_context s' = Some c) /\
    (b = true ->
     btc_txn_context s'
     = Some (set_init_info (initiate (sign_txn (query s))) c)).
Proof.
  intros Hc. destruct s as [p q hr ur tr]. cbn in Hc. subst p.
  unfold handle_initiate_query. flow_simpl.
  destruct (decide _); flow_simpl.
  - eexists _, _. split; [reflexivity |]. split; [reflexivity | discriminate].
  - destruct (btc_derivation_path_guard _); flow_simpl.
    + destruct (get_wallet_name_by_id _); flow_simpl.
      * destruct (user ur); flow_simpl; eexists _, _;
          (split; [reflexivity |]); split;
          first [reflexivity | discriminate].
      * eexists _, _. split; [reflexivity |].
        split; [reflexivity | discriminate].
    + eexists _, _. split; [reflexivity |].
      split; [reflexivity | discriminate].
Qed.

Lemma fetch_transaction_meta_returns (s : state) (c : btc_txn_context_t) :
  btc_txn_context s = Some c ->
  exists b s',
    fetch_transaction_meta s = Some (b, s') /\
    (b = false -> btc_txn_context s' = Some c).
Proof.
  intros Hc. destruct s as [p q hr ur tr]. cbn in Hc. subst p.
  unfold fetch_transaction_meta. flow_simpl.
  destruct (host hr) as [ok q']. flow_simpl.
  destruct ok; flow_simpl.
  - destruct (decide _); flow_simpl.
    + eexists _, _. split; [reflexivity |]. reflexivity.
    + destruct (negb _ || _ || _); flow_simpl;
        eexists _, _; (split; [reflexivity |]);
        first [reflexivity | discriminate].
  - eexists _, _. split; [reflexivity |]. reflexivity.
Qed.

Lemma release_returns (s : state) :
  exists s', release s = Some (tt, s') /\ btc_txn_context s' = None.
Proof.
  destruct s as [[c |] q hr ur tr]; unfold release; cbn [btc_txn_context].
  - destruct (inputs c), (outputs c); flow_simpl;
      eexists; split; reflexivity.
  - eexists; split; reflexivity.
Qed.

(** With the context as [memzero] left it, the chain of negated phase calls
    is decided by its first three operands: INIT or META succeeds, or else
    INPUTS runs with a declared count of zero and succeeds at once. *)
Lemma chain_decided_by_inputs (s : state) :
  btc_txn_context s = Some zero_context ->
  exists s',
    ((! handle_initiate_query) &&& (! fetch_transaction_meta)
     &&& (! fetch_valid_input)) s = Some (false, s').
Proof.
  intros Hc.
  destruct (handle_initiate_query_returns s zero_context Hc)
    as (b1 & s1 & H1 & Hf1 & _).
  unfold andM, notM, bind, ret. rewrite H1.
  destruct b1; cbn [negb]; [eexists; reflexivity |].
  destruct (fetch_transaction_meta_returns s1 zero_context (Hf1 eq_refl))
    as (b2 & s2 & H2 & Hf2).
  rewrite H2. destruct b2; cbn [negb]; [eexists; reflexivity |].
  unfold fetch_valid_input, read_context, bind.
  rewrite (Hf2 eq_refl). cbn. eexists; reflexivity.
Qed.

Lemma btc_sign_transaction_returns (s : state) :
  exists s', btc_sign_transaction s = Some (tt, s').
Proof.
  unfold btc_sign_transaction.
  erewrite bind_eq by reflexivity.
  erewrite bind_eq by reflexivity.
  match goal with
  | |- context [bind _ _ ?s1] =>
    destruct (chain_decided_by_inputs s1 eq_refl) as (s2 & H2)
  end.
  erewrite bind_eq.
  2: { unfold andM at 1 2 3. erewrite bind_eq.
       2: { erewrite bind_eq. 2: { erewrite bind_eq by exact H2. reflexivity. }
            reflexivity. }
       reflexivity. }
  cbv beta iota. erewrite bind_eq by reflexivity.
  destruct (release_returns s2) as (s3 & H3 & _). exists s3. exact H3.
Qed.

(** C9. [sign_input_utxo] returns false whatever the host sends, and a run
    of [btc_sign_transaction], which always terminates, never sends a
    signature response. *)
Theorem no_signature_is_sent :
  (forall s, exists s', sign_input_utxo s = Some (false, s'))
  /\
  (forall s, exists s' evs,
     btc_sign_transaction s = Some (tt, s') /\
     trace s' = trace s ++ evs /\
     Forall not_a_signature evs /\
     ~ In (EvSendResult BTC_SIGN_TXN_RESPONSE_SIGNATURE_TAG) evs).
Proof.
  split.
  - intros s. unfold sign_input_utxo. flow_simpl.
    destruct (fst (host (host_rounds s))); flow_simpl.
    + destruct (decide _); flow_simpl; eexists; reflexivity.
    + eexists; reflexivity.
  - intros s. destruct (btc_sign_transaction_returns s) as (s' & Hrun).
    destruct (btc_sign_transaction_emits _ _ _ Hrun) as (evs & Htrace & Hall).
    exists s', evs. repeat split; auto.
    intros Hin. rewrite Forall_forall in Hall.
    apply list_elem_of_In in Hin. apply (Hall _ Hin). reflexivity.
Qed.

End Termination.

(** * Further properties of the phase functions *)

Section InitPhase.
Context `{W : Collaborators}.

(** X1. [handle_initiate_query] validates before it prompts: a discriminant
    other than INITIATE, a derivation path the guard refuses, or an unknown
    wallet make it return failure without any prompt and with the context
    untouched; the first reports CORRUPT_DATA/INVALID_REQUEST, the second
    CORRUPT_DATA/INVALID_DATA, the third reports nothing. *)
Theorem initiate_rejected_before_prompt (s : state) (c : btc_txn_context_t) :
  btc_txn_context s = Some c ->
  (which_request (sign_txn (query s)) <> BTC_SIGN_TXN_REQUEST_INITIATE_TAG ->
   handle_initiate_query s
   = Some (false,
           after_event (EvSendError ERROR_COMMON_ERROR_CORRUPT_DATA_TAG
                                    ERROR_DATA_FLOW_INVALID_REQUEST) s))
  /\
  (which_request (sign_txn (query s)) = BTC_SIGN_TXN_REQUEST_INITIATE_TAG ->
   btc_derivation_path_guard
     (derivation_path (initiate (sign_txn (query s)))) = false ->
   handle_initiate_query s
   = Some (false,
           after_event (EvSendError ERROR_COMMON_ERROR_CORRUPT_DATA_TAG
                                    ERROR_DATA_FLOW_INVALID_DATA) s))
  /\
  (which_request (sign_txn (query s)) = BTC_SIGN_TXN_REQUEST_INITIATE_TAG ->
   btc_derivation_path_guard
     (derivation_path (initiate (sign_txn (query s)))) = true ->
   get_wallet_name_by_id (wallet_id (initiate (sign_txn (query s)))) = None ->
   handle_initiate_query s = Some (false, s)).
Proof.
  intros Hc. destruct s as [p q hr ur tr]. cbn in Hc. subst p.
  cbn [query]. repeat split.
  - intros Hne. unfold handle_initiate_query. flow_simpl.
    rewrite decide_True by congruence. reflexivity.
  - intros Htag Hpath. unfold handle_initiate_query. flow_simpl.
    rewrite Htag. rewrite decide_False by (intros H; apply H; reflexivity).
    flow_simpl. rewrite Hpath. reflexivity.
  - intros Htag Hpath Hname. unfold handle_initiate_query. flow_simpl.
    rewrite Htag. rewrite decide_False by (intros H; apply H; reflexivity).
    flow_simpl. rewrite Hpath. flow_simpl. rewrite Hname. reflexivity.
Qed.

(** X2. When the initiate query passes its checks, the user is asked once,
    with a prompt naming the application and the wallet.  On acceptance the
    flow status is set, the initiate data are copied into the context (and
    nothing else of it changes), confirmation is sent and the function
    returns success; on refusal it returns failure at once, leaving the
    context as it was: after the prompt the function itself makes no call,
    so it sends neither a response nor an error of its own (a report of the
    refusal, if there is one, is made by the UI layer through the
    [btc_send_error] callback it was handed). *)
Theorem initiate_confirmation (s : state) (c : btc_txn_context_t)
    (name : string) :
  btc_txn_context s = Some c ->
  which_request (sign_txn (query s)) = BTC_SIGN_TXN_REQUEST_INITIATE_TAG ->
  btc_derivation_path_guard
    (derivation_path (initiate (sign_txn (query s)))) = true ->
  get_wallet_name_by_id (wallet_id (initiate (sign_txn (query s)))) = Some name ->
  (user (user_rounds s) = true ->
   handle_initiate_query s
   = Some (true,
           {| btc_txn_context :=
                Some {| init_info := initiate (sign_txn (query s));
                        metadata := metadata c;
                        inputs := inputs c;
                        outputs := outputs c |};
              query := query s;
              host_rounds := host_rounds s;
              user_rounds := S (user_rounds s);
              trace := trace s ++
                [EvConfirmation (UI_TEXT_BTC_SEND_PROMPT app_name name) true;
                 EvSetFlowStatusConfirm;
                 EvSendResult BTC_SIGN_TXN_RESPONSE_CONFIRMATION_TAG] |}))
  /\
  (user (user_rounds s) = false ->
   handle_initiate_query s
   = Some (false,
           after_prompts 1
             [EvConfirmation (UI_TEXT_BTC_SEND_PROMPT app_name name) false] s)).
Proof.
  intros Hc Htag Hpath Hname. destruct s as [p q hr ur tr].
  cbn in Hc, Htag, Hpath, Hname |- *. subst p.
  split; intros Hu; unfold handle_initiate_query; flow_simpl;
    rewrite Htag; rewrite decide_False by (intros H; apply H; reflexivity);
    flow_simpl; rewrite Hpath; flow_simpl; rewrite Hname; flow_simpl;
    rewrite Hu; flow_simpl.
  - trace_norm. reflexivity.
  - unfold after_prompts. cbn. rewrite Nat.add_1_r. reflexivity.
Qed.

End InitPhase.

Lemma initiate_rejected_before_prompt_witness :
  @handle_initiate_query (sample_world [] [true])
    (running_state zero_context (meta_query sample_meta) 0 0)
  = Some (false,
          {| btc_txn_context := Some zero_context;
             query := meta_query sample_meta;
             host_rounds := 0; user_rounds := 0;
             trace := [EvSendError ERROR_COMMON_ERROR_CORRUPT_DATA_TAG
                                   ERROR_DATA_FLOW_INVALID_REQUEST] |}).
Proof.
  apply (proj1 (@initiate_rejected_before_prompt (sample_world [] [true])
                  (running_state zero_context (meta_query sample_meta) 0 0)
                  zero_context eq_refl)).
  cbn. discriminate.
Defined.

Lemma initiate_confirmation_witness :
  @handle_initiate_query (sample_world [] [true]) (phase_state zero_context)
  = Some (true,
          {| btc_txn_context :=
               Some {| init_info := sample_initiate;
                       metadata := metadata zero_context;
                       inputs := None; outputs := None |};
             query := initiate_query;
             host_rounds := 0;
             user_rounds := 1;
             trace :=
               [EvConfirmation (UI_TEXT_BTC_SEND_PROMPT "Bitcoin" "Savings") true;
                EvSetFlowStatusConfirm;
                EvSendResult BTC_SIGN_TXN_RESPONSE_CONFIRMATION_TAG] |}).
Proof.
  apply (proj1 (@initiate_confirmation (sample_world [] [true])
                  (phase_state zero_context) zero_context "Savings"
                  eq_refl eq_refl eq_refl eq_refl)).
  reflexivity.
Defined.

Section GatedPhases.
Context `{W : Collaborators}.

(** X3. The gate of [fetch_transaction_meta]: when the host round is not
    received the function returns failure at once, without looking at the
    discriminant and without reporting anything itself; when it is received
    with a discriminant other than META the function reports
    CORRUPT_DATA/INVALID_REQUEST and returns failure.  In both cases the
    context is untouched and nothing is allocated. *)
Theorem meta_gate (s : state) (q : btc_query_t) :
  (host (host_rounds s) = (false, q) ->
   fetch_transaction_meta s = Some (false, after_query false q s))
  /\
  (host (host_rounds s) = (true, q) ->
   which_request (sign_txn q) <> BTC_SIGN_TXN_REQUEST_META_TAG ->
   fetch_transaction_meta s
   = Some (false,
           after_event (EvSendError ERROR_COMMON_ERROR_CORRUPT_DATA_TAG
                                    ERROR_DATA_FLOW_INVALID_REQUEST)
                       (after_query true q s))).
Proof.
  split.
  - intros Hh. unfold fetch_transaction_meta. flow_simpl. rewrite Hh.
    reflexivity.
  - intros Hh Hne. unfold fetch_transaction_meta. flow_simpl. rewrite Hh.
    flow_simpl. rewrite decide_True by congruence. reflexivity.
Qed.

(** X4. [sign_input_utxo] reads exactly one host round and never touches the
    context.  It reports CORRUPT_DATA/INVALID_REQUEST only for a received
    query with a discriminant other than SIGNATURE; a round that is not
    received, and a received signature request, end in failure with nothing
    sent. *)
Theorem sign_round (s : state) (q : btc_query_t) :
  (host (host_rounds s) = (false, q) ->
   sign_input_utxo s = Some (false, after_query false q s))
  /\
  (host (host_rounds s) = (true, q) ->
   which_request (sign_txn q) <> BTC_SIGN_TXN_REQUEST_SIGNATURE_TAG ->
   sign_input_utxo s
   = Some (false,
           after_event (EvSendError ERROR_COMMON_ERROR_CORRUPT_DATA_TAG
                                    ERROR_DATA_FLOW_INVALID_REQUEST)
                       (after_query true q s)))
  /\
  (host (host_rounds s) = (true, q) ->
   which_request (sign_txn q) = BTC_SIGN_TXN_REQUEST_SIGNATURE_TAG ->
   sign_input_utxo s = Some (false, after_query true q s)).
Proof.
  repeat split.
  - intros Hh. unfold sign_input_utxo. flow_simpl. rewrite Hh. reflexivity.
  - intros Hh Hne. unfold sign_input_utxo. flow_simpl. rewrite Hh.
    flow_simpl. rewrite decide_True by congruence. reflexivity.
  - intros Hh Htag. unfold sign_input_utxo. flow_simpl. rewrite Hh.
    flow_simpl. rewrite Htag.
    rewrite decide_False by (intros H; apply H; reflexivity). reflexivity.
Qed.

(** X5. An input round that was NOT received is still let through when the
    discriminant found in the buffer is INPUT: the payload in the buffer is
    verified and, if the verifier accepts, cloned into the slot and answered
    with input-accepted.  The gate stops the round, with
    CORRUPT_DATA/INVALID_REQUEST, only when the round was not received and
    the discriminant is another one. *)
Theorem unreceived_input_round (s : state) (c : btc_txn_context_t)
    (ins : list btc_txn_input_t) (slot : btc_txn_input_t) (idx : nat)
    (q : btc_query_t) :
  btc_txn_context s = Some c ->
  inputs c = Some ins ->
  ins !! idx = Some slot ->
  host (host_rounds s) = (false, q) ->
  (which_request (sign_txn q) = BTC_SIGN_TXN_REQUEST_INPUT_TAG ->
   fst (input_verdict (host_rounds s) slot) = true ->
   fetch_valid_input_round idx s
   = Some (true,
           {| btc_txn_context :=
                Some (set_inputs
                        (Some (<[idx := bound_input (host_rounds s) slot]> ins))
                        c);
              query := q;
              host_rounds := S (host_rounds s);
              user_rounds := user_rounds s;
              trace := trace s ++
                [EvGetQuery false;
                 EvSendResult BTC_SIGN_TXN_RESPONSE_INPUT_ACCEPTED_TAG] |}))
  /\
  (which_request (sign_txn q) <> BTC_SIGN_TXN_REQUEST_INPUT_TAG ->
   fetch_valid_input_round idx s
   = Some (false,
           after_event (EvSendError ERROR_COMMON_ERROR_CORRUPT_DATA_TAG
                                    ERROR_DATA_FLOW_INVALID_REQUEST)
                       (after_query false q s))).
Proof.
  intros Hc Hins Hslot Hh. split.
  - intros Htag Hv. unfold bound_input. unfold input_verdict in *.
    rewrite Hh in *. cbn [snd] in *.
    rewrite (fetch_valid_input_round_passed s c ins slot idx false q)
      by auto.
    cbv zeta. rewrite Hv. reflexivity.
  - intros Hne. apply fetch_valid_input_round_rejected; assumption.
Qed.

End GatedPhases.

Lemma meta_gate_witness :
  @fetch_transaction_meta
    (sample_world [(true, input_query BTC_SIGN_TXN_REQUEST_INPUT_TAG 5000)] [])
    (phase_state zero_context)
  = Some (false,
          {| btc_txn_context := Some zero_context;
             query := input_query BTC_SIGN_TXN_REQUEST_INPUT_TAG 5000;
             host_rounds := 1; user_rounds := 0;
             trace := [EvGetQuery true;
                       EvSendError ERROR_COMMON_ERROR_CORRUPT_DATA_TAG
                                   ERROR_DATA_FLOW_INVALID_REQUEST] |}).
Proof.
  apply (proj2 (@meta_gate
                  (sample_world
                     [(true, input_query BTC_SIGN_TXN_REQUEST_INPUT_TAG 5000)] [])
                  (phase_state zero_context)
                  (input_query BTC_SIGN_TXN_REQUEST_INPUT_TAG 5000)));
    [reflexivity | discriminate].
Defined.

Lemma sign_round_witness :
  @sign_input_utxo
    (sample_world [(true, input_query BTC_SIGN_TXN_REQUEST_SIGNATURE_TAG 0)] [])
    (phase_state sample_context)
  = Some (false,
          {| btc_txn_context := Some sample_context;
             query := input_query BTC_SIGN_TXN_REQUEST_SIGNATURE_TAG 0;
             host_rounds := 1; user_rounds := 0;
             trace := [EvGetQuery true] |}).
Proof.
  apply (proj2 (proj2 (@sign_round
                  (sample_world
                     [(true, input_query BTC_SIGN_TXN_REQUEST_SIGNATURE_TAG 0)] [])
                  (phase_state sample_context)
                  (input_query BTC_SIGN_TXN_REQUEST_SIGNATURE_TAG 0))));
    reflexivity.
Defined.

Lemma unreceived_input_round_witness :
  exists s',
    @fetch_valid_input_round
      (sample_world [(false, short_script_query 7000)] [])
      1%nat (phase_state two_input_context) = Some (true, s') /\
    btc_txn_context s'
    = Some (set_inputs (Some [zero_input; second_bound_input])
                       two_input_context) /\
    trace s' = [EvGetQuery false;
                EvSendResult BTC_SIGN_TXN_RESPONSE_INPUT_ACCEPTED_TAG].
Proof.
  eexists. split.
  - apply (proj1 (@unreceived_input_round
                    (sample_world [(false, short_script_query 7000)] [])
                    (phase_state two_input_context) two_input_context
                    [zero_input; stale_input] stale_input 1%nat
                    (short_script_query 7000)
                    eq_refl eq_refl eq_refl eq_refl));
      reflexivity.
  - split; reflexivity.
Defined.

Section InputPhase.
Context `{W : Collaborators}.

Lemma set_inputs_same (c : btc_txn_context_t) (ins : list btc_txn_input_t) :
  inputs c = Some ins -> set_inputs (Some ins) c = c.
Proof. destruct c. cbn. intros ->. reflexivity. Qed.

(** [j] accepted rounds in a row advance the loop by [j] iterations and bind
    the slots [idx .. idx + j) in order. *)
Lemma input_loop_accepts (j : nat) :
  forall (n idx : nat) (s : state) (c : btc_txn_context_t)
         (ins : list btc_txn_input_t),
    btc_txn_context s = Some c ->
    inputs c = Some ins ->
    (idx + j <= length ins)%nat ->
    (forall i slot, (i < j)%nat -> ins !! (idx + i)%nat = Some slot ->
       input_gate_open (host_rounds s + i)%nat /\
       fst (input_verdict (host_rounds s + i)%nat slot) = true) ->
    exists s1 ins1,
      fetch_valid_input_loop (j + n) idx s
        = fetch_valid_input_loop n (idx + j) s1 /\
      btc_txn_context s1 = Some (set_inputs (Some ins1) c) /\
      length ins1 = length ins /\
      host_rounds s1 = (host_rounds s + j)%nat /\
      user_rounds s1 = user_rounds s /\
      trace s1 = trace s ++ accepted_rounds (host_rounds s) j /\
      (forall i slot, (i < j)%nat -> ins !! (idx + i)%nat = Some slot ->
         ins1 !! (idx + i)%nat
         = Some (bound_input (host_rounds s + i)%nat slot)) /\
      (forall i, (i < idx \/ idx + j <= i)%nat -> ins1 !! i = ins !! i).
Proof.
  induction j as [| j IH]; intros n idx s c ins Hc Hins Hlen Hacc.
  - exists s, ins. rewrite !Nat.add_0_r, app_nil_r, set_inputs_same by auto.
    repeat split; auto. intros i slot Hi. lia.
  - destruct (lookup_lt_is_Some_2 ins idx ltac:(lia)) as [slot Hslot].
    destruct (Hacc 0%nat slot ltac:(lia)) as [Hgate Hv].
    { rewrite Nat.add_0_r. exact Hslot. }
    rewrite Nat.add_0_r in Hgate, Hv.
    destruct (host (host_rounds s)) as [ok q] eqn:Hh.
    assert (Hround :=
      fetch_valid_input_round_passed s c ins slot idx ok q Hc Hins Hslot Hh).
    unfold input_gate_open in Hgate. rewrite Hh in Hgate. cbn [fst snd] in Hgate.
    specialize (Hround Hgate). cbv zeta in Hround.
    unfold input_verdict in Hv. rewrite Hh in Hv. cbn [snd] in Hv.
    rewrite Hv in Hround.
    cbn [Nat.add fetch_valid_input_loop].
    rewrite (bind_eq _ _ _ _ _ Hround).
    match type of Hround with
    | _ = Some (_, ?s1) =>
      destruct (IH n (S idx) s1
                  (set_inputs
                     (Some (<[idx := clone_input (input (sign_txn q))
                                 (snd (btc_verify_input
                                         (pb_buf (rq_prev_txn (input (sign_txn q))))
                                         (pb_size (rq_prev_txn (input (sign_txn q))))
                                         slot))]> ins)) c)
                  (<[idx := clone_input (input (sign_txn q))
                              (snd (btc_verify_input
                                      (pb_buf (rq_prev_txn (input (sign_txn q))))
                                      (pb_size (rq_prev_txn (input (sign_txn q))))
                                      slot))]> ins))
        as (s2 & ins2 & Hrun & Hctx & Hlen2 & Hhr & Hur & Htr & Hbound & Hrest)
    end.
    + reflexivity.
    + reflexivity.
    + rewrite length_insert. lia.
    + intros i slot' Hi Hslot'. cbn [host_rounds].
      rewrite list_lookup_insert_ne in Hslot' by lia.
      replace (S (host_rounds s) + i)%nat with (host_rounds s + S i)%nat by lia.
      apply Hacc; [lia |].
      replace (idx + S i)%nat with (S idx + i)%nat by lia. exact Hslot'.
    + cbn [host_rounds user_rounds trace] in *.
      rewrite length_insert in Hlen2.
      exists s2, ins2.
      replace (idx + S j)%nat with (S idx + j)%nat by lia.
      split; [exact Hrun |]. split; [exact Hctx |]. split; [exact Hlen2 |].
      split; [lia |]. split; [exact Hur |]. split.
      { rewrite Htr, <- app_assoc. cbn [accepted_rounds app].
        rewrite Hh. reflexivity. }
      split.
      * intros i slot' Hi Hslot'. destruct i as [| i].
        -- rewrite !Nat.add_0_r in Hslot' |- *.
           rewrite Hslot in Hslot'. injection Hslot' as <-.
           rewrite Hrest by lia.
           rewrite list_lookup_insert_eq by lia.
           unfold bound_input, input_verdict.
           rewrite ?Nat.add_0_r, Hh. reflexivity.
        -- replace (idx + S i)%nat with (S idx + i)%nat in * by lia.
           replace (host_rounds s + S i)%nat
             with (S (host_rounds s) + i)%nat by lia.
           apply Hbound; [lia |].
           rewrite list_lookup_insert_ne by lia. exact Hslot'.
      * intros i Hi. rewrite Hrest by lia.
        apply list_lookup_insert_ne. lia.
Qed.

(** X6. When every one of the declared input rounds passes the gate and is
    accepted by the verifier, [fetch_valid_input] returns success after
    reading exactly [input_count] host rounds and asking the user nothing;
    slot [i] of the context holds the record bound from the [i]-th round, so
    the inputs are stored in the order received; each round is answered with
    input-accepted; the rest of the context is unchanged. *)
Theorem inputs_bound_in_order (s : state) (c : btc_txn_context_t)
    (ins : list btc_txn_input_t) :
  btc_txn_context s = Some c ->
  inputs c = Some ins ->
  length ins = Z.to_nat (input_count (metadata c)) ->
  (forall i slot, ins !! i = Some slot ->
     input_gate_open (host_rounds s + i)%nat /\
     fst (input_verdict (host_rounds s + i)%nat slot) = true) ->
  exists s' ins',
    fetch_valid_input s = Some (true, s') /\
    btc_txn_context s' = Some (set_inputs (Some ins') c) /\
    length ins' = length ins /\
    host_rounds s' = (host_rounds s + length ins)%nat /\
    user_rounds s' = user_rounds s /\
    trace s' = trace s ++ accepted_rounds (host_rounds s) (length ins) /\
    (forall i slot, ins !! i = Some slot ->
       ins' !! i = Some (bound_input (host_rounds s + i)%nat slot)).
Proof.
  intros Hc Hins Hlen Hacc.
  destruct (input_loop_accepts (length ins) 0 0 s c ins Hc Hins ltac:(lia))
    as (s1 & ins1 & Hrun & Hctx & Hlen1 & Hhr & Hur & Htr & Hbound & _).
  { intros i slot _ Hslot. apply Hacc. exact Hslot. }
  exists s1, ins1. unfold fetch_valid_input.
  erewrite bind_eq by (unfold read_context; rewrite Hc; reflexivity).
  rewrite <- Hlen. rewrite Nat.add_0_r in Hrun. rewrite Hrun.
  repeat split; auto.
  intros i slot Hslot. apply (Hbound i slot); [| exact Hslot].
  eapply lookup_lt_Some. exact Hslot.
Qed.

(** X7. [fetch_valid_input] stops at the first round the verifier refuses:
    after [j] accepted rounds, a refused round [j] makes it return failure
    with CORRUPT_DATA/INVALID_DATA, having read exactly [j + 1] host rounds;
    the refused slot holds what the verifier left in it, not the host's
    claim, and the slots after it are untouched. *)
Theorem input_phase_stops_at_refusal (s : state) (c : btc_txn_context_t)
    (ins : list btc_txn_input_t) (j : nat) (refused : btc_txn_input_t) :
  btc_txn_context s = Some c ->
  inputs c = Some ins ->
  length ins = Z.to_nat (input_count (metadata c)) ->
  ins !! j = Some refused ->
  (forall i slot, (i < j)%nat -> ins !! i = Some slot ->
     input_gate_open (host_rounds s + i)%nat /\
     fst (input_verdict (host_rounds s + i)%nat slot) = true) ->
  input_gate_open (host_rounds s + j)%nat ->
  fst (input_verdict (host_rounds s + j)%nat refused) = false ->
  exists s' ins',
    fetch_valid_input s = Some (false, s') /\
    btc_txn_context s' = Some (set_inputs (Some ins') c) /\
    host_rounds s' = (host_rounds s + S j)%nat /\
    user_rounds s' = user_rounds s /\
    trace s' = trace s ++ accepted_rounds (host_rounds s) j
               ++ [EvGetQuery (fst (host (host_rounds s + j)%nat));
                   EvSendError ERROR_COMMON_ERROR_CORRUPT_DATA_TAG
                               ERROR_DATA_FLOW_INVALID_DATA] /\
    ins' !! j = Some (snd (input_verdict (host_rounds s + j)%nat refused)) /\
    (forall i, (j < i)%nat -> ins' !! i = ins !! i).
Proof.
  intros Hc Hins Hlen Hj Hacc Hgate Hv.
  assert (Hlt : (j < length ins)%nat) by (eapply lookup_lt_Some; exact Hj).
  destruct (input_loop_accepts j (length ins - j) 0 s c ins Hc Hins ltac:(lia))
    as (s1 & ins1 & Hrun & Hctx & Hlen1 & Hhr & Hur & Htr & _ & Hrest).
  { intros i slot Hi Hslot. apply Hacc; assumption. }
  unfold fetch_valid_input.
  erewrite bind_eq by (unfold read_context; rewrite Hc; reflexivity).
  rewrite <- Hlen.
  replace (j + (length ins - j))%nat with (length ins) in Hrun by lia.
  rewrite Hrun. cbn [Nat.add].
  destruct (length ins - j)%nat as [| m] eqn:Hm; [lia |].
  cbn [fetch_valid_input_loop].
  assert (Hslot1 : ins1 !! j = Some refused)
    by (rewrite Hrest by lia; exact Hj).
  destruct (host (host_rounds s1)) as [ok q] eqn:Hh.
  assert (Hround :=
    fetch_valid_input_round_passed s1 (set_inputs (Some ins1) c) ins1 refused
      j ok q Hctx eq_refl Hslot1 Hh).
  rewrite Hhr in Hh.
  unfold input_gate_open in Hgate. rewrite Hh in Hgate. cbn [fst snd] in Hgate.
  specialize (Hround Hgate). cbv zeta in Hround.
  unfold input_verdict in Hv |- *. rewrite Hh in Hv |- *. cbn [fst snd] in Hv |- *.
  rewrite Hv in Hround.
  rewrite (bind_eq _ _ _ _ _ Hround).
  eexists _, _. split; [reflexivity |].
  cbn [btc_txn_context host_rounds user_rounds trace].
  split; [reflexivity |]. split; [lia |]. split; [exact Hur |].
  split; [rewrite Htr, <- app_assoc; reflexivity |].
  split.
  - apply list_lookup_insert_eq. lia.
  - intros i Hi. rewrite list_lookup_insert_ne by lia. apply Hrest. lia.
Qed.

Lemma input_loop_returns (c : btc_txn_context_t) (n : nat) :
  forall (idx : nat) (s0 : state) (ins0 : list btc_txn_input_t),
    btc_txn_context s0 = Some (set_inputs (Some ins0) c) ->
    (idx + n <= length ins0)%nat ->
    exists b s' ins',
      fetch_valid_input_loop n idx s0 = Some (b, s') /\
      btc_txn_context s' = Some (set_inputs (Some ins') c) /\
      length ins' = length ins0 /\
      user_rounds s' = user_rounds s0 /\
      (host_rounds s0 <= host_rounds s' <= host_rounds s0 + n)%nat.
Proof.
  induction n as [| n IH]; intros idx s0 ins0 Hc0 Hlen0.
  - exists true, s0, ins0. repeat split; auto; lia.
  - destruct (lookup_lt_is_Some_2 ins0 idx ltac:(lia)) as [slot Hslot].
    destruct (host (host_rounds s0)) as [ok q] eqn:Hh.
    cbn [fetch_valid_input_loop].
    destruct (decide (ok = true
                      \/ which_request (sign_txn q)
                         = BTC_SIGN_TXN_REQUEST_INPUT_TAG)) as [Hgate | Hgate].
    + assert (Hround :=
        fetch_valid_input_round_passed s0 _ ins0 slot idx ok q Hc0 eq_refl
          Hslot Hh Hgate).
      cbv zeta in Hround.
      destruct (fst (btc_verify_input _ _ slot));
        rewrite (bind_eq _ _ _ _ _ Hround).
      * match type of Hround with
        | _ = Some (_, ?s1) =>
          destruct (IH (S idx) s1
                      (<[idx := clone_input (input (sign_txn q))
                           (snd (btc_verify_input
                                   (pb_buf (rq_prev_txn (input (sign_txn q))))
                                   (pb_size (rq_prev_txn (input (sign_txn q))))
                                   slot))]> ins0))
            as (b & s' & ins' & Hrun & Hctx & Hl & Hur & Hhr)
        end.
        -- reflexivity.
        -- rewrite length_insert. lia.
        -- cbn [host_rounds user_rounds] in *. rewrite length_insert in Hl.
           exists b, s', ins'. repeat split; auto; lia.
      * eexists false, _, _. split; [reflexivity |].
        cbn [btc_txn_context host_rounds user_rounds].
        split; [reflexivity |]. rewrite length_insert.
        repeat split; auto; lia.
    + destruct ok; [exfalso; apply Hgate; left; reflexivity |].
      rewrite (bind_eq _ _ _ _ _
                 (fetch_valid_input_round_rejected s0 idx q Hh
                    ltac:(intros E; apply Hgate; right; exact E))).
      eexists false, _, ins0. split; [reflexivity |].
      cbn [after_event after_query btc_txn_context host_rounds user_rounds].
      repeat split; auto; lia.
Qed.

(** X8. With the [inputs] array holding [input_count] slots,
    [fetch_valid_input] never indexes outside it, whatever the host sends and
    the verifier answers: it returns, having read at most [input_count] host
    rounds and shown no prompt, and it leaves the array of the same length
    and the rest of the context unchanged. *)
Theorem input_phase_in_bounds (s : state) (c : btc_txn_context_t)
    (ins : list btc_txn_input_t) :
  btc_txn_context s = Some c ->
  inputs c = Some ins ->
  length ins = Z.to_nat (input_count (metadata c)) ->
  exists b s' ins',
    fetch_valid_input s = Some (b, s') /\
    btc_txn_context s' = Some (set_inputs (Some ins') c) /\
    length ins' = length ins /\
    user_rounds s' = user_rounds s /\
    (host_rounds s <= host_rounds s' <= host_rounds s + length ins)%nat.
Proof.
  intros Hc Hins Hlen.
  unfold fetch_valid_input.
  erewrite bind_eq by (unfold read_context; rewrite Hc; reflexivity).
  rewrite <- Hlen.
  apply (input_loop_returns c (length ins) 0%nat s ins); [| lia].
  rewrite set_inputs_same by exact Hins. exact Hc.
Qed.

End InputPhase.

Lemma inputs_bound_in_order_witness :
  exists s',
    @fetch_valid_input
      (sample_world [(true, input_query BTC_SIGN_TXN_REQUEST_INPUT_TAG 5000);
                     (true, short_script_query 7000)] [])
      (phase_state two_input_context) = Some (true, s') /\
    btc_txn_context s'
    = Some (set_inputs (Some [first_bound_input; second_bound_input])
                       two_input_context) /\
    host_rounds s' = 2%nat /\
    trace s' = [EvGetQuery true;
                EvSendResult BTC_SIGN_TXN_RESPONSE_INPUT_ACCEPTED_TAG;
                EvGetQuery true;
                EvSendResult BTC_SIGN_TXN_RESPONSE_INPUT_ACCEPTED_TAG].
Proof.
  destruct (@inputs_bound_in_order
              (sample_world
                 [(true, input_query BTC_SIGN_TXN_REQUEST_INPUT_TAG 5000);
                  (true, short_script_query 7000)] [])
              (phase_state two_input_context) two_input_context
              [zero_input; stale_input]
              eq_refl eq_refl eq_refl)
    as (s' & ins' & Hrun & Hctx & Hlen & Hhr & _ & Htr & Hbound).
  { intros [| [| i]] slot Hslot; [| | discriminate Hslot];
      injection Hslot as <-; (split; [left |]; reflexivity). }
  assert (H0 := Hbound 0%nat zero_input eq_refl).
  assert (H1 := Hbound 1%nat stale_input eq_refl).
  destruct ins' as [| r0 [| r1 [| r2 rest]]]; try discriminate Hlen.
  cbn in H0, H1. injection H0 as ->. injection H1 as ->.
  exists s'. split; [exact Hrun |]. split; [exact Hctx |].
  split; [exact Hhr | exact Htr].
Defined.

Lemma input_phase_stops_at_refusal_witness :
  exists s' (ins' : list btc_txn_input_t),
    @fetch_valid_input
      (sample_world [(true, unproven_input_query 5000)] [])
      (phase_state sample_context) = Some (false, s') /\
    host_rounds s' = 1%nat /\
    trace s' = [EvGetQuery true;
                EvSendError ERROR_COMMON_ERROR_CORRUPT_DATA_TAG
                            ERROR_DATA_FLOW_INVALID_DATA] /\
    ins' !! 0%nat = Some (snd (sample_verify_input [] 0 zero_input)).
Proof.
  destruct (@input_phase_stops_at_refusal
              (sample_world [(true, unproven_input_query 5000)] [])
              (phase_state sample_context) sample_context [zero_input]
              0%nat zero_input eq_refl eq_refl eq_refl eq_refl)
    as (s' & ins' & Hrun & _ & Hhr & _ & Htr & Hslot & _).
  { intros i slot Hi. lia. }
  { left. reflexivity. }
  { reflexivity. }
  exists s', ins'. split; [exact Hrun |]. split; [exact Hhr |].
  split; [exact Htr | exact Hslot].
Defined.

Lemma input_phase_in_bounds_witness :
  exists b s' (ins' : list btc_txn_input_t),
    @fetch_valid_input
      (sample_world [(false, meta_query sample_meta)] [])
      (phase_state sample_context) = Some (b, s') /\
    btc_txn_context s' = Some (set_inputs (Some ins') sample_context) /\
    length ins' = 1%nat.
Proof.
  destruct (@input_phase_in_bounds
              (sample_world [(false, meta_query sample_meta)] [])
              (phase_state sample_context) sample_context [zero_input]
              eq_refl eq_refl eq_refl)
    as (b & s' & ins' & Hrun & Hctx & Hlen & _).
  exists b, s', ins'. auto.
Defined.

Section OutputStorage.
Context `{W : Collaborators}.

Lemma set_outputs_same (c : btc_txn_context_t)
    (outs : list btc_sign_txn_output_t) :
  outputs c = Some outs -> set_outputs (Some outs) c = c.
Proof. destruct c. cbn. intros ->. reflexivity. Qed.

Lemma output_loop_stores (n : nat) :
  forall (idx : nat) (z : bool) (s : state) (c : btc_txn_context_t)
         (outs : list btc_sign_txn_output_t),
    btc_txn_context s = Some c ->
    outputs c = Some outs ->
    (idx + n <= length outs)%nat ->
    (forall i, (i < n)%nat ->
       fst (host (host_rounds s + i)%nat) = true
       \/ which_request (sign_txn (snd (host (host_rounds s + i)%nat)))
          = BTC_SIGN_TXN_REQUEST_OUTPUT_TAG) ->
    forallb (fun o => negb (carries_locked_funds o))
            (delivered_outputs (host_rounds s) n) = true ->
    exists s',
      fetch_valid_output_loop n idx z s
        = Some (Some (z && forallb zero_valued
                                   (delivered_outputs (host_rounds s) n)), s') /\
      btc_txn_context s'
        = Some (set_outputs
                  (Some (take idx outs
                         ++ delivered_outputs (host_rounds s) n
                         ++ drop (idx + n) outs)) c) /\
      host_rounds s' = (host_rounds s + n)%nat /\
      user_rounds s' = user_rounds s /\
      trace s' = trace s ++ accepted_rounds (host_rounds s) n.
Proof.
  induction n as [| n IH]; intros idx z s c outs Hc Houts Hlen Hgate Hfree.
  - exists s. cbn [fetch_valid_output_loop delivered_outputs forallb
                   accepted_rounds app].
    rewrite andb_true_r, !Nat.add_0_r, app_nil_r, take_drop.
    rewrite set_outputs_same by exact Houts. auto.
  - assert (Hg0 := Hgate 0%nat ltac:(lia)). rewrite Nat.add_0_r in Hg0.
    cbn [delivered_outputs forallb accepted_rounds] in *.
    destruct (host (host_rounds s)) as [ok q] eqn:Hh. cbn [fst snd] in *.
    apply andb_true_iff in Hfree as [Hfree0 Hfree].
    apply negb_true_iff in Hfree0.
    assert (Hround :=
      fetch_valid_output_round_passed s c outs idx z ok q Hc Houts
        ltac:(lia) Hh Hg0).
    rewrite Hfree0 in Hround.
    cbn [fetch_valid_output_loop]. rewrite (bind_eq _ _ _ _ _ Hround).
    match type of Hround with
    | _ = Some (Some ?z1, ?s1) =>
      destruct (IH (S idx) z1 s1
                  (set_outputs (Some (<[idx := output (sign_txn q)]> outs)) c)
                  (<[idx := output (sign_txn q)]> outs))
        as (s' & Hrun & Hctx & Hhr & Hur & Htr)
    end.
    + reflexivity.
    + reflexivity.
    + rewrite length_insert. lia.
    + intros i Hi. cbn [host_rounds].
      replace (S (host_rounds s) + i)%nat with (host_rounds s + S i)%nat by lia.
      apply Hgate. lia.
    + exact Hfree.
    + cbn [host_rounds user_rounds trace] in *. exists s'.
      split; [rewrite Hrun, andb_assoc; reflexivity |].
      split.
      { rewrite Hctx. unfold set_outputs. cbn [init_info metadata inputs].
        do 3 f_equal.
        rewrite (take_S_r _ _ (output (sign_txn q)))
          by (apply list_lookup_insert_eq; lia).
        rewrite take_insert_ge by lia.
        rewrite drop_insert_lt by lia.
        rewrite <- app_assoc. cbn [app].
        replace (S idx + n)%nat with (idx + S n)%nat by lia. reflexivity. }
      split; [lia |]. split; [exact Hur |].
      rewrite Htr, <- app_assoc. reflexivity.
Qed.

(** X9. When every output round passes the gate and no received output
    carries locked funds, [fetch_valid_output] copies the received output
    records verbatim and in order into the [outputs] array, reads exactly
    [output_count] host rounds, shows no prompt and changes nothing else in
    the context; this holds for a success as for the rejection of an
    all-zero transaction. *)
Theorem outputs_stored_verbatim (s : state) (c : btc_txn_context_t)
    (outs : list btc_sign_txn_output_t) :
  btc_txn_context s = Some c ->
  outputs c = Some outs ->
  length outs = Z.to_nat (output_count (metadata c)) ->
  (forall i, (i < length outs)%nat ->
     fst (host (host_rounds s + i)%nat) = true
     \/ which_request (sign_txn (snd (host (host_rounds s + i)%nat)))
        = BTC_SIGN_TXN_REQUEST_OUTPUT_TAG) ->
  forallb (fun o => negb (carries_locked_funds o))
          (delivered_outputs (host_rounds s) (length outs)) = true ->
  exists b s',
    fetch_valid_output s = Some (b, s') /\
    btc_txn_context s'
      = Some (set_outputs
                (Some (delivered_outputs (host_rounds s) (length outs))) c) /\
    host_rounds s' = (host_rounds s + length outs)%nat /\
    user_rounds s' = user_rounds s.
Proof.
  intros Hc Houts Hlen Hgate Hfree.
  destruct (output_loop_stores (length outs) 0 true s c outs Hc Houts
              ltac:(lia) Hgate Hfree) as (s1 & Hrun & Hctx & Hhr & Hur & _).
  rewrite take_0, drop_ge, app_nil_r in Hctx by (cbn; lia). cbn [app] in Hctx.
  unfold fetch_valid_output.
  erewrite bind_eq by (unfold read_context; rewrite Hc; reflexivity).
  rewrite <- Hlen. rewrite (bind_eq _ _ _ _ _ Hrun).
  cbn [andb]. destruct (forallb zero_valued _); flow_simpl;
    eexists _, _; (split; [reflexivity |]); auto.
Qed.

Lemma output_loop_returns (c : btc_txn_context_t) (n : nat) :
  forall (idx : nat) (z : bool) (s0 : state)
         (outs0 : list btc_sign_txn_output_t),
    btc_txn_context s0 = Some (set_outputs (Some outs0) c) ->
    (idx + n <= length outs0)%nat ->
    exists r s' outs',
      fetch_valid_output_loop n idx z s0 = Some (r, s') /\
      btc_txn_context s' = Some (set_outputs (Some outs') c) /\
      length outs' = length outs0 /\
      user_rounds s' = user_rounds s0 /\
      (host_rounds s0 <= host_rounds s' <= host_rounds s0 + n)%nat.
Proof.
  induction n as [| n IH]; intros idx z s0 outs0 Hc0 Hlen0.
  - eexists _, s0, outs0. split; [reflexivity |]. repeat split; auto; lia.
  - destruct (host (host_rounds s0)) as [ok q] eqn:Hh.
    cbn [fetch_valid_output_loop].
    destruct (decide (ok = true
                      \/ which_request (sign_txn q)
                         = BTC_SIGN_TXN_REQUEST_OUTPUT_TAG)) as [Hgate | Hgate].
    + assert (Hround :=
        fetch_valid_output_round_passed s0 _ outs0 idx z ok q Hc0 eq_refl
          ltac:(lia) Hh Hgate).
      destruct (carries_locked_funds (output (sign_txn q)));
        rewrite (bind_eq _ _ _ _ _ Hround).
      * eexists None, _, _. split; [reflexivity |].
        cbn [btc_txn_context host_rounds user_rounds].
        split; [reflexivity |]. rewrite length_insert.
        repeat split; auto; lia.
      * match type of Hround with
        | _ = Some (Some ?z1, ?s1) =>
          destruct (IH (S idx) z1 s1 (<[idx := output (sign_txn q)]> outs0))
            as (r & s' & outs' & Hrun & Hctx & Hl & Hur & Hhr)
        end.
        -- reflexivity.
        -- rewrite length_insert. lia.
        -- cbn [host_rounds user_rounds] in *. rewrite length_insert in Hl.
           exists r, s', outs'. repeat split; auto; lia.
    + destruct ok; [exfalso; apply Hgate; left; reflexivity |].
      rewrite (bind_eq _ _ _ _ _
                 (fetch_valid_output_round_rejected s0 idx z q Hh
                    ltac:(intros E; apply Hgate; right; exact E))).
      eexists None, _, outs0. split; [reflexivity |].
      cbn [after_event after_query btc_txn_context host_rounds user_rounds].
      repeat split; auto; lia.
Qed.

(** X10. With the [outputs] array holding [output_count] slots,
    [fetch_valid_output] never indexes outside it, whatever the host sends:
    it returns, having read at most [output_count] host rounds and shown no
    prompt, and it leaves the array of the same length and the rest of the
    context unchanged. *)
Theorem output_phase_in_bounds (s : state) (c : btc_txn_context_t)
    (outs : list btc_sign_txn_output_t) :
  btc_txn_context s = Some c ->
  outputs c = Some outs ->
  length outs = Z.to_nat (output_count (metadata c)) ->
  exists b s' outs',
    fetch_valid_output s = Some (b, s') /\
    btc_txn_context s' = Some (set_outputs (Some outs') c) /\
    length outs' = length outs /\
    user_rounds s' = user_rounds s /\
    (host_rounds s <= host_rounds s' <= host_rounds s + length outs)%nat.
Proof.
  intros Hc Houts Hlen.
  destruct (output_loop_returns c (length outs) 0%nat true s outs)
    as (r & s1 & outs1 & Hrun & Hctx & Hl & Hur & Hhr); [| lia |].
  { rewrite set_outputs_same by exact Houts. exact Hc. }
  unfold fetch_valid_output.
  erewrite bind_eq by (unfold read_context; rewrite Hc; reflexivity).
  rewrite <- Hlen. rewrite (bind_eq _ _ _ _ _ Hrun).
  destruct r as [[|] |]; flow_simpl; eexists _, _, outs1;
    (split; [reflexivity |]); cbn [btc_txn_context host_rounds user_rounds];
    auto.
Qed.

End OutputStorage.

Lemma outputs_stored_verbatim_witness :
  exists s',
    @fetch_valid_output
      (sample_world
         [(true, output_query BTC_SIGN_TXN_REQUEST_OUTPUT_TAG
                              (sample_output 90000 0x76 false));
          (true, output_query BTC_SIGN_TXN_REQUEST_OUTPUT_TAG
                              (sample_output 9000 0x76 true))] [])
      (phase_state sample_context) = Some (true, s') /\
    btc_txn_context s'
    = Some (set_outputs
              (Some [sample_output 90000 0x76 false;
                     sample_output 9000 0x76 true]) sample_context).
Proof.
  destruct (@outputs_stored_verbatim
              (sample_world
                 [(true, output_query BTC_SIGN_TXN_REQUEST_OUTPUT_TAG
                                      (sample_output 90000 0x76 false));
                  (true, output_query BTC_SIGN_TXN_REQUEST_OUTPUT_TAG
                                      (sample_output 9000 0x76 true))] [])
              (phase_state sample_context) sample_context
              [sample_output 0 0 false; sample_output 0 0 false]
              eq_refl eq_refl eq_refl)
    as (b & s' & Hrun & Hctx & _).
  { intros [| [| i]] Hi; [left; reflexivity .. | cbn in Hi; lia]. }
  { reflexivity. }
  exists s'. split; [| exact Hctx].
  rewrite Hrun. f_equal. f_equal.
  destruct b; [reflexivity |]. vm_compute in Hrun. discriminate Hrun.
Defined.

Lemma output_phase_in_bounds_witness :
  exists b s' (outs' : list btc_sign_txn_output_t),
    @fetch_valid_output
      (sample_world [(false, meta_query sample_meta)] [])
      (phase_state sample_context) = Some (b, s') /\
    btc_txn_context s' = Some (set_outputs (Some outs') sample_context) /\
    length outs' = 2%nat.
Proof.
  destruct (@output_phase_in_bounds
              (sample_world [(false, meta_query sample_meta)] [])
              (phase_state sample_context) sample_context
              [sample_output 0 0 false; sample_output 0 0 false]
              eq_refl eq_refl eq_refl)
    as (b & s' & outs' & Hrun & Hctx & Hlen & _).
  exists b, s', outs'. auto.
Defined.

Section OutputClaims.
Context `{W : Collaborators}.

Lemma delivered_outputs_length (k n : nat) :
  length (delivered_outputs k n) = n.
Proof.
  revert k. induction n as [| n IH]; intros k; [reflexivity |].
  cbn. rewrite IH. reflexivity.
Qed.

Lemma delivered_outputs_app (k a b : nat) :
  delivered_outputs k (a + b)
  = delivered_outputs k a ++ delivered_outputs (k + a) b.
Proof.
  revert k. induction a as [| a IH]; intros k.
  - rewrite Nat.add_0_r. reflexivity.
  - cbn [Nat.add delivered_outputs app]. rewrite IH.
    replace (S k + a)%nat with (k + S a)%nat by lia. reflexivity.
Qed.

Lemma rounds_used_free (os : list btc_sign_txn_output_t) :
  forallb (fun o => negb (carries_locked_funds o)) os = true ->
  rounds_used os = length os.
Proof.
  induction os as [| o os IH]; [reflexivity |].
  cbn [forallb rounds_used length]. intros H.
  apply andb_true_iff in H as [Ho Hos]. apply negb_true_iff in Ho.
  rewrite Ho, IH by exact Hos. reflexivity.
Qed.

Lemma some_nonzero (os : list btc_sign_txn_output_t) :
  existsb (fun o => negb (zero_valued o)) os = negb (forallb zero_valued os).
Proof.
  induction os as [| o os IH]; [reflexivity |].
  cbn [existsb forallb]. rewrite IH. destruct (zero_valued o); reflexivity.
Qed.

(** [j] accepted rounds in a row advance the output loop by [j] iterations
    and store the delivered outputs in the slots [idx .. idx + j). *)
Lemma output_loop_accepts (j : nat) :
  forall (n idx : nat) (z : bool) (s : state) (c : btc_txn_context_t)
         (outs : list btc_sign_txn_output_t),
    btc_txn_context s = Some c ->
    outputs c = Some outs ->
    (idx + j <= length outs)%nat ->
    (forall i, (i < j)%nat -> output_gate_open (host_rounds s + i)%nat) ->
    forallb (fun o => negb (carries_locked_funds o))
            (delivered_outputs (host_rounds s) j) = true ->
    exists s1,
      fetch_valid_output_loop (j + n) idx z s
        = fetch_valid_output_loop n (idx + j)
            (z && forallb zero_valued (delivered_outputs (host_rounds s) j)) s1 /\
      btc_txn_context s1
        = Some (set_outputs
                  (Some (take idx outs
                         ++ delivered_outputs (host_rounds s) j
                         ++ drop (idx + j) outs)) c) /\
      host_rounds s1 = (host_rounds s + j)%nat /\
      user_rounds s1 = user_rounds s /\
      trace s1 = trace s ++ accepted_rounds (host_rounds s) j.
Proof.
  induction j as [| j IH]; intros n idx z s c outs Hc Houts Hlen Hgate Hfree.
  - exists s. cbn [Nat.add delivered_outputs forallb accepted_rounds app].
    rewrite andb_true_r, !Nat.add_0_r, app_nil_r, take_drop.
    rewrite set_outputs_same by exact Houts. auto.
  - assert (Hg0 := Hgate 0%nat ltac:(lia)). rewrite Nat.add_0_r in Hg0.
    unfold output_gate_open in Hg0.
    cbn [delivered_outputs forallb accepted_rounds] in *.
    destruct (host (host_rounds s)) as [ok q] eqn:Hh. cbn [fst snd] in *.
    apply andb_true_iff in Hfree as [Hfree0 Hfree].
    apply negb_true_iff in Hfree0.
    assert (Hround :=
      fetch_valid_output_round_passed s c outs idx z ok q Hc Houts
        ltac:(lia) Hh Hg0).
    rewrite Hfree0 in Hround.
    cbn [Nat.add fetch_valid_output_loop]. rewrite (bind_eq _ _ _ _ _ Hround).
    match type of Hround with
    | _ = Some (Some ?z1, ?s1) =>
      destruct (IH n (S idx) z1 s1
                  (set_outputs (Some (<[idx := output (sign_txn q)]> outs)) c)
                  (<[idx := output (sign_txn q)]> outs))
        as (s' & Hrun & Hctx & Hhr & Hur & Htr)
    end.
    + reflexivity.
    + reflexivity.
    + rewrite length_insert. lia.
    + intros i Hi. cbn [host_rounds].
      replace (S (host_rounds s) + i)%nat with (host_rounds s + S i)%nat by lia.
      apply Hgate. lia.
    + exact Hfree.
    + cbn [host_rounds user_rounds trace] in *. exists s'.
      split.
      { rewrite Hrun, andb_assoc.
        replace (S idx + j)%nat with (idx + S j)%nat by lia. reflexivity. }
      split.
      { rewrite Hctx. unfold set_outputs. cbn [init_info metadata inputs].
        do 3 f_equal.
        rewrite (take_S_r _ _ (output (sign_txn q)))
          by (apply list_lookup_insert_eq; lia).
        rewrite take_insert_ge by lia.
        rewrite drop_insert_lt by lia.
        rewrite <- app_assoc. cbn [app].
        replace (S idx + j)%nat with (idx + S j)%nat by lia. reflexivity. }
      split; [lia |]. split; [exact Hur |].
      rewrite Htr, <- app_assoc. reflexivity.
Qed.

(** C5. The request discriminant plays no part in [fetch_valid_output]: if
    every one of the [output_count] rounds is received, whatever kind of
    sub-request it says it carries, the function returns success exactly
    when no delivered output view has a data-carrier first byte together
    with a nonzero value and at least one has a nonzero value.  A success
    stores the delivered output views, answers every round with an accepted
    response and sends no error, also for rounds that were no output
    sub-requests; the loop stops at the first output carrying locked funds,
    and both kinds of rejection end by sending CORRUPT_DATA/INVALID_DATA. *)
Theorem output_discriminant_is_ignored (s : state) (c : btc_txn_context_t)
    (outs : list btc_sign_txn_output_t) :
  btc_txn_context s = Some c ->
  outputs c = Some outs ->
  length outs = Z.to_nat (output_count (metadata c)) ->
  (forall i, (i < length outs)%nat ->
     fst (host (host_rounds s + i)%nat) = true) ->
  exists s',
    fetch_valid_output s
      = Some (outputs_acceptable
                (delivered_outputs (host_rounds s) (length outs)), s') /\
    host_rounds s'
      = (host_rounds s
         + rounds_used (delivered_outputs (host_rounds s) (length outs)))%nat /\
    (outputs_acceptable (delivered_outputs (host_rounds s) (length outs)) = false ->
     ends_with (EvSendError ERROR_COMMON_ERROR_CORRUPT_DATA_TAG
                            ERROR_DATA_FLOW_INVALID_DATA)
               (trace s) (trace s')) /\
    (outputs_acceptable (delivered_outputs (host_rounds s) (length outs)) = true ->
     btc_txn_context s'
       = Some (set_outputs
                 (Some (delivered_outputs (host_rounds s) (length outs))) c) /\
     trace s' = trace s ++ accepted_rounds (host_rounds s) (length outs)).
Proof.
  intros Hc Houts Hlen Hok.
  unfold fetch_valid_output.
  erewrite bind_eq by (unfold read_context; rewrite Hc; reflexivity).
  rewrite <- Hlen. unfold outputs_acceptable.
  destruct (forallb (fun o => negb (carries_locked_funds o))
                    (delivered_outputs (host_rounds s) (length outs)))
    eqn:Hfree.
  - destruct (output_loop_stores (length outs) 0 true s c outs Hc Houts
                ltac:(lia)) as (s1 & Hrun & Hctx & Hhr & _ & Htr).
    { intros i Hi. left. apply Hok. exact Hi. }
    { exact Hfree. }
    rewrite take_0, drop_ge, app_nil_r in Hctx by (cbn; lia).
    cbn [app] in Hctx.
    rewrite (bind_eq _ _ _ _ _ Hrun).
    rewrite (rounds_used_free _ Hfree), delivered_outputs_length.
    rewrite some_nonzero. cbn [andb].
    destruct (forallb zero_valued _); cbn [negb]; flow_simpl.
    + eexists. split; [reflexivity |]. cbn [host_rounds trace].
      split; [exact Hhr |]. split; [| discriminate].
      intros _. exists (accepted_rounds (host_rounds s) (length outs)).
      rewrite Htr, <- app_assoc. reflexivity.
    + exists s1. split; [reflexivity |]. split; [exact Hhr |].
      split; [discriminate |]. intros _. split; [exact Hctx | exact Htr].
  - destruct (fetch_valid_output_loop_received (length outs) 0 true s c outs)
      as (s1 & evs & Hrun & Hrounds & Htrace & Hend); auto.
    unfold loop_verdict in Hrun, Hend. rewrite Hfree in Hrun, Hend.
    rewrite (bind_eq _ _ _ _ _ Hrun). cbn [andb]. flow_simpl.
    exists s1. split; [reflexivity |]. split; [exact Hrounds |].
    split; [| discriminate]. intros _.
    destruct Hend as (evs' & ->); [reflexivity |].
    exists evs'. rewrite Htrace. reflexivity.
Qed.

(** C10. The data-carrier test of [fetch_valid_output] reads byte 0 of the
    script buffer whatever length [n] the script declares, also [n = 0];
    nothing compares [n] with 1.  Let the rounds before round [j] be
    accepted and let round [j] pass the gate, received or not, with an output
    of nonzero value whose script declares [n] bytes in the buffer [buf].
    If byte 0 of [buf] is OP_RETURN, the function rejects the transaction at
    round [j] with CORRUPT_DATA/INVALID_DATA; if it is any other byte and the
    remaining rounds are accepted too, the function returns success. *)
Theorem op_return_test_ignores_declared_length (s : state)
    (c : btc_txn_context_t) (outs : list btc_sign_txn_output_t) (j : nat)
    (n : Z) (buf : list Z) :
  btc_txn_context s = Some c ->
  outputs c = Some outs ->
  length outs = Z.to_nat (output_count (metadata c)) ->
  (j < length outs)%nat ->
  (forall i, (i <= j)%nat -> output_gate_open (host_rounds s + i)%nat) ->
  forallb (fun o => negb (carries_locked_funds o))
          (delivered_outputs (host_rounds s) j) = true ->
  out_script_pub_key (output (sign_txn (snd (host (host_rounds s + j)%nat))))
    = {| pb_size := n; pb_buf := buf |} ->
  out_value (output (sign_txn (snd (host (host_rounds s + j)%nat)))) <> 0 ->
  (byte_at buf 0 = OP_RETURN ->
   exists s',
     fetch_valid_output s = Some (false, s') /\
     host_rounds s' = (host_rounds s + S j)%nat /\
     trace s' = trace s ++ accepted_rounds (host_rounds s) j
                ++ [EvGetQuery (fst (host (host_rounds s + j)%nat));
                    EvSendError ERROR_COMMON_ERROR_CORRUPT_DATA_TAG
                                ERROR_DATA_FLOW_INVALID_DATA])
  /\
  (byte_at buf 0 <> OP_RETURN ->
   (forall i, (j < i < length outs)%nat ->
      output_gate_open (host_rounds s + i)%nat) ->
   forallb (fun o => negb (carries_locked_funds o))
           (delivered_outputs (host_rounds s + S j) (length outs - S j)) = true ->
   exists s',
     fetch_valid_output s = Some (true, s') /\
     host_rounds s' = (host_rounds s + length outs)%nat /\
     trace s' = trace s ++ accepted_rounds (host_rounds s) (length outs)).
Proof.
  intros Hc Houts Hlen Hj Hgate Hfree Hscript Hvalue.
  assert (Hzero : zero_valued
                    (output (sign_txn (snd (host (host_rounds s + j)%nat))))
                  = false).
  { unfold zero_valued. apply Z.eqb_neq. congruence. }
  assert (Hlocked : carries_locked_funds
                      (output (sign_txn (snd (host (host_rounds s + j)%nat))))
                    = (OP_RETURN =? byte_at buf 0)).
  { unfold carries_locked_funds. rewrite Hscript. cbn [pb_buf].
    fold (zero_valued
            (output (sign_txn (snd (host (host_rounds s + j)%nat))))).
    rewrite Hzero. apply andb_true_r. }
  unfold fetch_valid_output.
  erewrite bind_eq by (unfold read_context; rewrite Hc; reflexivity).
  rewrite <- Hlen.
  split.
  - intros Hfirst.
    destruct (output_loop_accepts j (length outs - j) 0 true s c outs Hc Houts
                ltac:(lia)) as (s1 & Hrun & Hctx & Hhr & _ & Htr).
    { intros i Hi. apply Hgate. lia. }
    { exact Hfree. }
    replace (j + (length outs - j))%nat with (length outs) in Hrun by lia.
    unfold bind at 1. rewrite Hrun. cbn [Nat.add].
    destruct (length outs - j)%nat as [| m] eqn:Hm; [lia |].
    cbn [fetch_valid_output_loop].
    assert (Hgj := Hgate j ltac:(lia)). unfold output_gate_open in Hgj.
    rewrite <- Hhr in Hgj, Hlocked |- *.
    destruct (host (host_rounds s1)) as [ok q] eqn:Hh. cbn [fst snd] in *.
    assert (Hround :=
      fetch_valid_output_round_passed s1 _ _ j
        (true && forallb zero_valued (delivered_outputs (host_rounds s) j))
        ok q Hctx eq_refl).
    rewrite !length_app, length_take, delivered_outputs_length, length_drop
      in Hround.
    specialize (Hround ltac:(cbn; lia) Hh Hgj).
    rewrite Hlocked in Hround.
    replace (OP_RETURN =? byte_at buf 0) with true in Hround
      by (symmetry; apply Z.eqb_eq; congruence).
    rewrite (bind_eq _ _ _ _ _ Hround). flow_simpl.
    eexists. split; [reflexivity |]. cbn [host_rounds trace].
    split; [lia |]. rewrite Htr, <- app_assoc. reflexivity.
  - intros Hfirst Hgate' Hfree'.
    assert (Hsplit : length outs = (j + S (length outs - S j))%nat) by lia.
    assert (Hall : forallb (fun o => negb (carries_locked_funds o))
                     (delivered_outputs (host_rounds s) (length outs)) = true).
    { rewrite Hsplit at 1. rewrite delivered_outputs_app.
      cbn [delivered_outputs]. rewrite forallb_app. cbn [forallb].
      rewrite Hfree, Hlocked.
      replace (OP_RETURN =? byte_at buf 0) with false
        by (symmetry; apply Z.eqb_neq; congruence).
      replace (S (host_rounds s + j))%nat with (host_rounds s + S j)%nat by lia.
      rewrite Hfree'. reflexivity. }
    assert (Hnz : forallb zero_valued
                    (delivered_outputs (host_rounds s) (length outs)) = false).
    { rewrite Hsplit at 1. rewrite delivered_outputs_app.
      cbn [delivered_outputs]. rewrite forallb_app. cbn [forallb].
      rewrite Hzero. cbn [andb]. apply andb_false_r. }
    destruct (output_loop_stores (length outs) 0 true s c outs Hc Houts
                ltac:(lia)) as (s1 & Hrun & _ & Hhr & _ & Htr).
    { intros i Hi. destruct (decide (i <= j)%nat) as [Hle | Hgt].
      - apply (Hgate i Hle).
      - apply (Hgate' i). lia. }
    { exact Hall. }
    rewrite (bind_eq _ _ _ _ _ Hrun). rewrite Hnz. cbn [andb]. flow_simpl.
    exists s1. split; [reflexivity |]. split; [exact Hhr | exact Htr].
Qed.

End OutputClaims.

Lemma output_discriminant_is_ignored_witness :
  exists s',
    @fetch_valid_output
      (sample_world
         [(true, output_query BTC_SIGN_TXN_REQUEST_META_TAG
                              (sample_output 90000 0x76 false));
          (true, output_query BTC_SIGN_TXN_REQUEST_INPUT_TAG
                              (sample_output 9000 0x76 true))] [])
      (phase_state sample_context) = Some (true, s') /\
    host_rounds s' = 2%nat /\
    btc_txn_context s'
    = Some (set_outputs
              (Some [sample_output 90000 0x76 false;
                     sample_output 9000 0x76 true]) sample_context) /\
    trace s' = [EvGetQuery true;
                EvSendResult BTC_SIGN_TXN_RESPONSE_INPUT_ACCEPTED_TAG;
                EvGetQuery true;
                EvSendResult BTC_SIGN_TXN_RESPONSE_INPUT_ACCEPTED_TAG].
Proof.
  destruct (@output_discriminant_is_ignored
              (sample_world
                 [(true, output_query BTC_SIGN_TXN_REQUEST_META_TAG
                                      (sample_output 90000 0x76 false));
                  (true, output_query BTC_SIGN_TXN_REQUEST_INPUT_TAG
                                      (sample_output 9000 0x76 true))] [])
              (phase_state sample_context) sample_context
              [sample_output 0 0 false; sample_output 0 0 false]
              eq_refl eq_refl eq_refl)
    as (s' & Hrun & Hrounds & _ & Hgood).
  { intros [| [| i]] Hi; [reflexivity .. | cbn in Hi; lia]. }
  destruct (Hgood eq_refl) as [Hctx Htr].
  exists s'. split; [exact Hrun |]. split; [exact Hrounds |].
  split; [exact Hctx | exact Htr].
Defined.

Lemma op_return_test_ignores_declared_length_witness :
  exists s',
    @fetch_valid_output
      (sample_world
         [(true, output_query BTC_SIGN_TXN_REQUEST_OUTPUT_TAG
                              (sample_output 90000 0x76 false));
          (false, output_query BTC_SIGN_TXN_REQUEST_OUTPUT_TAG
                    {| out_value := 500;
                       out_script_pub_key :=
                         {| pb_size := 0; pb_buf := [0x6a; 0; 0; 0; 0; 0] |};
                       is_change := false |})] [])
      (phase_state sample_context) = Some (false, s') /\
    host_rounds s' = 2%nat /\
    trace s' =
      [EvGetQuery true;
       EvSendResult BTC_SIGN_TXN_RESPONSE_INPUT_ACCEPTED_TAG;
       EvGetQuery false;
       EvSendError ERROR_COMMON_ERROR_CORRUPT_DATA_TAG
                   ERROR_DATA_FLOW_INVALID_DATA].
Proof.
  destruct (@op_return_test_ignores_declared_length
              (sample_world
                 [(true, output_query BTC_SIGN_TXN_REQUEST_OUTPUT_TAG
                                      (sample_output 90000 0x76 false));
                  (false, output_query BTC_SIGN_TXN_REQUEST_OUTPUT_TAG
                            {| out_value := 500;
                               out_script_pub_key :=
                                 {| pb_size := 0;
                                    pb_buf := [0x6a; 0; 0; 0; 0; 0] |};
                               is_change := false |})] [])
              (phase_state sample_context) sample_context
              [sample_output 0 0 false; sample_output 0 0 false] 1%nat
              0 [0x6a; 0; 0; 0; 0; 0]
              eq_refl eq_refl eq_refl ltac:(cbn; lia))
    as [Hreject _]; try reflexivity.
  { intros [| [| i]] Hi; [left; reflexivity | right; reflexivity | lia]. }
  { cbn. lia. }
  destruct (Hreject eq_refl) as (s' & Hrun & Hhr & Htr).
  exists s'. split; [exact Hrun |]. split; [exact Hhr | exact Htr].
Defined.

Section Frames.
Context `{W : Collaborators}.
Variable R : state -> state -> Prop.
Hypothesis R_refl : forall s, R s s.
Hypothesis R_trans : forall s1 s2 s3, R s1 s2 -> R s2 s3 -> R s1 s3.

Lemma keeps_ret {A} (a : A) : keeps R (ret a).
Proof. intros s a' s' H. injection H as <- <-. apply R_refl. Qed.

Lemma keeps_undefined {A} : keeps R (@undefined A).
Proof. intros s a s' H. discriminate. Qed.

Lemma keeps_bind {A B} (m : M A) (k : A -> M B) :
  keeps R m -> (forall a, keeps R (k a)) -> keeps R (bind m k).
Proof.
  intros Hm Hk s b s' H. unfold bind in H.
  destruct (m s) as [[a s1] |] eqn:Hms; [| discriminate].
  eapply R_trans; [apply (Hm _ _ _ Hms) | apply (Hk a _ _ _ H)].
Qed.

Lemma keeps_read_context : keeps R read_context.
Proof.
  intros s a s' H. unfold read_context in H.
  destruct (btc_txn_context s); [injection H as <- <-; auto | discriminate].
Qed.

Lemma keeps_deref_at {A} (p : option (list A)) idx : keeps R (deref_at p idx).
Proof.
  unfold deref_at. destruct p as [l |]; [| apply keeps_undefined].
  destruct (l !! idx); [apply keeps_ret | apply keeps_undefined].
Qed.

Lemma keeps_notM m : keeps R m -> keeps R (! m).
Proof. intros H. apply keeps_bind; [exact H |]. intros a. apply keeps_ret. Qed.

Lemma keeps_andM a b : keeps R a -> keeps R b -> keeps R (a &&& b).
Proof.
  intros Ha Hb. apply keeps_bind; [exact Ha |].
  intros [|]; [exact Hb | apply keeps_ret].
Qed.

Lemma keeps_orM a b : keeps R a -> keeps R b -> keeps R (a ||| b).
Proof.
  intros Ha Hb. apply keeps_bind; [exact Ha |].
  intros [|]; [apply keeps_ret | exact Hb].
Qed.

End Frames.

Section VerifyFrame.
Context `{W : Collaborators}.

Lemma same_transaction_refl s : same_transaction s s.
Proof. repeat split. Qed.

Lemma same_transaction_trans s1 s2 s3 :
  same_transaction s1 s2 -> same_transaction s2 s3 -> same_transaction s1 s3.
Proof.
  intros (A1 & A2 & A3) (B1 & B2 & B3). repeat split; congruence.
Qed.

Lemma keeps_prompt ev : keeps same_transaction (prompt ev).
Proof. intros s a s' H. injection H as <- <-. repeat split. Qed.

Lemma keeps_emit e : keeps same_transaction (emit e).
Proof. intros s a s' H. injection H as <- <-. repeat split. Qed.

Ltac frame_step :=
  match goal with
  | |- keeps _ (bind _ _) =>
    apply (keeps_bind _ same_transaction_trans); [| intros ?]
  | |- keeps _ (notM _) =>
    apply (keeps_notM _ same_transaction_refl same_transaction_trans)
  | |- keeps _ (andM _ _) =>
    apply (keeps_andM _ same_transaction_refl same_transaction_trans)
  | |- keeps _ (orM _ _) =>
    apply (keeps_orM _ same_transaction_refl same_transaction_trans)
  | |- keeps _ (if ?b then _ else _) => destruct b
  | |- keeps _ (match ?x with _ => _ end) => destruct x
  | |- keeps _ (ret _) => apply (keeps_ret _ same_transaction_refl)
  | |- keeps _ read_context => apply (keeps_read_context _ same_transaction_refl)
  | |- keeps _ (deref_at _ _) => apply (keeps_deref_at _ same_transaction_refl)
  | |- keeps _ (core_confirmation _) => apply keeps_prompt
  | |- keeps _ (core_scroll_page _ _) => apply keeps_prompt
  | |- keeps _ (btc_send_error _ _) => apply keeps_emit
  | |- _ => assumption
  end.

Lemma show_receivers_keeps (n : nat) :
  forall idx, keeps same_transaction (show_receivers n idx).
Proof.
  induction n as [| n IH]; intros idx; cbn [show_receivers].
  - repeat frame_step.
  - repeat frame_step; apply IH.
Qed.

(** X11. [get_user_verification] only talks to the user: whatever it returns,
    the context it verified, the query buffer and the number of host rounds
    read are the same afterwards. *)
Theorem verification_changes_nothing (s s' : state) (b : bool) :
  get_user_verification s = Some (b, s') ->
  same_transaction s s'.
Proof.
  revert s b s'. change (keeps same_transaction get_user_verification).
  unfold get_user_verification. repeat frame_step.
  - apply show_receivers_keeps.
  - unfold confirm_fee. repeat frame_step.
Qed.

(** X12. [get_user_verification] returns success only after the user has
    accepted everything there was to show: the fee could be computed, every
    receiver page was accepted, the high-fee warning was accepted if the fee
    is above the ceiling, and the last thing shown and accepted is the fee
    page with that fee. *)
Theorem approval_means_shown (s s' : state) (c : btc_txn_context_t)
    (outs : list btc_sign_txn_output_t) :
  btc_txn_context s = Some c ->
  outputs c = Some outs ->
  length outs = Z.to_nat (output_count (metadata c)) ->
  get_user_verification s = Some (true, s') ->
  exists fee,
    btc_get_txn_fee c = Some fee /\
    (forall i, (i < length (receiver_pages 0 outs))%nat ->
       user (user_rounds s + i)%nat = true) /\
    trace s' = trace s ++ accepted_pages (receiver_pages 0 outs)
               ++ (if fee >? get_transaction_fee_threshold c
                   then [EvConfirmation ui_text_warning_txn_fee_too_high true]
                   else [])
               ++ [EvScrollPage UI_TEXT_BTC_FEE
                                (ui_formatted (format_value fee)) true].
Proof.
  intros Hc Houts Hlen Hrun.
  destruct (first_rejection (receiver_pages 0 outs) (user_rounds s))
    as [Hacc | (j & p & Hp & Hacc & Hno)].
  - rewrite (get_user_verification_accepted s c outs Hc Houts Hlen Hacc) in Hrun.
    rewrite (confirm_fee_run _ c) in Hrun by exact Hc.
    destruct (btc_get_txn_fee c) as [fee |]; [| discriminate].
    exists fee. split; [reflexivity |]. split; [exact Hacc |].
    destruct (fee >? get_transaction_fee_threshold c).
    + destruct (user (user_rounds (after_prompts _ _ s))); [| discriminate].
      injection Hrun as Hb <-. rewrite Hb.
      cbn [after_prompts trace app]. rewrite <- app_assoc. reflexivity.
    + injection Hrun as Hb <-. rewrite Hb.
      cbn [after_prompts trace app]. rewrite <- app_assoc. reflexivity.
  - rewrite (get_user_verification_rejected s c outs j p Hc Houts Hlen Hp
               Hacc Hno) in Hrun.
    discriminate.
Qed.

End VerifyFrame.

Lemma verification_changes_nothing_witness :
  exists b s',
    @get_user_verification (sample_world [] [true; true; true])
      (phase_state (verify_context 100000
                      [sample_output 90000 0x76 false;
                       sample_output 9000 0x76 true]))
    = Some (b, s') /\
    same_transaction
      (phase_state (verify_context 100000
                      [sample_output 90000 0x76 false;
                       sample_output 9000 0x76 true])) s'.
Proof.
  destruct (@get_user_verification (sample_world [] [true; true; true])
              (phase_state (verify_context 100000
                              [sample_output 90000 0x76 false;
                               sample_output 9000 0x76 true])))
    as [[b s'] |] eqn:Hrun; [| vm_compute in Hrun; discriminate].
  exists b, s'. split; [reflexivity |].
  exact (@verification_changes_nothing (sample_world [] [true; true; true])
           _ s' b Hrun).
Defined.

Lemma approval_means_shown_witness :
  exists s' fee,
    @get_user_verification (sample_world [] [true; true; true; true])
      (phase_state (verify_context 100000
                      [sample_output 90000 0x76 false;
                       sample_output 5000 0x76 true]))
    = Some (true, s') /\
    btc_get_txn_fee (verify_context 100000
                       [sample_output 90000 0x76 false;
                        sample_output 5000 0x76 true]) = Some fee /\
    trace s' =
      [EvScrollPage (UI_TEXT_BTC_RECEIVER 1) (ui_formatted "address") true;
       EvScrollPage (UI_TEXT_BTC_RECEIVER 1) (ui_formatted "amount") true]
      ++ (if fee >? 2000
          then [EvConfirmation ui_text_warning_txn_fee_too_high true]
          else [])
      ++ [EvScrollPage UI_TEXT_BTC_FEE
            (ui_formatted (if fee =? 0 then "0" else "amount")) true].
Proof.
  destruct (@get_user_verification (sample_world [] [true; true; true; true])
              (phase_state (verify_context 100000
                              [sample_output 90000 0x76 false;
                               sample_output 5000 0x76 true])))
    as [[[|] s'] |] eqn:Hrun; try (vm_compute in Hrun; discriminate).
  destruct (@approval_means_shown (sample_world [] [true; true; true; true])
              (phase_state (verify_context 100000
                              [sample_output 90000 0x76 false;
                               sample_output 5000 0x76 true]))
              s'
              (verify_context 100000
                 [sample_output 90000 0x76 false;
                  sample_output 5000 0x76 true])
              [sample_output 90000 0x76 false; sample_output 5000 0x76 true]
              eq_refl eq_refl eq_refl Hrun)
    as (fee & Hfee & _ & Htrace).
  exists s', fee. split; [reflexivity |]. split; [exact Hfee | exact Htrace].
Defined.

Section WholeFlow.
Context `{W : Collaborators}.

Lemma init_outcome (s : state) :
  btc_txn_context s = Some zero_context ->
  exists b s' evs,
    handle_initiate_query s = Some (b, s') /\
    trace s' = trace s ++ evs /\
    Forall (fun e => calm e = true) evs /\
    host_rounds s' = host_rounds s /\
    (user_rounds s' <= user_rounds s + 1)%nat /\
    (b = false -> btc_txn_context s' = Some zero_context) /\
    (b = true ->
     exists c', btc_txn_context s' = Some c' /\
                inputs c' = None /\ outputs c' = None).
Proof.
  intros Hc. destruct s as [p q hr ur tr]. cbn in Hc. subst p.
  unfold handle_initiate_query. flow_simpl.
  destruct (decide _); flow_simpl.
  - eexists _, _, [_]. split; [reflexivity |]. cbn.
    repeat split; auto; try lia; try discriminate.
  - destruct (btc_derivation_path_guard _); flow_simpl.
    + destruct (get_wallet_name_by_id _); flow_simpl.
      * destruct (user ur); flow_simpl.
        -- eexists _, _, [_; _; _]. split; [reflexivity |]. cbn.
           split; [trace_norm; reflexivity |].
           repeat split; auto; try lia; try discriminate.
           intros _. eexists. repeat split.
        -- eexists _, _, [_]. split; [reflexivity |]. cbn.
           repeat split; auto; try lia; try discriminate.
      * eexists _, _, []. split; [reflexivity |]. cbn.
        rewrite app_nil_r.
        repeat split; auto; try lia; try discriminate.
    + eexists _, _, [_]. split; [reflexivity |]. cbn.
      repeat split; auto; try lia; try discriminate.
Qed.

Lemma meta_outcome (s : state) :
  btc_txn_context s = Some zero_context ->
  exists b s',
    fetch_transaction_meta s = Some (b, s') /\
    host_rounds s' = S (host_rounds s) /\
    user_rounds s' = user_rounds s /\
    ((b = false /\ btc_txn_context s' = Some zero_context /\
      exists evs, trace s' = trace s ++ evs /\
                  Forall (fun e => calm e = true) evs)
     \/
     (b = true /\
      exists c' n m (a1 a2 : bool),
        btc_txn_context s' = Some c' /\
        match inputs c' with Some _ => [EvFreeInputs] | None => [] end
          = (if a1 then [EvFreeInputs] else []) /\
        match outputs c' with Some _ => [EvFreeOutputs] | None => [] end
          = (if a2 then [EvFreeOutputs] else []) /\
        trace s' = trace s ++
          [EvGetQuery true; EvMallocInputs n a1; EvMallocOutputs m a2;
           EvSendResult BTC_SIGN_TXN_RESPONSE_META_ACCEPTED_TAG])).
Proof.
  intros Hc. destruct s as [p q hr ur tr]. cbn in Hc. subst p.
  unfold fetch_transaction_meta. flow_simpl.
  destruct (host hr) as [ok q']. flow_simpl.
  destruct ok; flow_simpl.
  - destruct (decide _); flow_simpl.
    + eexists _, _. split; [reflexivity |]. cbn.
      split; [reflexivity |]. split; [reflexivity |]. left.
      split; [reflexivity |]. split; [reflexivity |].
      eexists [_; _]. split; [trace_norm; reflexivity |].
      repeat constructor.
    + destruct (negb _ || _ || _); flow_simpl.
      * eexists _, _. split; [reflexivity |]. cbn.
        split; [reflexivity |]. split; [reflexivity |]. left.
        split; [reflexivity |]. split; [reflexivity |].
        eexists [_; _]. split; [trace_norm; reflexivity |].
        repeat constructor.
      * eexists _, _. split; [reflexivity |]. cbn.
        split; [reflexivity |]. split; [reflexivity |]. right.
        split; [reflexivity |].
        eexists _, _, _, _, _. split; [reflexivity |].
        cbn [inputs outputs trace]. unfold malloc_array.
        split; [| split]; cycle 2.
        -- trace_norm. reflexivity.
        -- destruct (malloc_succeeds 0 _); reflexivity.
        -- destruct (malloc_succeeds 1 _); reflexivity.
  - eexists _, _. split; [reflexivity |]. cbn.
    split; [reflexivity |]. split; [reflexivity |]. left.
    split; [reflexivity |]. split; [reflexivity |].
    eexists [_]. split; [reflexivity |]. repeat constructor.
Qed.

Lemma release_run (s : state) (c : btc_txn_context_t) :
  btc_txn_context s = Some c ->
  release s
  = Some (tt,
          {| btc_txn_context := None;
             query := query s;
             host_rounds := host_rounds s;
             user_rounds := user_rounds s;
             trace := trace s
               ++ match inputs c with Some _ => [EvFreeInputs] | None => [] end
               ++ match outputs c with Some _ => [EvFreeOutputs] | None => [] end
               ++ [EvFreeContext] |}).
Proof.
  intros Hc. destruct s as [p q hr ur tr]. cbn in Hc. subst p.
  unfold release. cbn [btc_txn_context].
  destruct (inputs c), (outputs c); flow_simpl; trace_norm;
    rewrite ?app_nil_r; reflexivity.
Qed.

(** The shape of every run: the prelude, calm events of INIT and possibly of
    a failed META, or the events of an accepted META, and the releases. *)
Lemma btc_sign_transaction_outcome (s : state) :
  exists s' body,
    btc_sign_transaction s = Some (tt, s') /\
    btc_txn_context s' = None /\
    (host_rounds s' <= host_rounds s + 1)%nat /\
    (user_rounds s' <= user_rounds s + 1)%nat /\
    Forall (fun e => calm e = true) body /\
    (trace s' = trace s ++ [EvMallocContext] ++ body ++ [EvFreeContext]
     \/ exists n m (a1 a2 : bool),
          trace s' = trace s ++ [EvMallocContext] ++ body
            ++ [EvGetQuery true; EvMallocInputs n a1; EvMallocOutputs m a2;
                EvSendResult BTC_SIGN_TXN_RESPONSE_META_ACCEPTED_TAG]
            ++ (if a1 then [EvFreeInputs] else [])
            ++ (if a2 then [EvFreeOutputs] else [])
            ++ [EvFreeContext]).
Proof.
  unfold btc_sign_transaction.
  erewrite bind_eq by reflexivity. erewrite bind_eq by reflexivity.
  match goal with
  | |- context [bind _ _ ?s1] => set (s1' := s1)
  end.
  assert (Hc1 : btc_txn_context s1' = Some zero_context) by reflexivity.
  assert (Ht1 : trace s1' = trace s ++ [EvMallocContext]) by reflexivity.
  assert (Hh1 : host_rounds s1' = host_rounds s) by reflexivity.
  assert (Hu1 : user_rounds s1' = user_rounds s) by reflexivity.
  clearbody s1'.
  destruct (init_outcome s1' Hc1)
    as (b1 & s2 & e1 & Hrun1 & Ht2 & Hcalm1 & Hh2 & Hu2 & Hf1 & Hs1).
  unfold andM, notM, bind, ret. rewrite Hrun1.
  destruct b1; cbn [negb].
  - destruct (Hs1 eq_refl) as (c' & Hc' & Hin & Hout).
    rewrite (release_run s2 c' Hc'). rewrite Hin, Hout.
    eexists _, e1. split; [reflexivity |]. cbn.
    split; [reflexivity |]. split; [lia |]. split; [lia |].
    split; [exact Hcalm1 |]. left.
    rewrite Ht2, Ht1, <- !app_assoc. reflexivity.
  - destruct (meta_outcome s2 (Hf1 eq_refl))
      as (b2 & s3 & Hrun2 & Hh3 & Hu3 & Hcase).
    rewrite Hrun2.
    destruct Hcase as [(-> & Hc3 & e2 & Ht3 & Hcalm2)
                      | (-> & c' & n & m & a1 & a2 & Hc3 & Hin & Hout & Ht3)];
      cbn [negb].
    + unfold fetch_valid_input, read_context, bind. rewrite Hc3.
      cbn [metadata zero_context input_count].
      change (fetch_valid_input_loop (Z.to_nat 0) 0 s3) with (Some (true, s3)).
      cbn [negb].
      rewrite (release_run s3 zero_context Hc3).
      eexists _, (e1 ++ e2). split; [reflexivity |]. cbn.
      split; [reflexivity |]. split; [lia |]. split; [lia |].
      split; [apply Forall_app; auto |]. left.
      rewrite Ht3, Ht2, Ht1, <- !app_assoc. reflexivity.
    + rewrite (release_run s3 c' Hc3). rewrite Hin, Hout.
      eexists _, e1. split; [reflexivity |]. cbn.
      split; [reflexivity |]. split; [lia |]. split; [lia |].
      split; [exact Hcalm1 |]. right. exists n, m, a1, a2.
      rewrite Ht3, Ht2, Ht1, <- !app_assoc. reflexivity.
Qed.

End WholeFlow.

Section WholeFlowClaims.
Context `{W : Collaborators}.


Ltac calm_split :=
  unfold calm; intros H; apply negb_true_iff in H;
  repeat (apply orb_false_iff in H as [H ?]); assumption.

Lemma calm_not_later e : calm e = true -> is_later_phase_event e = false.
Proof. calm_split. Qed.


(** X14. A run of [btc_sign_transaction] never gets past the INPUTS call:
    whatever the host and the user do, it reads at most one host round and
    shows at most one prompt, it never accepts an input or an output, never
    shows a receiver or fee page, and never shows the failure notice of
    [delay_scr_init]. *)
Theorem later_phases_never_run (s : state) :
  exists s' evs,
    btc_sign_transaction s = Some (tt, s') /\
    trace s' = trace s ++ evs /\
    Forall (fun e => is_later_phase_event e = false) evs /\
    (host_rounds s' <= host_rounds s + 1)%nat /\
    (user_rounds s' <= user_rounds s + 1)%nat.
Proof.
  destruct (btc_sign_transaction_outcome s)
    as (s' & body & Hrun & _ & Hh & Hu & Hcalm
        & [Ht | (n & m & a1 & a2 & Ht)]).
  - eexists s', _. split; [exact Hrun |]. split; [exact Ht |].
    split; [| split; assumption].
    apply Forall_app. split; [repeat constructor |].
    apply Forall_app. split; [| repeat constructor].
    eapply Forall_impl; [exact Hcalm |]. apply calm_not_later.
  - eexists s', _. split; [exact Hrun |]. split; [exact Ht |].
    split; [| split; assumption].
    apply Forall_app. split; [repeat constructor |].
    apply Forall_app. split; [| destruct a1, a2; repeat constructor].
    eapply Forall_impl; [exact Hcalm |]. apply calm_not_later.
Qed.

End WholeFlowClaims.

Section Composition.
Context `{W : Collaborators}.



(** X15. [fetch_transaction_meta] returns success only for a received
    metadata sub-request with sighash 1 and nonzero counts, and then the
    context holds that metadata, the initiate data are kept, and [inputs]
    and [outputs] hold whatever [malloc] returned for [sizeof * count]
    bytes computed in [size_t]: NULL if the allocation failed, an array of
    [bytes / sizeof] slots otherwise. *)
Theorem meta_success_invariant (s s1 : state) :
  fetch_transaction_meta s = Some (true, s1) ->
  fst (host (host_rounds s)) = true /\
  query s1 = snd (host (host_rounds s)) /\
  which_request (sign_txn (query s1)) = BTC_SIGN_TXN_REQUEST_META_TAG /\
  exists c c1,
    btc_txn_context s = Some c /\
    btc_txn_context s1 = Some c1 /\
    init_info c1 = init_info c /\
    metadata c1 = meta (sign_txn (query s1)) /\
    sighash (metadata c1) = 1 /\
    input_count (metadata c1) <> 0 /\
    output_count (metadata c1) <> 0 /\
    inputs c1
    = (if malloc_succeeds 0
            (alloc_bytes sizeof_btc_txn_input_t (input_count (metadata c1)))
       then Some (fresh_array heap_input
                    (alloc_bytes sizeof_btc_txn_input_t
                                 (input_count (metadata c1))
                     / sizeof_btc_txn_input_t))
       else None) /\
    outputs c1
    = (if malloc_succeeds 1
            (alloc_bytes sizeof_btc_sign_txn_output_t
                         (output_count (metadata c1)))
       then Some (fresh_array heap_output
                    (alloc_bytes sizeof_btc_sign_txn_output_t
                                 (output_count (metadata c1))
                     / sizeof_btc_sign_txn_output_t))
       else None).
Proof.
  destruct s as [p q hr ur tr]. unfold fetch_transaction_meta. flow_simpl.
  destruct (host hr) as [ok q']. flow_simpl.
  destruct ok; flow_simpl; [| discriminate].
  destruct (decide _) as [Hne | Heq]; flow_simpl; [discriminate |].
  destruct (negb _ || _ || _) eqn:Hcheck; flow_simpl; [discriminate |].
  destruct p as [c |]; flow_simpl; [| discriminate].
  intros H. injection H as <-. cbn [query].
  apply orb_false_iff in Hcheck as [Hcheck Hout].
  apply orb_false_iff in Hcheck as [Hsig Hin].
  apply negb_false_iff, Z.eqb_eq in Hsig.
  apply Z.eqb_neq in Hin, Hout.
  split; [reflexivity |]. split; [reflexivity |].
  split.
  { destruct (decide (which_request (sign_txn q')
                      = BTC_SIGN_TXN_REQUEST_META_TAG)) as [E | N];
      [exact E | exfalso; apply Heq; congruence]. }
  eexists c, _. split; [reflexivity |]. split; [reflexivity |].
  cbn [init_info metadata inputs outputs]. unfold malloc_array.
  repeat split; auto; congruence.
Qed.


End Composition.

Lemma meta_success_invariant_witness :
  (exists s1 c1,
     @fetch_transaction_meta
       (sample_world [(true, meta_query sample_meta)] [])
       (phase_state zero_context) = Some (true, s1) /\
     btc_txn_context s1 = Some c1 /\
     metadata c1 = sample_meta /\
     inputs c1 = Some [zero_input] /\
     outputs c1 = Some [sample_output 0 0 false; sample_output 0 0 false])
  /\
  (exists s1 c1,
     @fetch_transaction_meta
       (sample_world [(true, meta_query greedy_meta)] [])
       (phase_state zero_context) = Some (true, s1) /\
     btc_txn_context s1 = Some c1 /\
     metadata c1 = greedy_meta /\
     inputs c1 = None /\
     outputs c1 = Some [sample_output 0 0 false; sample_output 0 0 false]).
Proof.
  split.
  - destruct (@fetch_transaction_meta
                (sample_world [(true, meta_query sample_meta)] [])
                (phase_state zero_context))
      as [[[|] s1] |] eqn:Hrun; try (vm_compute in Hrun; discriminate).
    destruct (@meta_success_invariant
                (sample_world [(true, meta_query sample_meta)] [])
                (phase_state zero_context) s1 Hrun)
      as (_ & Hq & _ & c & c1 & _ & Hc1 & _ & Hm & _ & _ & _ & Hins & Houts).
    exists s1, c1. split; [reflexivity |]. split; [exact Hc1 |].
    assert (Hmeta : metadata c1 = sample_meta)
      by (rewrite Hm, Hq; reflexivity).
    split; [exact Hmeta |].
    rewrite Hins, Houts, Hmeta. split; reflexivity.
  - destruct (@fetch_transaction_meta
                (sample_world [(true, meta_query greedy_meta)] [])
                (phase_state zero_context))
      as [[[|] s1] |] eqn:Hrun; try (vm_compute in Hrun; discriminate).
    destruct (@meta_success_invariant
                (sample_world [(true, meta_query greedy_meta)] [])
                (phase_state zero_context) s1 Hrun)
      as (_ & Hq & _ & c & c1 & _ & Hc1 & _ & Hm & _ & _ & _ & Hins & Houts).
    exists s1, c1. split; [reflexivity |]. split; [exact Hc1 |].
    assert (Hmeta : metadata c1 = greedy_meta)
      by (rewrite Hm, Hq; reflexivity).
    split; [exact Hmeta |].
    rewrite Hins, Houts, Hmeta. split; reflexivity.
Defined.


Section SuccessMeans.
Context `{W : Collaborators}.

(** X17. [handle_initiate_query] returns success only if the query was an
    initiate request, its derivation path passed the guard, the wallet was
    found and the user accepted the prompt naming it. *)
Theorem initiate_success_means_confirmed (s s' : state) :
  handle_initiate_query s = Some (true, s') ->
  which_request (sign_txn (query s)) = BTC_SIGN_TXN_REQUEST_INITIATE_TAG /\
  btc_derivation_path_guard
    (derivation_path (initiate (sign_txn (query s)))) = true /\
  user (user_rounds s) = true /\
  exists name,
    get_wallet_name_by_id (wallet_id (initiate (sign_txn (query s))))
      = Some name /\
    trace s' = trace s ++
      [EvConfirmation (UI_TEXT_BTC_SEND_PROMPT app_name name) true;
       EvSetFlowStatusConfirm;
       EvSendResult BTC_SIGN_TXN_RESPONSE_CONFIRMATION_TAG].
Proof.
  destruct s as [p q hr ur tr]. unfold handle_initiate_query. flow_simpl.
  destruct (decide _) as [Hne | Heq]; flow_simpl; [discriminate |].
  destruct (btc_derivation_path_guard _) eqn:Hpath; flow_simpl;
    [| discriminate].
  destruct (get_wallet_name_by_id _) as [name |] eqn:Hname; flow_simpl;
    [| discriminate].
  destruct (user ur) eqn:Hu; flow_simpl; [| discriminate].
  destruct p as [c |]; flow_simpl; [| discriminate].
  intros H. injection H as <-. cbn [trace].
  split.
  { destruct (decide (which_request (sign_txn q)
                      = BTC_SIGN_TXN_REQUEST_INITIATE_TAG)) as [E | N];
      [exact E | exfalso; apply Heq; congruence]. }
  split; [reflexivity |]. split; [reflexivity |].
  exists name. split; [reflexivity |]. trace_norm. reflexivity.
Qed.

Lemma input_loop_success (n : nat) :
  forall (idx : nat) (s s' : state) (c : btc_txn_context_t)
         (ins : list btc_txn_input_t),
    btc_txn_context s = Some c ->
    inputs c = Some ins ->
    (idx + n <= length ins)%nat ->
    fetch_valid_input_loop n idx s = Some (true, s') ->
    forall i slot, (i < n)%nat -> ins !! (idx + i)%nat = Some slot ->
      input_gate_open (host_rounds s + i)%nat /\
      fst (input_verdict (host_rounds s + i)%nat slot) = true.
Proof.
  induction n as [| n IH]; intros idx s s' c ins Hc Hins Hlen Hrun i slot Hi Hslot;
    [lia |].
  destruct (lookup_lt_is_Some_2 ins idx ltac:(lia)) as [slot0 Hslot0].
  destruct (host (host_rounds s)) as [ok q] eqn:Hh.
  cbn [fetch_valid_input_loop] in Hrun.
  destruct (decide (ok = true
                    \/ which_request (sign_txn q)
                       = BTC_SIGN_TXN_REQUEST_INPUT_TAG)) as [Hgate | Hgate].
  - assert (Hround :=
      fetch_valid_input_round_passed s c ins slot0 idx ok q Hc Hins Hslot0
        Hh Hgate).
    cbv zeta in Hround.
    destruct (fst (btc_verify_input _ _ slot0)) eqn:Hv;
      rewrite (bind_eq _ _ _ _ _ Hround) in Hrun; [| discriminate].
    destruct i as [| i].
    + rewrite Nat.add_0_r in Hslot. rewrite Hslot0 in Hslot.
      injection Hslot as <-.
      unfold input_gate_open, input_verdict. rewrite ?Nat.add_0_r, Hh.
      split; assumption.
    + replace (host_rounds s + S i)%nat with (S (host_rounds s) + i)%nat by lia.
      match type of Hrun with
      | fetch_valid_input_loop _ _ ?s1 = _ =>
        apply (IH (S idx) s1 s' _ _ eq_refl eq_refl
                 ltac:(rewrite length_insert; lia) Hrun i slot ltac:(lia))
      end.
      rewrite list_lookup_insert_ne by lia.
      replace (S idx + i)%nat with (idx + S i)%nat by lia. exact Hslot.
  - destruct ok; [exfalso; apply Hgate; left; reflexivity |].
    rewrite (bind_eq _ _ _ _ _
               (fetch_valid_input_round_rejected s idx q Hh
                  ltac:(intros E; apply Hgate; right; exact E))) in Hrun.
    discriminate.
Qed.

(** X18. [fetch_valid_input] returns success only if every one of the
    [input_count] rounds passed the gate and was accepted by
    [btc_verify_input]; slot [i] of the context then holds the record bound
    from the [i]-th round. *)
Theorem input_success_means_verified (s s' : state) (c : btc_txn_context_t)
    (ins : list btc_txn_input_t) :
  btc_txn_context s = Some c ->
  inputs c = Some ins ->
  length ins = Z.to_nat (input_count (metadata c)) ->
  fetch_valid_input s = Some (true, s') ->
  exists ins',
    btc_txn_context s' = Some (set_inputs (Some ins') c) /\
    host_rounds s' = (host_rounds s + length ins)%nat /\
    forall i slot, ins !! i = Some slot ->
      input_gate_open (host_rounds s + i)%nat /\
      fst (input_verdict (host_rounds s + i)%nat slot) = true /\
      ins' !! i = Some (bound_input (host_rounds s + i)%nat slot).
Proof.
  intros Hc Hins Hlen Hrun. unfold fetch_valid_input in Hrun.
  erewrite bind_eq in Hrun by (unfold read_context; rewrite Hc; reflexivity).
  rewrite <- Hlen in Hrun.
  assert (Hall := input_loop_success (length ins) 0 s s' c ins Hc Hins
                    ltac:(lia) Hrun).
  destruct (input_loop_accepts (length ins) 0 0 s c ins Hc Hins ltac:(lia))
    as (s1 & ins1 & Hrun1 & Hctx & _ & Hhr & _ & _ & Hbound & _).
  { intros i slot Hi Hslot. apply Hall; assumption. }
  rewrite Nat.add_0_r in Hrun1. rewrite Hrun1 in Hrun.
  injection Hrun as <-.
  exists ins1. split; [exact Hctx |]. split; [exact Hhr |].
  intros i slot Hslot.
  assert (Hi : (i < length ins)%nat) by (eapply lookup_lt_Some; exact Hslot).
  destruct (Hall i slot Hi Hslot) as [Hg Hv].
  split; [exact Hg |]. split; [exact Hv |]. apply Hbound; assumption.
Qed.

Lemma output_loop_success (n : nat) :
  forall (idx : nat) (z z' : bool) (s s' : state) (c : btc_txn_context_t)
         (outs : list btc_sign_txn_output_t),
    btc_txn_context s = Some c ->
    outputs c = Some outs ->
    (idx + n <= length outs)%nat ->
    fetch_valid_output_loop n idx z s = Some (Some z', s') ->
    (forall i, (i < n)%nat ->
       fst (host (host_rounds s + i)%nat) = true
       \/ which_request (sign_txn (snd (host (host_rounds s + i)%nat)))
          = BTC_SIGN_TXN_REQUEST_OUTPUT_TAG) /\
    forallb (fun o => negb (carries_locked_funds o))
            (delivered_outputs (host_rounds s) n) = true.
Proof.
  induction n as [| n IH]; intros idx z z' s s' c outs Hc Houts Hlen Hrun.
  - split; [intros i Hi; lia | reflexivity].
  - destruct (host (host_rounds s)) as [ok q] eqn:Hh.
    cbn [fetch_valid_output_loop] in Hrun.
    destruct (decide (ok = true
                      \/ which_request (sign_txn q)
                         = BTC_SIGN_TXN_REQUEST_OUTPUT_TAG)) as [Hgate | Hgate].
    + assert (Hround :=
        fetch_valid_output_round_passed s c outs idx z ok q Hc Houts
          ltac:(lia) Hh Hgate).
      destruct (carries_locked_funds (output (sign_txn q))) eqn:Hlocked;
        rewrite (bind_eq _ _ _ _ _ Hround) in Hrun; [discriminate |].
      match type of Hrun with
      | fetch_valid_output_loop _ _ ?z1 ?s1 = _ =>
        destruct (IH (S idx) z1 z' s1 s'
                    (set_outputs (Some (<[idx := output (sign_txn q)]> outs)) c)
                    (<[idx := output (sign_txn q)]> outs)
                    eq_refl eq_refl
                    ltac:(rewrite length_insert; lia) Hrun)
          as [Hgates Hfree]
      end.
      cbn [host_rounds] in *. split.
      * intros [| i] Hi.
        -- rewrite Nat.add_0_r, Hh. exact Hgate.
        -- replace (host_rounds s + S i)%nat
             with (S (host_rounds s) + i)%nat by lia.
           apply Hgates. lia.
      * cbn [delivered_outputs forallb]. rewrite Hh. cbn [snd].
        rewrite Hlocked. exact Hfree.
    + destruct ok; [exfalso; apply Hgate; left; reflexivity |].
      rewrite (bind_eq _ _ _ _ _
                 (fetch_valid_output_round_rejected s idx z q Hh
                    ltac:(intros E; apply Hgate; right; exact E))) in Hrun.
      discriminate.
Qed.

(** X19. [fetch_valid_output] returns success only if the outputs it has
    stored in the context pass the output policy: the array then holds the
    [output_count] received records, none of them has a data-carrier first
    byte together with a nonzero value, and at least one has a nonzero
    value. *)
Theorem output_success_means_acceptable (s s' : state)
    (c : btc_txn_context_t) (outs : list btc_sign_txn_output_t) :
  btc_txn_context s = Some c ->
  outputs c = Some outs ->
  length outs = Z.to_nat (output_count (metadata c)) ->
  fetch_valid_output s = Some (true, s') ->
  exists outs',
    btc_txn_context s' = Some (set_outputs (Some outs') c) /\
    outs' = delivered_outputs (host_rounds s) (length outs) /\
    outputs_acceptable outs' = true.
Proof.
  intros Hc Houts Hlen Hrun. unfold fetch_valid_output in Hrun.
  erewrite bind_eq in Hrun by (unfold read_context; rewrite Hc; reflexivity).
  rewrite <- Hlen in Hrun. unfold bind in Hrun.
  destruct (fetch_valid_output_loop (length outs) 0 true s)
    as [[[z' |] s1] |] eqn:Hloop; try discriminate.
  destruct (output_loop_success (length outs) 0 true z' s s1 c outs Hc Houts
              ltac:(lia) Hloop) as [Hgates Hfree].
  destruct (output_loop_stores (length outs) 0 true s c outs Hc Houts
              ltac:(lia) Hgates Hfree) as (s2 & Hrun2 & Hctx & _).
  rewrite Hloop in Hrun2. injection Hrun2 as Hz <-.
  rewrite take_0, drop_ge, app_nil_r in Hctx by (cbn; lia). cbn [app] in Hctx.
  destruct z'.
  { cbv beta iota zeta delta [bind ret btc_send_error emit] in Hrun.
    discriminate. }
  injection Hrun as <-.
  exists (delivered_outputs (host_rounds s) (length outs)).
  split; [exact Hctx |]. split; [reflexivity |].
  rewrite outputs_acceptable_verdict. unfold loop_verdict.
  rewrite Hfree. cbn [andb] in Hz |- *. rewrite <- Hz. reflexivity.
Qed.

End SuccessMeans.

Lemma initiate_success_means_confirmed_witness :
  exists s',
    @handle_initiate_query (sample_world [] [true]) (phase_state zero_context)
    = Some (true, s') /\
    trace s' =
      [EvConfirmation (UI_TEXT_BTC_SEND_PROMPT "Bitcoin" "Savings") true;
       EvSetFlowStatusConfirm;
       EvSendResult BTC_SIGN_TXN_RESPONSE_CONFIRMATION_TAG].
Proof.
  destruct (@handle_initiate_query (sample_world [] [true])
              (phase_state zero_context))
    as [[[|] s'] |] eqn:Hrun; try (vm_compute in Hrun; discriminate).
  destruct (@initiate_success_means_confirmed (sample_world [] [true])
              (phase_state zero_context) s' Hrun)
    as (_ & _ & _ & name & Hname & Htrace).
  exists s'. split; [reflexivity |].
  injection Hname as <-. exact Htrace.
Defined.

Lemma input_success_means_verified_witness :
  exists s',
    @fetch_valid_input
      (sample_world [(true, input_query BTC_SIGN_TXN_REQUEST_INPUT_TAG 5000);
                     (true, short_script_query 7000)] [])
      (phase_state two_input_context) = Some (true, s') /\
    btc_txn_context s'
    = Some (set_inputs (Some [first_bound_input; second_bound_input])
                       two_input_context) /\
    host_rounds s' = 2%nat /\
    fst (sample_verify_input [0xe8; 0x03; 0x76; 0xa9] 4 zero_input) = true /\
    fst (sample_verify_input [0xe8; 0x03; 0x76; 0xa9] 4 stale_input) = true.
Proof.
  destruct (@fetch_valid_input
              (sample_world
                 [(true, input_query BTC_SIGN_TXN_REQUEST_INPUT_TAG 5000);
                  (true, short_script_query 7000)] [])
              (phase_state two_input_context))
    as [[[|] s'] |] eqn:Hrun; try (vm_compute in Hrun; discriminate).
  destruct (@input_success_means_verified
              (sample_world
                 [(true, input_query BTC_SIGN_TXN_REQUEST_INPUT_TAG 5000);
                  (true, short_script_query 7000)] [])
              (phase_state two_input_context) s' two_input_context
              [zero_input; stale_input]
              eq_refl eq_refl eq_refl Hrun)
    as (ins' & Hctx & Hhr & Hall).
  destruct (Hall 0%nat zero_input eq_refl) as (_ & Hv0 & H0).
  destruct (Hall 1%nat stale_input eq_refl) as (_ & Hv1 & H1).
  assert (Hboth : ins' = [first_bound_input; second_bound_input]).
  { assert (Hs := Hrun). vm_compute in Hs. injection Hs as Hs.
    rewrite <- Hs in Hctx. cbn in Hctx. injection Hctx as <-.
    reflexivity. }
  exists s'. split; [reflexivity |]. rewrite Hboth in Hctx.
  split; [exact Hctx |]. split; [exact Hhr |].
  split; [exact Hv0 | exact Hv1].
Defined.

Lemma output_success_means_acceptable_witness :
  exists s',
    @fetch_valid_output
      (sample_world
         [(true, output_query BTC_SIGN_TXN_REQUEST_OUTPUT_TAG
                              (sample_output 90000 0x76 false));
          (true, output_query BTC_SIGN_TXN_REQUEST_OUTPUT_TAG
                              (sample_output 9000 0x76 true))] [])
      (phase_state sample_context) = Some (true, s') /\
    btc_txn_context s'
    = Some (set_outputs
              (Some [sample_output 90000 0x76 false;
                     sample_output 9000 0x76 true]) sample_context) /\
    outputs_acceptable [sample_output 90000 0x76 false;
                        sample_output 9000 0x76 true] = true.
Proof.
  destruct (@fetch_valid_output
              (sample_world
                 [(true, output_query BTC_SIGN_TXN_REQUEST_OUTPUT_TAG
                                      (sample_output 90000 0x76 false));
                  (true, output_query BTC_SIGN_TXN_REQUEST_OUTPUT_TAG
                                      (sample_output 9000 0x76 true))] [])
              (phase_state sample_context))
    as [[[|] s'] |] eqn:Hrun; try (vm_compute in Hrun; discriminate).
  destruct (@output_success_means_acceptable
              (sample_world
                 [(true, output_query BTC_SIGN_TXN_REQUEST_OUTPUT_TAG
                                      (sample_output 90000 0x76 false));
                  (true, output_query BTC_SIGN_TXN_REQUEST_OUTPUT_TAG
                                      (sample_output 9000 0x76 true))] [])
              (phase_state sample_context) s' sample_context
              [sample_output 0 0 false; sample_output 0 0 false]
              eq_refl eq_refl eq_refl Hrun)
    as (outs' & Hctx & Hdel & Hok).
  exists s'. split; [reflexivity |]. subst outs'.
  split; [exact Hctx | exact Hok].
Defined.
